(** * AgentBot: the evidence-gated onboarding state machine, the approval
      manager and the thread orchestrator

    A shallow embedding of [app/models.py], [app/state_machine.py],
    [app/database.py], [app/tools.py], [app/hitl.py] and of parts of
    [app/hitl_tools.py] and [app/main.py], followed by the properties
    established about them.

    Conventions of the embedding:
    - a Python [dict] is an insertion-ordered association list ([Py.dict]);
    - a [datetime] is an integer time stamp, in microseconds since
      1970-01-01T00:00:00, and every reading of [datetime.utcnow()] made
      during one call is the argument [now] of the embedded operation;
      [datetime_min] and [datetime_max] bound what [datetime] arithmetic
      can produce;
    - the store answers: a commit fails only for what the code hands it (a
      key that exists, a value that the JSON encoder of a column rejects);
    - code that can raise returns a [Py.result]; [await] is sequential, so an
      [async def] is embedded as an ordinary function;
    - [int / int] (true division) is IEEE binary64 division of the two
      operands, which is exact to the last bit for the small integers at
      hand. *)

From Stdlib Require Import String List ZArith Bool Lia Permutation.
From Stdlib Require Import Floats.
Import ListNotations.

(* ================================================================== *)
(** * Python values: results, dictionaries, list helpers *)
(* ================================================================== *)

Module Py.

(** The outcome of a call: a returned value or a raised exception. *)
Inductive result (E A : Type) : Type :=
| Return (a : A)
| Raise (e : E).

Arguments Return {E A} a.
Arguments Raise {E A} e.

Definition bind {E A B} (r : result E A) (k : A -> result E B) : result E B :=
  match r with
  | Return a => k a
  | Raise e => Raise e
  end.

Definition returned {E A} (r : result E A) : bool :=
  match r with Return _ => true | Raise _ => false end.

(** [xs.index(x)]: position of the first occurrence; [None] stands for the
    [ValueError] that Python raises when [x] is absent. *)
Fixpoint index {A} (eqb : A -> A -> bool) (x : A) (xs : list A) : option nat :=
  match xs with
  | [] => None
  | y :: ys => if eqb y x then Some 0%nat
               else option_map S (index eqb x ys)
  end.

(** [x in xs]. *)
Definition contains {A} (eqb : A -> A -> bool) (x : A) (xs : list A) : bool :=
  existsb (fun y => eqb y x) xs.

(** Truthiness of a list and of an [Optional]. *)
Definition truthy_list {A} (xs : list A) : bool :=
  match xs with [] => false | _ :: _ => true end.

Definition truthy_opt {A} (o : option A) : bool :=
  match o with None => false | Some _ => true end.

(** ** Insertion-ordered dictionaries *)
Section Dict.
Variables K V : Type.
Variable eqb : K -> K -> bool.

Definition dict := list (K * V).

(** [d.get(k)]. *)
Fixpoint get (k : K) (d : dict) : option V :=
  match d with
  | [] => None
  | (k', v) :: rest => if eqb k' k then Some v else get k rest
  end.

(** [d[k] = v]: an existing key keeps its position. *)
Fixpoint set (k : K) (v : V) (d : dict) : dict :=
  match d with
  | [] => [(k, v)]
  | (k', v') :: rest =>
      if eqb k' k then (k', v) :: rest else (k', v') :: set k v rest
  end.

Definition keys (d : dict) : list K := map fst d.
Definition values (d : dict) : list V := map snd d.
Definition items (d : dict) : list (K * V) := d.

(** Mutation of the stored objects, in place. *)
Definition map_values (f : V -> V) (d : dict) : dict :=
  map (fun kv => (fst kv, f (snd kv))) d.
End Dict.

Arguments get {K V} eqb k d.
Arguments set {K V} eqb k v d.
Arguments keys {K V} d.
Arguments values {K V} d.
Arguments items {K V} d.
Arguments map_values {K V} f d.

End Py.

Import Py.

Declare Scope py_scope.
Delimit Scope py_scope with py.
Notation "x <- c ;; k" := (Py.bind c (fun x => k))
  (at level 61, c at next level, right associativity) : py_scope.
Notation "' p <- c ;; k" := (Py.bind c (fun p => k))
  (at level 61, p pattern, c at next level, right associativity) : py_scope.

(* ================================================================== *)
(** * app/models.py *)
(* ================================================================== *)

Module Models.

(** Time stamps, in microseconds. *)
Definition datetime := Z.

(** [datetime.min] (0001-01-01T00:00:00) and [datetime.max]
    (9999-12-31T23:59:59.999999). *)
Definition datetime_min : datetime := (-62135596800000000)%Z.
Definition datetime_max : datetime := 253402300799999999%Z.

(** [timedelta(hours=h)]. *)
Definition timedelta_hours (h : Z) : Z := (h * 3600000000)%Z.

(** [timedelta(hours=h)] can be built: its whole days, [h // 24], have a
    magnitude of at most 999999999; otherwise the constructor raises
    [OverflowError]. *)
Definition timedelta_hours_ok (h : Z) : bool :=
  (Z.abs (h / 24) <=? 999999999)%Z.

(** [t + timedelta(hours=h)]: [None] stands for the [OverflowError] raised
    by the constructor of the difference, or by the addition when the sum
    leaves the range of [datetime]. *)
Definition datetime_plus_hours (t : datetime) (h : Z) : option datetime :=
  if timedelta_hours_ok h
     && (datetime_min <=? t + timedelta_hours h)%Z
     && (t + timedelta_hours h <=? datetime_max)%Z
  then Some (t + timedelta_hours h)%Z
  else None.

Module EnvName.
Inductive t : Set := dev | staging | prod.

Definition eqb (a b : t) : bool :=
  match a, b with
  | dev, dev | staging, staging | prod, prod => true
  | _, _ => false
  end.

Definition value (e : t) : string :=
  match e with
  | dev => "dev"
  | staging => "staging"
  | prod => "prod"
  end.
End EnvName.

Module EnvState.
Inductive t : Set :=
| not_started
| forms_raised
| creds_issued
| access_provisioned
| validated
| signoff_sent
| approved
| complete
| blocked
| changes_requested
| abandoned.

Definition eqb (a b : t) : bool :=
  match a, b with
  | not_started, not_started
  | forms_raised, forms_raised
  | creds_issued, creds_issued
  | access_provisioned, access_provisioned
  | validated, validated
  | signoff_sent, signoff_sent
  | approved, approved
  | complete, complete
  | blocked, blocked
  | changes_requested, changes_requested
  | abandoned, abandoned => true
  | _, _ => false
  end.

Definition value (s : t) : string :=
  match s with
  | not_started => "NotStarted"
  | forms_raised => "FormsRaised"
  | creds_issued => "CredsIssued"
  | access_provisioned => "AccessProvisioned"
  | validated => "Validated"
  | signoff_sent => "SignoffSent"
  | approved => "Approved"
  | complete => "Complete"
  | blocked => "Blocked"
  | changes_requested => "ChangesRequested"
  | abandoned => "Abandoned"
  end.
End EnvState.

Record TicketRef : Type := mkTicketRef {
  ticket_system : string;
  ticket_id : string;
  ticket_url : option string;
  ticket_kind : string;
  ticket_status : string;
  ticket_created_at : datetime
}.

Record SecretRef : Type := mkSecretRef {
  secret_name : string;
  secret_mask : string;
  secret_created_at : datetime
}.

Record ScreenshotRef : Type := mkScreenshotRef {
  screenshot_key : string;
  screenshot_label : string;
  screenshot_url : option string;
  screenshot_uploaded_at : datetime
}.

Record Evidence : Type := mkEvidence {
  tickets : list TicketRef;
  secret : option SecretRef;
  screenshots : list ScreenshotRef;
  emails : list string;
  notes : list string
}.

(** [Evidence()]. *)
Definition Evidence_default : Evidence := mkEvidence [] None [] [] [].

Record RedirectUris : Type := mkRedirectUris {
  web_callback : string;
  post_logout : option string;
  api_callback : option string
}.

Record PeopleSet : Type := mkPeopleSet {
  lanids : list string;
  approvers : list string;
  contacts : list (string * string)
}.

Definition PeopleSet_default : PeopleSet := mkPeopleSet [] [] [].

Record Environment : Type := mkEnvironment {
  name : EnvName.t;
  state : EnvState.t;
  evidence : Evidence;
  redirect_uris : option RedirectUris;
  people : PeopleSet;
  last_updated : datetime
}.

(** [Environment(name=n)], built at time [now]. *)
Definition Environment_default (n : EnvName.t) (now : datetime) : Environment :=
  mkEnvironment n EnvState.not_started Evidence_default None PeopleSet_default now.

Definition Environments := Py.dict EnvName.t Environment.

Record ClientThread : Type := mkClientThread {
  thread_id : string;
  display_name : string;
  environments : Environments;
  owner : string;
  created_by : string;
  created_at : datetime;
  last_update : datetime;
  blockers : list string;
  next_actions : list string;
  metadata : list (string * string)
}.

(** [ClientThread.__init__]: after the fields are set, an environments map
    that is falsy (absent, hence the empty default, or supplied empty) is
    replaced by one fresh environment per kind; any other supplied map is
    kept as it is. *)
Definition ClientThread_init
    (thread_id display_name : string) (environments : Environments)
    (owner created_by : string) (created_at last_update : datetime)
    (blockers next_actions : list string) (metadata : list (string * string))
    (now : datetime) : ClientThread :=
  let envs :=
    if negb (Py.truthy_list environments) then
      [ (EnvName.dev, Environment_default EnvName.dev now);
        (EnvName.staging, Environment_default EnvName.staging now);
        (EnvName.prod, Environment_default EnvName.prod now) ]
    else environments in
  mkClientThread thread_id display_name envs owner created_by
                 created_at last_update blockers next_actions metadata.

(** A value stored under a key of an audit entry's [details]. *)
#[warnings="-register-all"] Inductive Detail : Type :=
| DStr (s : string)
| DInt (n : Z)
| DBool (b : bool)
| DList (l : list string)
| DTime (t : datetime)
| DDict (d : list (string * Detail)).

Record AuditLog : Type := mkAuditLog {
  audit_id : option Z;
  audit_thread_id : string;
  actor : string;
  action : string;
  details : list (string * Detail);
  audit_created_at : datetime
}.

End Models.

Import Models.

(* ================================================================== *)
(** * Exceptions *)
(* ================================================================== *)

(** One entry of the error list of [validate_transition]; the constructor
    carries what the message interpolates. *)
Inductive ValidationError : Type :=
| InvalidTransition (current target : EnvState.t)
    (* "Invalid transition: {current} -> {target}" *)
| FormsRaisedRequiresTicket
    (* "FormsRaised requires at least one ticket" *)
| CredsIssuedRequiresSecret
    (* "CredsIssued requires client secret evidence" *)
| RequiresGlamGwam (env : EnvName.t)
    (* "{env} requires GLAM/GWAM tickets for access provisioning" *)
| RequiresScreenshots (missing_labels : list string)
    (* "Validation requires screenshots: {missing_labels}" *)
| SignoffSentRequiresEmail
    (* "SignoffSent requires email evidence" *)
| ApprovedRequiresEmail
    (* "Approved requires approval email evidence" *)
| RequiresPrevComplete (env prev_env : EnvName.t).
    (* "Environment {env} requires {prev_env} to be complete" *)

Inductive ValueErrorMsg : Type :=
| NotInList (x : EnvState.t)
    (* raised by list.index: "... is not in list" *)
| RepositoryNotAvailable
    (* "Thread repository not available" *)
| ThreadNotFound (thread_id : string)
    (* "Thread {thread_id} not found" *)
| EnvironmentNotFound (env : EnvName.t) (thread_id : string)
    (* "Environment {env} not found in thread {thread_id}" *)
| InvalidStateTransition (errors : list ValidationError)
    (* "Invalid state transition: {errors}" *)
| ContextNotFound
    (* "Context not found in function arguments" *)
| MustBeComplete (env_name : EnvName.t).
    (* "Environment {env_name} must be complete before production
       deployment" *)

Inductive exn : Type :=
| ValueError (msg : ValueErrorMsg)
| KeyError (k : EnvName.t)
| IndexError
    (* "list index out of range" *)
| OverflowError
    (* raised by [datetime] arithmetic *)
| IntegrityError (thread_id : string)
    (* a commit refused for a primary key that exists *)
| StatementError.
    (* a commit refused because the JSON encoder of a column raised
       [TypeError] on the value handed to it *)

(* ================================================================== *)
(** * app/state_machine.py *)
(* ================================================================== *)

Module StateMachine.
Import EnvState.

Local Open Scope py_scope.

Definition STATE_ORDER : list EnvState.t :=
  [ not_started; forms_raised; creds_issued; access_provisioned;
    validated; signoff_sent; approved; complete ].

Definition SPECIAL_STATES : list EnvState.t :=
  [ blocked; changes_requested; abandoned ].

Definition can_transition (current target : EnvState.t) : Py.result exn bool :=
  if Py.contains EnvState.eqb target SPECIAL_STATES then Return true
  else if EnvState.eqb current changes_requested then
    (* STATE_ORDER.index(current) is outside any try block *)
    match Py.index EnvState.eqb current STATE_ORDER with
    | None => Raise (ValueError (NotInList current))
    | Some i => Return (Py.contains EnvState.eqb target (firstn i STATE_ORDER))
    end
  else
    (* try: ... except ValueError: return False *)
    match Py.index EnvState.eqb current STATE_ORDER with
    | None => Return false
    | Some current_idx =>
        match Py.index EnvState.eqb target STATE_ORDER with
        | None => Return false
        | Some target_idx => Return (Nat.eqb target_idx (current_idx + 1))
        end
    end.

Definition required_labels : list string :=
  [ "login"; "consent"; "landing"; "token" ]%string.

Definition validate_transition
    (current target : EnvState.t) (env : EnvName.t) (evidence : Evidence)
    (thread : option ClientThread)
  : Py.result exn (bool * list ValidationError) :=
  ok <- can_transition current target ;;
  if negb ok then Return (false, [InvalidTransition current target])
  else
    errors <-
      match target with
      | forms_raised =>
          Return (if negb (Py.truthy_list (tickets evidence))
                  then [FormsRaisedRequiresTicket] else [])
      | creds_issued =>
          Return (if negb (Py.truthy_opt (secret evidence))
                  then [CredsIssuedRequiresSecret] else [])
      | access_provisioned =>
          if Py.contains EnvName.eqb env [EnvName.dev; EnvName.staging] then
            let glam_tickets :=
              filter (fun t => Py.contains String.eqb (ticket_kind t)
                                 ["GLAM"; "GWAM"]%string)
                     (tickets evidence) in
            Return (if negb (Py.truthy_list glam_tickets)
                    then [RequiresGlamGwam env] else [])
          else Return []
      | validated =>
          let screenshot_labels := map screenshot_label (screenshots evidence) in
          let missing_labels :=
            filter (fun label => negb (Py.contains String.eqb label screenshot_labels))
                   required_labels in
          Return (if Py.truthy_list missing_labels
                  then [RequiresScreenshots missing_labels] else [])
      | signoff_sent =>
          Return (if negb (Py.truthy_list (emails evidence))
                  then [SignoffSentRequiresEmail] else [])
      | approved =>
          Return (if negb (Py.truthy_list (emails evidence))
                  then [ApprovedRequiresEmail] else [])
      | complete =>
          match thread with
          | Some thread =>
              if Py.contains EnvName.eqb env [EnvName.staging; EnvName.prod] then
                let prev_env := if EnvName.eqb env EnvName.staging
                                then EnvName.dev else EnvName.staging in
                match Py.get EnvName.eqb prev_env (environments thread) with
                | None => Raise (KeyError prev_env)
                | Some prev =>
                    Return (if negb (EnvState.eqb (state prev) complete)
                            then [RequiresPrevComplete env prev_env] else [])
                end
              else Return []
          | None => Return []
          end
      | _ => Return []
      end ;;
    Return (Nat.eqb (length errors) 0, errors).

(** The contribution of one environment to [completed_states]. *)
Definition score (s : EnvState.t) : Z :=
  if EnvState.eqb s complete then Z.of_nat (length STATE_ORDER)
  else match Py.index EnvState.eqb s STATE_ORDER with
       | Some i => (Z.of_nat i + 1)%Z
       | None => 0%Z
       end.

Definition completed_states (thread : ClientThread) : Z :=
  fold_left (fun acc env => (acc + score (state env))%Z)
            (Py.values (environments thread)) 0%Z.

Definition float_of_int (n : Z) : float := PrimFloat.of_uint63 (Uint63.of_Z n).

(** [min(x, 1.0)]: the second argument is chosen only when strictly smaller. *)
Definition min_1 (x : float) : float :=
  if PrimFloat.ltb 1%float x then 1%float else x.

Definition calculate_progress (thread : ClientThread) : float :=
  let total_states := Z.of_nat (length STATE_ORDER) in
  let max_possible :=
    (total_states * Z.of_nat (length (environments thread)))%Z in
  if (max_possible >? 0)%Z
  then min_1 (PrimFloat.div (float_of_int (completed_states thread))
                            (float_of_int max_possible))
  else 0%float.

Definition get_next_actions (env : Environment) (thread : ClientThread) : list string :=
  match state env with
  | not_started =>
      [ "Create NSSR/OAuth ticket";
        "Create GLAM/GWAM tickets (if Dev/Staging)";
        "Generate redirect URIs" ]%string
  | forms_raised => [ "Wait for credentials to be issued" ]%string
  | creds_issued =>
      (if Py.contains EnvName.eqb (name env) [EnvName.dev; EnvName.staging]
       then [ "Create GLAM/GWAM tickets" ]%string else [])
      ++ [ "Test application sign-in" ]%string
  | access_provisioned =>
      [ "Capture login screenshot";
        "Capture consent screenshot";
        "Capture landing page screenshot";
        "Capture token/session screenshot" ]%string
  | validated =>
      [ "Send sign-off email with screenshots and redirect URIs" ]%string
  | signoff_sent => [ "Wait for approval email" ]%string
  | approved =>
      if EnvName.eqb (name env) EnvName.prod
      then [ "Production ready - onboarding complete" ]%string
      else [ "Proceed to next environment" ]%string
  | blocked => [ "Resolve blocker and retry" ]%string
  | changes_requested => [ "Address requested changes" ]%string
  | _ => []
  end.

Definition get_blockers (env : Environment) (thread : ClientThread) : list string :=
  match state env with
  | blocked =>
      [ "Environment is blocked - manual intervention required" ]%string
  | changes_requested =>
      [ "Changes requested - address feedback before proceeding" ]%string
  | forms_raised =>
      map (fun ticket =>
             ("Ticket " ++ ticket_id ticket ++ " (" ++ ticket_kind ticket
                ++ ") is still open")%string)
          (filter (fun ticket => String.eqb (ticket_status ticket) "open")
                  (tickets (evidence env)))
  | signoff_sent =>
      if negb (Py.truthy_list (emails (evidence env)))
      then [ "Waiting for sign-off approval" ]%string else []
  | _ => []
  end.

Definition get_current_environment (thread : ClientThread)
  : Py.result exn (option EnvName.t) :=
  let fix scan (env_names : list EnvName.t) :=
    match env_names with
    | [] => Return None
    | env_name :: rest =>
        match Py.get EnvName.eqb env_name (environments thread) with
        | None => Raise (KeyError env_name)
        | Some env =>
            if negb (Py.contains EnvState.eqb (state env) [complete; abandoned])
            then Return (Some env_name)
            else scan rest
        end
    end in
  scan [EnvName.dev; EnvName.staging; EnvName.prod].

End StateMachine.

(* ================================================================== *)
(** * app/database.py *)
(* ================================================================== *)

(** The repository is the content of its three tables.

    The [data] column of [environment_state] is a JSON column, and what a
    row holds there is what the encoder of the column accepted at commit.
    [_serialize_environment] puts into its dictionary ([EnvironmentDict])
    the [model_dump()] of every ticket, of the secret and of every
    screenshot, each of which has a [datetime] field ([created_at],
    [uploaded_at]), and the [model_dump()] of the redirect URIs, which are
    [Url] objects; the encoder raises [TypeError] on each of these.  So a
    stored value ([EnvironmentData]) has an empty list of tickets and of
    screenshots, no secret and no redirect URIs, and keeps the rest of the
    dictionary. *)

Record ClientThreadDB : Type := mkClientThreadDB {
  db_thread_id : string;
  db_display_name : string;
  db_owner : string;
  db_created_by : string;
  db_created_at : datetime;
  db_last_update : datetime;
  db_blockers : list string;
  db_next_actions : list string;
  db_metadata : list (string * string)
}.

Record EnvironmentDict : Type := mkEnvironmentDict {
  dict_name : EnvName.t;                       (* "name" *)
  dict_state : EnvState.t;                     (* "state" *)
  dict_tickets : list TicketRef;               (* "evidence" / "tickets" *)
  dict_secret : option SecretRef;              (* "evidence" / "secret" *)
  dict_screenshots : list ScreenshotRef;       (* "evidence" / "screenshots" *)
  dict_emails : list string;                   (* "evidence" / "emails" *)
  dict_notes : list string;                    (* "evidence" / "notes" *)
  dict_redirect_uris : option RedirectUris;    (* "redirect_uris" *)
  dict_people : PeopleSet;                     (* "people" *)
  dict_last_updated : datetime                 (* "last_updated" *)
}.

Record EnvironmentData : Type := mkEnvironmentData {
  data_name : EnvName.t;            (* "name" *)
  data_state : EnvState.t;          (* "state" *)
  data_emails : list string;        (* "evidence" / "emails" *)
  data_notes : list string;         (* "evidence" / "notes" *)
  data_people : PeopleSet;          (* "people" *)
  data_last_updated : datetime      (* "last_updated" *)
}.

Record EnvironmentStateDB : Type := mkEnvironmentStateDB {
  es_thread_id : string;
  es_env : EnvName.t;
  es_state : EnvState.t;
  es_data : EnvironmentData
}.

Record ThreadRepository : Type := mkThreadRepository {
  client_thread : list ClientThreadDB;
  environment_state : list EnvironmentStateDB;
  audit_log : list AuditLog
}.

Module Database.

Definition _serialize_environment (env : Environment) : EnvironmentDict :=
  mkEnvironmentDict (name env) (state env)
                    (tickets (evidence env)) (secret (evidence env))
                    (screenshots (evidence env)) (emails (evidence env))
                    (notes (evidence env))
                    (redirect_uris env) (people env) (last_updated env).

(** The encoder of the JSON column, applied to the dictionary when the row
    is committed; [None] when it raises [TypeError]. *)
Definition json_encode (d : EnvironmentDict) : option EnvironmentData :=
  match dict_tickets d, dict_secret d, dict_screenshots d,
        dict_redirect_uris d with
  | [], None, [], None =>
      Some (mkEnvironmentData (dict_name d) (dict_state d) (dict_emails d)
              (dict_notes d) (dict_people d) (dict_last_updated d))
  | _, _, _, _ => None
  end.

Definition _deserialize_environment (env_name : EnvName.t) (data : EnvironmentData)
  : Environment :=
  mkEnvironment env_name (data_state data)
                (mkEvidence [] None [] (data_emails data) (data_notes data))
                None (data_people data) (data_last_updated data).

Definition thread_row (thread : ClientThread) : ClientThreadDB :=
  mkClientThreadDB (thread_id thread) (display_name thread) (owner thread)
                   (created_by thread) (created_at thread) (last_update thread)
                   (blockers thread) (next_actions thread) (metadata thread).

(** The rows built for the environments of a thread, in the order of its
    map; [None] when the encoder rejects one of them. *)
Fixpoint env_rows (thread : ClientThread)
    (items : list (EnvName.t * Environment)) : option (list EnvironmentStateDB) :=
  match items with
  | [] => Some []
  | (env_name, env) :: rest =>
      match json_encode (_serialize_environment env),
            env_rows thread rest with
      | Some env_data, Some rows =>
          Some (mkEnvironmentStateDB (thread_id thread) env_name (state env)
                                     env_data :: rows)
      | _, _ => None
      end
  end.

Definition has_thread (repo : ThreadRepository) (tid : string) : bool :=
  existsb (fun r => String.eqb (db_thread_id r) tid) (client_thread repo).

Definition has_env_row (rows : list EnvironmentStateDB) (tid : string)
    (env : EnvName.t) : bool :=
  existsb (fun r => String.eqb (es_thread_id r) tid && EnvName.eqb (es_env r) env)
          rows.

(** [create_thread]: the thread row and one row per environment are added
    and committed together.  The commit fails, and nothing is stored, when
    the thread id exists ([IntegrityError]), when the encoder rejects the
    data of an environment ([StatementError]), or when a row exists for the
    thread id and one of the environments ([IntegrityError]). *)
Definition create_thread (repo : ThreadRepository) (thread : ClientThread)
  : ThreadRepository * Py.result exn ClientThread :=
  if has_thread repo (thread_id thread)
  then (repo, Raise (IntegrityError (thread_id thread)))
  else
    match env_rows thread (Py.items (environments thread)) with
    | None => (repo, Raise StatementError)
    | Some rows =>
        if existsb (fun item => has_env_row (environment_state repo)
                                            (thread_id thread) (fst item))
                   (Py.items (environments thread))
        then (repo, Raise (IntegrityError (thread_id thread)))
        else
          (mkThreadRepository
             (client_thread repo ++ [thread_row thread])
             (environment_state repo ++ rows)
             (audit_log repo),
           Return thread)
    end.

(** The order in which the rows of one thread are read.  The query has no
    [ORDER BY]; SQLite answers it through the index of the primary key
    [(thread_id, env)], that is by the [env] column: "dev", "prod",
    "staging". *)
Definition primary_key_order : list EnvName.t :=
  [EnvName.dev; EnvName.prod; EnvName.staging].

(** The rows of [environment_state] that the query of [get_thread]
    returns. *)
Definition env_states (repo : ThreadRepository) (tid : string)
  : list EnvironmentStateDB :=
  let rows :=
    filter (fun r => String.eqb (es_thread_id r) tid) (environment_state repo) in
  flat_map (fun k => filter (fun r => EnvName.eqb (es_env r) k) rows)
           primary_key_order.

(** [get_thread]: [None] when no row has the id; otherwise the thread is
    rebuilt from its row and its environment rows through
    [ClientThread(...)]. *)
Definition get_thread (repo : ThreadRepository) (tid : string) (now : datetime)
  : option ClientThread :=
  match find (fun r => String.eqb (db_thread_id r) tid) (client_thread repo) with
  | None => None
  | Some thread_db =>
      let environments :=
        fold_left (fun d env_state =>
                     let env := _deserialize_environment (es_env env_state)
                                                         (es_data env_state) in
                     Py.set EnvName.eqb (name env) env d)
                  (env_states repo tid) [] in
      Some (ClientThread_init
              (db_thread_id thread_db) (db_display_name thread_db) environments
              (db_owner thread_db) (db_created_by thread_db)
              (db_created_at thread_db) (db_last_update thread_db)
              (db_blockers thread_db) (db_next_actions thread_db)
              (db_metadata thread_db) now)
  end.

(** The first row with the thread's id takes the thread's mutable columns. *)
Fixpoint update_thread_row (thread : ClientThread) (rows : list ClientThreadDB)
  : list ClientThreadDB :=
  match rows with
  | [] => []
  | r :: rest =>
      if String.eqb (db_thread_id r) (thread_id thread)
      then mkClientThreadDB (db_thread_id r) (display_name thread) (owner thread)
                            (db_created_by r) (db_created_at r)
                            (last_update thread) (blockers thread)
                            (next_actions thread) (metadata thread) :: rest
      else r :: update_thread_row thread rest
  end.

(** The first row with the key of the new row takes its state and data; the
    new row is added when there is none. *)
Fixpoint upsert_env_row (row : EnvironmentStateDB)
    (rows : list EnvironmentStateDB) : list EnvironmentStateDB :=
  match rows with
  | [] => [row]
  | r :: rest =>
      if String.eqb (es_thread_id r) (es_thread_id row)
         && EnvName.eqb (es_env r) (es_env row)
      then mkEnvironmentStateDB (es_thread_id r) (es_env r)
                                (es_state row) (es_data row) :: rest
      else r :: upsert_env_row row rest
  end.

(** [update_thread]: [ValueError] when no row has the thread's id; the
    columns of the thread row and the environment rows are then assigned
    and committed together, and the commit fails with nothing stored when
    the encoder rejects the data of an environment. *)
Definition update_thread (repo : ThreadRepository) (thread : ClientThread)
  : ThreadRepository * Py.result exn ClientThread :=
  if negb (has_thread repo (thread_id thread))
  then (repo, Raise (ValueError (ThreadNotFound (thread_id thread))))
  else
    match env_rows thread (Py.items (environments thread)) with
    | None => (repo, Raise StatementError)
    | Some rows =>
        (mkThreadRepository
           (update_thread_row thread (client_thread repo))
           (fold_left (fun stored row => upsert_env_row row stored)
                      rows (environment_state repo))
           (audit_log repo),
         Return thread)
    end.

(** The next value of the auto-incremented key of [audit_log]. *)
Definition next_audit_id (rows : list AuditLog) : Z :=
  fold_left (fun m r => match audit_id r with
                        | Some i => Z.max m i
                        | None => m
                        end) rows 0%Z + 1.

(** [add_audit_log]: the entry is appended with its assigned id, in a
    commit of its own.  The details that the code writes are strings,
    numbers, booleans, lists and dictionaries of these, which the encoder
    accepts, and the key is assigned by the table: the code gives this
    commit nothing to refuse. *)
Definition add_audit_log (repo : ThreadRepository) (entry : AuditLog)
  : ThreadRepository * AuditLog :=
  let stored := mkAuditLog (Some (next_audit_id (audit_log repo)))
                           (audit_thread_id entry) (actor entry) (action entry)
                           (details entry) (audit_created_at entry) in
  (mkThreadRepository (client_thread repo) (environment_state repo)
                      (audit_log repo ++ [stored]),
   stored).

End Database.

(* ================================================================== *)
(** * app/tools.py *)
(* ================================================================== *)

Module Tools.

(** The part of the tool context the orchestrator reads: the acting user and
    the repository, which may be missing. *)
Record CtxState : Type := mkCtxState {
  user : string;
  thread_repo : option ThreadRepository
}.

Definition with_repo (ctx : CtxState) (repo : ThreadRepository) : CtxState :=
  mkCtxState (user ctx) (Some repo).

(** The three assignments to [env_obj]. *)
Definition assign_env (env_obj : Environment) (new_state : EnvState.t)
    (evidence : Evidence) (now : datetime) : Environment :=
  mkEnvironment (name env_obj) new_state evidence (redirect_uris env_obj)
                (people env_obj) now.

Definition with_environments (thread : ClientThread) (envs : Environments)
  : ClientThread :=
  mkClientThread (thread_id thread) (display_name thread) envs (owner thread)
                 (created_by thread) (created_at thread) (last_update thread)
                 (blockers thread) (next_actions thread) (metadata thread).

Definition with_last_update (thread : ClientThread) (now : datetime)
  : ClientThread :=
  mkClientThread (thread_id thread) (display_name thread) (environments thread)
                 (owner thread) (created_by thread) (created_at thread) now
                 (blockers thread) (next_actions thread) (metadata thread).

Definition with_derived (thread : ClientThread)
    (blockers next_actions : list string) : ClientThread :=
  mkClientThread (thread_id thread) (display_name thread) (environments thread)
                 (owner thread) (created_by thread) (created_at thread)
                 (last_update thread) blockers next_actions (metadata thread).

(** The loop that rebuilds the derived lists, one environment at a time. *)
Definition recompute_derived (thread : ClientThread) : ClientThread :=
  fold_left
    (fun thread item =>
       let blockers := StateMachine.get_blockers (snd item) thread in
       let actions := StateMachine.get_next_actions (snd item) thread in
       with_derived thread (Models.blockers thread ++ blockers)
                           (Models.next_actions thread ++ actions))
    (Py.items (environments thread))
    (with_derived thread [] []).

Definition evidence_count (evidence : Evidence) : Z :=
  Z.of_nat (length (tickets evidence))
  + Z.of_nat (length (screenshots evidence))
  + Z.of_nat (length (emails evidence)).

Definition update_env_state
    (ctx : CtxState) (thread_id : string) (env : EnvName.t)
    (new_state : EnvState.t) (evidence : Evidence) (reason : string)
    (now : datetime) : CtxState * Py.result exn bool :=
  match thread_repo ctx with
  | None => (ctx, Raise (ValueError RepositoryNotAvailable))
  | Some repo =>
  match Database.get_thread repo thread_id now with
  | None => (ctx, Raise (ValueError (ThreadNotFound thread_id)))
  | Some thread =>
  match Py.get EnvName.eqb env (environments thread) with
  | None => (ctx, Raise (ValueError (EnvironmentNotFound env thread_id)))
  | Some env_obj =>
  match StateMachine.validate_transition (state env_obj) new_state env
                                         evidence (Some thread) with
  | Raise e => (ctx, Raise e)
  | Return (is_valid, errors) =>
  if negb is_valid
  then (ctx, Raise (ValueError (InvalidStateTransition errors)))
  else
    (* env_obj is the object held by thread.environments: what is assigned
       to it is seen through the thread and through env_obj afterwards *)
    let env_obj := assign_env env_obj new_state evidence now in
    let thread :=
      with_environments thread (Py.set EnvName.eqb env env_obj (environments thread)) in
    let thread := with_last_update thread now in
    let thread := recompute_derived thread in
    match Database.update_thread repo thread with
    | (repo, Raise e) => (with_repo ctx repo, Raise e)
    | (repo, Return _) =>
        let audit_log :=
          mkAuditLog None thread_id (user ctx) "state_transition"
            [ ("environment", DStr (EnvName.value env));
              ("from_state", DStr (EnvState.value (state env_obj)));
              ("to_state", DStr (EnvState.value new_state));
              ("reason", DStr reason);
              ("evidence_count", DInt (evidence_count evidence)) ]%string
            now in
        let (repo, _) := Database.add_audit_log repo audit_log in
        (with_repo ctx repo, Return true)
    end
  end end end end.

(** Assignment to [people.lanids] of one environment. *)
Definition with_lanids (env_obj : Environment) (lanids : list string)
  : Environment :=
  mkEnvironment (name env_obj) (state env_obj) (evidence env_obj)
                (redirect_uris env_obj)
                (mkPeopleSet lanids (approvers (people env_obj))
                             (contacts (people env_obj)))
                (last_updated env_obj).

(** [create_client_thread]; [new_id] is the identifier drawn for the new
    thread. *)
Definition create_client_thread
    (ctx : CtxState) (display_name owner : string)
    (lanids : option (list string)) (new_id : string) (now : datetime)
  : CtxState * Py.result exn string :=
  match thread_repo ctx with
  | None => (ctx, Raise (ValueError RepositoryNotAvailable))
  | Some repo =>
      let thread :=
        ClientThread_init new_id display_name [] owner (user ctx) now now
                          [] [] [] now in
      let populated :=
        match lanids with
        | Some ((_ :: _) as l) =>
            match Py.get EnvName.eqb EnvName.dev (environments thread) with
            | None => Raise (KeyError EnvName.dev)
            | Some dev_env =>
                Return (with_environments thread
                          (Py.set EnvName.eqb EnvName.dev (with_lanids dev_env l)
                                  (environments thread)))
            end
        | _ => Return thread
        end in
      match populated with
      | Raise e => (ctx, Raise e)
      | Return thread =>
          match Database.create_thread repo thread with
          | (repo, Raise e) => (with_repo ctx repo, Raise e)
          | (repo, Return _) =>
              let audit_log :=
                mkAuditLog None (Models.thread_id thread) (user ctx) "thread_created"
                  [ ("display_name", DStr display_name);
                    ("owner", DStr owner);
                    ("lanids", DList (match lanids with
                                      | Some l => l
                                      | None => []
                                      end)) ]%string
                  now in
              let (repo, _) := Database.add_audit_log repo audit_log in
              (with_repo ctx repo, Return (Models.thread_id thread))
          end
      end
  end.

(** The [mask] that [store_client_secret] computes for a secret, a string
    being taken as its sequence of characters: four stars followed by
    [secret[-4:]] when the secret has at least four characters, four stars
    alone otherwise. *)
Definition secret_mask_of (secret : string) : string :=
  if (4 <=? String.length secret)%nat
  then ("****" ++ substring (String.length secret - 4) 4 secret)%string
  else "****"%string.

End Tools.

(* ================================================================== *)
(** * app/hitl.py *)
(* ================================================================== *)

Module ApprovalStatus.
Inductive t : Set := pending | approved | rejected | expired.

Definition eqb (a b : t) : bool :=
  match a, b with
  | pending, pending | approved, approved
  | rejected, rejected | expired, expired => true
  | _, _ => false
  end.

Definition value (s : t) : string :=
  match s with
  | pending => "pending"
  | approved => "approved"
  | rejected => "rejected"
  | expired => "expired"
  end.
End ApprovalStatus.

Module ApprovalType.
Inductive t : Set :=
| ticket_creation
| environment_progression
| production_deployment
| credential_issuance.

Definition value (a : t) : string :=
  match a with
  | ticket_creation => "ticket_creation"
  | environment_progression => "environment_progression"
  | production_deployment => "production_deployment"
  | credential_issuance => "credential_issuance"
  end.
End ApprovalType.

Module HITL.

Record ApprovalRequest : Type := mkApprovalRequest {
  id : string;
  thread_id : string;
  environment : EnvName.t;
  approval_type : ApprovalType.t;
  title : string;
  description : string;
  approvers : list string;
  evidence : list (string * Detail);
  status : ApprovalStatus.t;
  created_at : datetime;
  expires_at : option datetime;
  approved_by : option string;
  approved_at : option datetime;
  rejection_reason : option string
}.

Record HITLManager : Type := mkHITLManager {
  thread_repo : option ThreadRepository;
  pending_approvals : Py.dict string ApprovalRequest;
  approval_timeout_hours : Z
}.

(** [HITLManager(thread_repo)]. *)
Definition HITLManager_init (thread_repo : option ThreadRepository) : HITLManager :=
  mkHITLManager thread_repo [] 48.

Definition with_status (a : ApprovalRequest) (s : ApprovalStatus.t)
  : ApprovalRequest :=
  mkApprovalRequest (id a) (thread_id a) (environment a) (approval_type a)
                    (title a) (description a) (approvers a) (evidence a) s
                    (created_at a) (expires_at a) (approved_by a)
                    (approved_at a) (rejection_reason a).

Definition with_decision (a : ApprovalRequest) (s : ApprovalStatus.t)
    (approver : string) (now : datetime) (reason : option string)
  : ApprovalRequest :=
  mkApprovalRequest (id a) (thread_id a) (environment a) (approval_type a)
                    (title a) (description a) (approvers a) (evidence a) s
                    (created_at a) (expires_at a) (Some approver) (Some now)
                    reason.

Definition with_pending_approvals (m : HITLManager)
    (d : Py.dict string ApprovalRequest) : HITLManager :=
  mkHITLManager (thread_repo m) d (approval_timeout_hours m).

(** [approval.expires_at and now > approval.expires_at]. *)
Definition past_expiry (approval : ApprovalRequest) (now : datetime) : bool :=
  match expires_at approval with
  | None => false
  | Some deadline => (now >? deadline)%Z
  end.

(** [if self.thread_repo: await self.thread_repo.add_audit_log(audit_log)]. *)
Definition log (repo : option ThreadRepository) (entry : AuditLog)
  : option ThreadRepository :=
  match repo with
  | None => None
  | Some r => Some (fst (Database.add_audit_log r entry))
  end.

Definition with_log (m : HITLManager) (entry : AuditLog) : HITLManager :=
  mkHITLManager (log (thread_repo m) entry) (pending_approvals m)
                (approval_timeout_hours m).

(** [create_approval_request]; [new_id] is the identifier that the default
    factory of [ApprovalRequest.id] produces for the new request.  The
    deadline is computed while the request is built: when that raises
    [OverflowError], nothing is stored and nothing is logged. *)
Definition create_approval_request (m : HITLManager)
    (thread_id : string) (environment : EnvName.t)
    (approval_type : ApprovalType.t) (title description : string)
    (approvers : list string) (evidence : option (list (string * Detail)))
    (timeout_hours : Z) (new_id : string) (now : datetime)
  : HITLManager * Py.result exn ApprovalRequest :=
  match datetime_plus_hours now timeout_hours with
  | None => (m, Raise OverflowError)
  | Some deadline =>
      let approval :=
        mkApprovalRequest new_id thread_id environment approval_type title
          description approvers
          (match evidence with Some e => e | None => [] end)
          ApprovalStatus.pending now (Some deadline) None None None in
      let m :=
        with_pending_approvals m
          (Py.set String.eqb new_id approval (pending_approvals m)) in
      let audit_log :=
        mkAuditLog None thread_id "system" "approval_requested"
          [ ("approval_id", DStr new_id);
            ("approval_type", DStr (ApprovalType.value approval_type));
            ("environment", DStr (EnvName.value environment));
            ("approvers", DList approvers);
            ("expires_at", DTime deadline) ]%string
          now in
      (with_log m audit_log, Return approval)
  end.

Definition approve_request (m : HITLManager) (approval_id approver comments : string)
    (now : datetime) : HITLManager * bool :=
  match Py.get String.eqb approval_id (pending_approvals m) with
  | None => (m, false)
  | Some approval =>
      if negb (ApprovalStatus.eqb (status approval) ApprovalStatus.pending)
      then (m, false)
      else if past_expiry approval now
      then
        (with_pending_approvals m
           (Py.set String.eqb approval_id
                   (with_status approval ApprovalStatus.expired)
                   (pending_approvals m)),
         false)
      else
        let approval :=
          with_decision approval ApprovalStatus.approved approver now
                        (rejection_reason approval) in
        let m :=
          with_pending_approvals m
            (Py.set String.eqb approval_id approval (pending_approvals m)) in
        let audit_log :=
          mkAuditLog None (thread_id approval) approver "approval_granted"
            [ ("approval_id", DStr approval_id);
              ("approval_type", DStr (ApprovalType.value (approval_type approval)));
              ("environment", DStr (EnvName.value (environment approval)));
              ("comments", DStr comments) ]%string
            now in
        (with_log m audit_log, true)
  end.

Definition reject_request (m : HITLManager) (approval_id approver reason : string)
    (now : datetime) : HITLManager * bool :=
  match Py.get String.eqb approval_id (pending_approvals m) with
  | None => (m, false)
  | Some approval =>
      if negb (ApprovalStatus.eqb (status approval) ApprovalStatus.pending)
      then (m, false)
      else
        let approval :=
          with_decision approval ApprovalStatus.rejected approver now
                        (Some reason) in
        let m :=
          with_pending_approvals m
            (Py.set String.eqb approval_id approval (pending_approvals m)) in
        let audit_log :=
          mkAuditLog None (thread_id approval) approver "approval_rejected"
            [ ("approval_id", DStr approval_id);
              ("approval_type", DStr (ApprovalType.value (approval_type approval)));
              ("environment", DStr (EnvName.value (environment approval)));
              ("reason", DStr reason) ]%string
            now in
        (with_log m audit_log, true)
  end.

(** The filter of [get_pending_approvals]: an absent or empty [thread_id]
    selects every request. *)
Definition selected (filter_id : option string) (a : ApprovalRequest) : bool :=
  match filter_id with
  | None => true
  | Some EmptyString => true
  | Some t => String.eqb (thread_id a) t
  end.

(** [get_pending_approvals]: every selected request whose deadline has
    passed is assigned the status [expired], whatever its status was; the
    selected requests that are then pending are returned. *)
Definition get_pending_approvals (m : HITLManager) (filter_id : option string)
    (now : datetime) : HITLManager * list ApprovalRequest :=
  let visit approval :=
    if selected filter_id approval && past_expiry approval now
    then with_status approval ApprovalStatus.expired
    else approval in
  let m := with_pending_approvals m (Py.map_values visit (pending_approvals m)) in
  let approvals := filter (selected filter_id) (Py.values (pending_approvals m)) in
  (m, filter (fun a => ApprovalStatus.eqb (status a) ApprovalStatus.pending)
             approvals).

(** The loop of [check_expired_approvals] over the stored requests: the
    requests after the loop, the repository after the loop, and the list
    [expired]. *)
Fixpoint check_expired_loop (now : datetime)
    (approvals : list (string * ApprovalRequest))
    (repo : option ThreadRepository)
  : list (string * ApprovalRequest) * option ThreadRepository
    * list ApprovalRequest :=
  match approvals with
  | [] => ([], repo, [])
  | (key, approval) :: rest =>
      if ApprovalStatus.eqb (status approval) ApprovalStatus.pending
         && past_expiry approval now
      then
        let approval := with_status approval ApprovalStatus.expired in
        let audit_log :=
          mkAuditLog None (thread_id approval) "system" "approval_expired"
            [ ("approval_id", DStr (id approval));
              ("approval_type", DStr (ApprovalType.value (approval_type approval)));
              ("environment", DStr (EnvName.value (environment approval)));
              ("expired_at", DTime now) ]%string
            now in
        let '(rest, repo, expired) := check_expired_loop now rest (log repo audit_log) in
        ((key, approval) :: rest, repo, approval :: expired)
      else
        let '(rest, repo, expired) := check_expired_loop now rest repo in
        ((key, approval) :: rest, repo, expired)
  end.

Definition check_expired_approvals (m : HITLManager) (now : datetime)
  : HITLManager * list ApprovalRequest :=
  let '(approvals, repo, expired) :=
    check_expired_loop now (Py.items (pending_approvals m)) (thread_repo m) in
  (mkHITLManager repo approvals (approval_timeout_hours m), expired).

(** The status recorded for a request id, if the id is known. *)
Definition status_of (m : HITLManager) (approval_id : string)
  : option ApprovalStatus.t :=
  option_map status (Py.get String.eqb approval_id (pending_approvals m)).

(** One line of the listing of [get_approval_summary]. *)
Record ApprovalListing : Type := mkApprovalListing {
  listing_id : string;
  listing_type : string;
  listing_environment : string;
  listing_title : string;
  listing_status : string;
  listing_created_at : datetime;
  listing_expires_at : option datetime;
  listing_approvers : list string
}.

(** The dictionary returned by [get_approval_summary]. *)
Record ApprovalSummary : Type := mkApprovalSummary {
  summary_total_approvals : nat;
  summary_pending : nat;
  summary_approved : nat;
  summary_rejected : nat;
  summary_expired : nat;
  summary_approvals : list ApprovalListing
}.

Definition has_status (s : ApprovalStatus.t) (a : ApprovalRequest) : bool :=
  ApprovalStatus.eqb (status a) s.

Definition get_approval_summary (m : HITLManager) (thread_id' : string)
  : ApprovalSummary :=
  let thread_approvals :=
    filter (fun a => String.eqb (thread_id a) thread_id')
           (Py.values (pending_approvals m)) in
  mkApprovalSummary
    (length thread_approvals)
    (length (filter (has_status ApprovalStatus.pending) thread_approvals))
    (length (filter (has_status ApprovalStatus.approved) thread_approvals))
    (length (filter (has_status ApprovalStatus.rejected) thread_approvals))
    (length (filter (has_status ApprovalStatus.expired) thread_approvals))
    (map (fun a =>
            mkApprovalListing (id a) (ApprovalType.value (approval_type a))
              (EnvName.value (environment a)) (title a)
              (ApprovalStatus.value (status a)) (created_at a)
              (expires_at a) (approvers a))
         thread_approvals).

(** The gate [requires_approval(approval_type, approvers, timeout_hours)]
    around a function [func] named [func_name].

    [positional] tells whether the context was passed positionally: the
    wrapper looks for it among the positional arguments only.
    [kw_thread_id] and [kw_env] are [kwargs.get('thread_id')] and
    [kwargs.get('env')], and [kwargs] is what the request keeps of the
    keyword arguments as its evidence.  The manager is built inside the
    call on the repository of the context, so what it logs is in the
    repository that [func] then sees.  The request is made at [now]; the
    wrapper then sleeps, and the approval by the first approver and the
    call of [func] happen at [later].  The answer of [approve_request] is
    not looked at. *)
Definition requires_approval {A : Type}
    (approval_type : ApprovalType.t) (approvers : list string)
    (timeout_hours : Z) (func_name : string)
    (func : Tools.CtxState -> datetime -> Tools.CtxState * Py.result exn A)
    (positional : bool) (ctx : Tools.CtxState)
    (kw_thread_id : option string) (kw_env : option EnvName.t)
    (kwargs : list (string * Detail))
    (new_id : string) (now later : datetime)
  : Tools.CtxState * Py.result exn A :=
  if negb positional then (ctx, Raise (ValueError ContextNotFound))
  else
    let hitl_manager := HITLManager_init (Tools.thread_repo ctx) in
    match create_approval_request hitl_manager
            (match kw_thread_id with Some t => t | None => "unknown"%string end)
            (match kw_env with Some e => e | None => EnvName.dev end)
            approval_type
            ("Approval required for " ++ func_name)%string
            ("Human approval required before executing " ++ func_name)%string
            approvers (Some kwargs) timeout_hours new_id now with
    | (_, Raise e) => (ctx, Raise e)
    | (hitl_manager, Return approval) =>
        match approvers with
        | [] =>
            (Tools.mkCtxState (Tools.user ctx) (thread_repo hitl_manager),
             Raise IndexError)
        | first :: _ =>
            let (hitl_manager, _) :=
              approve_request hitl_manager (id approval) first
                              "Auto-approved for demo" later in
            func (Tools.mkCtxState (Tools.user ctx) (thread_repo hitl_manager))
                 later
        end
    end.

End HITL.

(* ================================================================== *)
(** * app/hitl_tools.py *)
(* ================================================================== *)

Module HITLTools.

(** One entry of the list of pending approvals in the status report. *)
Record PendingListing : Type := mkPendingListing {
  pending_id : string;
  pending_type : string;
  pending_environment : string;
  pending_title : string;
  pending_description : string;
  pending_approvers : list string;
  pending_created_at : datetime;
  pending_expires_at : option datetime;
  pending_status : string
}.

(** The dictionary returned by [get_approval_status]. *)
Record ApprovalStatusReport : Type := mkApprovalStatusReport {
  report_thread_id : string;
  report_summary : HITL.ApprovalSummary;
  report_pending_approvals : list PendingListing
}.

(** [get_approval_status]: the manager is built inside the call. *)
Definition get_approval_status (ctx : Tools.CtxState) (thread_id : string)
    (now : datetime) : ApprovalStatusReport :=
  let hitl_manager := HITL.HITLManager_init (Tools.thread_repo ctx) in
  let (hitl_manager, pending_approvals) :=
    HITL.get_pending_approvals hitl_manager (Some thread_id) now in
  let summary := HITL.get_approval_summary hitl_manager thread_id in
  mkApprovalStatusReport thread_id summary
    (map (fun approval =>
            mkPendingListing (HITL.id approval)
              (ApprovalType.value (HITL.approval_type approval))
              (EnvName.value (HITL.environment approval))
              (HITL.title approval) (HITL.description approval)
              (HITL.approvers approval) (HITL.created_at approval)
              (HITL.expires_at approval)
              (ApprovalStatus.value (HITL.status approval)))
         pending_approvals).

(** [create_emergency_approval]; [new_id] is the identifier given to the
    request.  The manager is built inside the call; what outlives the call
    is the repository it logs to. *)
Definition create_emergency_approval (ctx : Tools.CtxState)
    (thread_id : string) (environment : EnvName.t)
    (emergency_type justification : string)
    (emergency_approvers : list string) (new_id : string) (now : datetime)
  : Tools.CtxState * Py.result exn string :=
  let hitl_manager := HITL.HITLManager_init (Tools.thread_repo ctx) in
  match
    HITL.create_approval_request hitl_manager thread_id environment
      ApprovalType.environment_progression
      ("EMERGENCY: " ++ emergency_type)%string
      ("Emergency approval required: " ++ justification)%string
      emergency_approvers
      (Some [ ("emergency_type", DStr emergency_type);
              ("justification", DStr justification);
              ("requested_by", DStr (Tools.user ctx));
              ("emergency", DBool true) ]%string)
      4 new_id now
  with
  | (_, Raise e) => (ctx, Raise e)
  | (hitl_manager, Return approval) =>
      (Tools.mkCtxState (Tools.user ctx) (HITL.thread_repo hitl_manager),
       Return (HITL.id approval))
  end.

(** The function that [advance_environment_with_approval] names, before the
    gate is put around it: the steps of [update_env_state] without the
    recomputation of the derived lists, and with an audit entry of its
    own. *)
Definition advance_environment_with_approval_func
    (ctx : Tools.CtxState) (thread_id : string) (env : EnvName.t)
    (target_state : EnvState.t) (evidence : Evidence) (reason : string)
    (now : datetime) : Tools.CtxState * Py.result exn bool :=
  match Tools.thread_repo ctx with
  | None => (ctx, Raise (ValueError RepositoryNotAvailable))
  | Some repo =>
  match Database.get_thread repo thread_id now with
  | None => (ctx, Raise (ValueError (ThreadNotFound thread_id)))
  | Some thread =>
  match Py.get EnvName.eqb env (environments thread) with
  | None => (ctx, Raise (ValueError (EnvironmentNotFound env thread_id)))
  | Some env_obj =>
  match StateMachine.validate_transition (state env_obj) target_state env
                                         evidence (Some thread) with
  | Raise e => (ctx, Raise e)
  | Return (is_valid, errors) =>
  if negb is_valid
  then (ctx, Raise (ValueError (InvalidStateTransition errors)))
  else
    let env_obj := Tools.assign_env env_obj target_state evidence now in
    let thread :=
      Tools.with_environments thread
        (Py.set EnvName.eqb env env_obj (environments thread)) in
    let thread := Tools.with_last_update thread now in
    match Database.update_thread repo thread with
    | (repo, Raise e) => (Tools.with_repo ctx repo, Raise e)
    | (repo, Return _) =>
        let audit_log :=
          mkAuditLog None thread_id (Tools.user ctx) "state_transition_approved"
            [ ("environment", DStr (EnvName.value env));
              ("from_state", DStr (EnvState.value (state env_obj)));
              ("to_state", DStr (EnvState.value target_state));
              ("reason", DStr reason);
              ("approval_required", DBool true) ]%string
            now in
        let (repo, _) := Database.add_audit_log repo audit_log in
        (Tools.with_repo ctx repo, Return true)
    end
  end end end end.

(** [advance_environment_with_approval], as the tool is called: the gate
    for an environment progression around the function above.  The context
    is passed positionally; [thread_id_kw] and [env_kw] tell whether the
    thread id and the environment were passed by keyword. *)
Definition advance_environment_with_approval
    (ctx : Tools.CtxState) (thread_id : string) (env : EnvName.t)
    (target_state : EnvState.t) (evidence : Evidence) (reason : string)
    (thread_id_kw env_kw : bool) (kwargs : list (string * Detail))
    (new_id : string) (now later : datetime)
  : Tools.CtxState * Py.result exn bool :=
  HITL.requires_approval ApprovalType.environment_progression
    [ "ping-admin@company.com"; "devops-team@company.com" ]%string 48
    "advance_environment_with_approval"
    (fun ctx now =>
       advance_environment_with_approval_func ctx thread_id env target_state
                                              evidence reason now)
    true ctx
    (if thread_id_kw then Some thread_id else None)
    (if env_kw then Some env else None)
    kwargs new_id now later.

(** The first environment other than prod that is not Complete, in the
    order of the map. *)
Fixpoint first_incomplete (items : list (EnvName.t * Environment))
  : option EnvName.t :=
  match items with
  | [] => None
  | (env_name, env) :: rest =>
      if negb (EnvName.eqb env_name EnvName.prod)
         && negb (EnvState.eqb (state env) EnvState.complete)
      then Some env_name
      else first_incomplete rest
  end.

(** The function that [deploy_to_production_with_approval] names, before
    the gate is put around it.  It returns the deployment record, which is
    also the details of the audit entry it writes. *)
Definition deploy_to_production_with_approval_func
    (ctx : Tools.CtxState) (thread_id client : string) (now : datetime)
  : Tools.CtxState * Py.result exn (list (string * Detail)) :=
  match Tools.thread_repo ctx with
  | None => (ctx, Raise (ValueError RepositoryNotAvailable))
  | Some repo =>
  match Database.get_thread repo thread_id now with
  | None => (ctx, Raise (ValueError (ThreadNotFound thread_id)))
  | Some thread =>
  match first_incomplete (Py.items (environments thread)) with
  | Some env_name => (ctx, Raise (ValueError (MustBeComplete env_name)))
  | None =>
      let deployment_record :=
        [ ("client", DStr client);
          ("thread_id", DStr thread_id);
          ("deployed_at", DTime now);
          ("deployed_by", DStr (Tools.user ctx));
          ("environments",
           DDict (map (fun item =>
                         (EnvName.value (fst item),
                          DDict [ ("state",
                                   DStr (EnvState.value (state (snd item))));
                                  ("evidence_count",
                                   DInt (Z.of_nat
                                           (length (tickets (evidence (snd item))))
                                         + Z.of_nat
                                             (length (screenshots
                                                        (evidence (snd item)))))) ]
                         %string))
                      (Py.items (environments thread)))) ]%string in
      let audit_log :=
        mkAuditLog None thread_id (Tools.user ctx)
                   "production_deployment_approved" deployment_record now in
      let (repo, _) := Database.add_audit_log repo audit_log in
      (Tools.with_repo ctx repo, Return deployment_record)
  end end end.

(** [deploy_to_production_with_approval], as the tool is called: the gate
    for a production deployment around the function above; the function
    has no parameter named [env], so the request is made for dev. *)
Definition deploy_to_production_with_approval
    (ctx : Tools.CtxState) (thread_id client : string)
    (thread_id_kw : bool) (kwargs : list (string * Detail))
    (new_id : string) (now later : datetime)
  : Tools.CtxState * Py.result exn (list (string * Detail)) :=
  HITL.requires_approval ApprovalType.production_deployment
    [ "ping-admin@company.com"; "security-team@company.com";
      "cto@company.com" ]%string 72
    "deploy_to_production_with_approval"
    (fun ctx now => deploy_to_production_with_approval_func ctx thread_id client now)
    true ctx
    (if thread_id_kw then Some thread_id else None)
    None
    kwargs new_id now later.

End HITLTools.

(* ================================================================== *)
(** * app/main.py *)
(* ================================================================== *)

Module Main.

(** [EnvName(value)]: [None] stands for the [ValueError] raised on a string
    that names no environment. *)
Definition EnvName_of_value (value : string) : option EnvName.t :=
  if String.eqb value "dev" then Some EnvName.dev
  else if String.eqb value "staging" then Some EnvName.staging
  else if String.eqb value "prod" then Some EnvName.prod
  else None.

(** [evidence.emails.append(message_id)]. *)
Definition append_email (evidence : Evidence) (message_id : string) : Evidence :=
  mkEvidence (tickets evidence) (secret evidence) (screenshots evidence)
             (emails evidence ++ [message_id]) (notes evidence).

(** The background task [advance_to_approved], run against the module's
    repository, which may not be set.  Every exception raised inside the
    task is caught and logged there, so the task only has an effect on the
    repository; the configuration is taken to load. *)
Definition advance_to_approved (thread_repo : option ThreadRepository)
    (thread_id env_name approval_email_id : string) (now : datetime)
  : option ThreadRepository :=
  match thread_repo with
  | None => thread_repo
  | Some repo =>
      match Database.get_thread repo thread_id now with
      | None => thread_repo
      | Some thread =>
          match EnvName_of_value env_name with
          | None => thread_repo
          | Some env_kind =>
              match Py.get EnvName.eqb env_kind (environments thread) with
              | None => thread_repo
              | Some env =>
                  if negb (String.eqb (EnvState.value (state env)) "SignoffSent")
                  then thread_repo
                  else
                    let ctx := Tools.mkCtxState "system" thread_repo in
                    let evidence := append_email (evidence env) approval_email_id in
                    Tools.thread_repo
                      (fst (Tools.update_env_state ctx thread_id env_kind
                              EnvState.approved evidence
                              ("Approval received via email "
                                 ++ approval_email_id)%string
                              now))
              end
          end
      end
  end.

End Main.

(* ================================================================== *)
(** * The invariant of the environments map *)
(* ================================================================== *)

(** An environments map holds exactly the three kinds: three entries, and
    each of dev, staging and prod among the keys. *)
Definition exactly_three_kinds (envs : Environments) : bool :=
  Nat.eqb (length envs) 3
  && forallb (fun k => Py.contains EnvName.eqb k (Py.keys envs))
             [EnvName.dev; EnvName.staging; EnvName.prod].

(* ================================================================== *)
(** * Vocabulary of the properties and sample inputs *)
(* ================================================================== *)

(** The position of a state in the ordered progression. *)
Definition position (s : EnvState.t) : option nat :=
  Py.index EnvState.eqb s StateMachine.STATE_ORDER.

Definition special (s : EnvState.t) : Prop := In s StateMachine.SPECIAL_STATES.

(** The quotient of [calculate_progress] on numerator [n] for three
    environments, and the check that it needs no clipping and lies in the
    unit interval. *)
Definition ratio (n : Z) : float :=
  PrimFloat.div (StateMachine.float_of_int n) (StateMachine.float_of_int 24).

Definition ratio_in_range (n : Z) : bool :=
  negb (PrimFloat.ltb 1 (ratio n))
  && PrimFloat.leb 0 (ratio n) && PrimFloat.leb (ratio n) 1.

(** A thread as [ClientThread(display_name=..., owner=..., created_by=...)]
    builds it. *)
Definition fresh_thread : ClientThread :=
  ClientThread_init "t-1" "Acme" [] "alice" "alice" 0%Z 0%Z [] [] [] 0%Z.

(** ** A run of the approval manager

    A manager without repository; one request is created at time 0 with the
    default timeout of 48 hours; [late] is one microsecond past its
    deadline. *)
Definition request_id : string := "approval-20240101120000".

Definition manager_created : HITL.HITLManager :=
  fst (HITL.create_approval_request (HITL.HITLManager_init None)
         "t-1" EnvName.dev ApprovalType.environment_progression
         "Advance dev" "Please approve" ["lead@example.com"%string] None 48
         request_id 0%Z).

(** What the sweep does to one request. *)
Definition swept (now : datetime) (a : HITL.ApprovalRequest)
  : HITL.ApprovalRequest :=
  if ApprovalStatus.eqb (HITL.status a) ApprovalStatus.pending
     && HITL.past_expiry a now
  then HITL.with_status a ApprovalStatus.expired else a.

Definition late : datetime := (timedelta_hours 48 + 1)%Z.

(** The request is approved in time, one second after its creation. *)
Definition manager_approved : HITL.HITLManager :=
  fst (HITL.approve_request manager_created request_id "lead@example.com"
                            "ok" 1000000%Z).

(** ** A run of the orchestrator

    A repository with no rows; the thread "t-1" is created at time 0. *)
Definition empty_repo : ThreadRepository := mkThreadRepository [] [] [].

Definition ctx_empty : Tools.CtxState := Tools.mkCtxState "alice" (Some empty_repo).

Definition ctx_created : Tools.CtxState :=
  fst (Tools.create_client_thread ctx_empty "Acme" "alice" None "t-1" 0%Z).

Definition repo_of (ctx : Tools.CtxState) : ThreadRepository :=
  match Tools.thread_repo ctx with
  | Some repo => repo
  | None => empty_repo
  end.

Definition repo_created : ThreadRepository := repo_of ctx_created.

Definition one_ticket : Evidence :=
  mkEvidence [mkTicketRef "ServiceNow" "SN-12345" None "NSSR" "open" 0%Z]
             None [] [] [].

(** The state stored for an environment of a thread. *)
Definition stored_state (ctx : Tools.CtxState) (tid : string) (env : EnvName.t)
  : option EnvState.t :=
  match Tools.thread_repo ctx with
  | None => None
  | Some repo =>
      match Database.get_thread repo tid 0%Z with
      | None => None
      | Some thread =>
          option_map state (Py.get EnvName.eqb env (environments thread))
      end
  end.

(** The audit entries stored, oldest first. *)
Definition stored_audit (ctx : Tools.CtxState) : list AuditLog :=
  match Tools.thread_repo ctx with
  | None => []
  | Some repo => audit_log repo
  end.

(** The call returned a value instead of raising. *)
Definition returns_result {A} (out : Tools.CtxState * Py.result exn A) : Prop :=
  exists r, snd out = Return r.

(** The thread "t-1" as the repository returns it: the environments come
    in the order of the primary key. *)
Definition fresh_thread_stored : ClientThread :=
  mkClientThread "t-1" "Acme"
    [ (EnvName.dev, Environment_default EnvName.dev 0%Z);
      (EnvName.prod, Environment_default EnvName.prod 0%Z);
      (EnvName.staging, Environment_default EnvName.staging 0%Z) ]
    "alice" "alice" 0%Z 0%Z [] [] [].

(** The orchestrator's context after the dev environment of "t-1" has been
    moved to Blocked, with no evidence, at time 5. *)
Definition ctx_blocked : Tools.CtxState :=
  fst (Tools.update_env_state ctx_created "t-1" EnvName.dev
         EnvState.blocked Evidence_default "waiting for the vendor" 5%Z).

(** One step of the loop of [get_thread] over the environment rows. *)
Definition env_step (d : Environments) (env_state : EnvironmentStateDB)
  : Environments :=
  let env := Database._deserialize_environment (es_env env_state)
                                               (es_data env_state) in
  Py.set EnvName.eqb (name env) env d.

(** The environment rows of a thread cover no kind, or all three. *)
Definition covered (rows : list EnvironmentStateDB) (tid : string) : bool :=
  let f := Database.has_env_row rows tid in
  (negb (f EnvName.dev) && negb (f EnvName.staging) && negb (f EnvName.prod))
  || (f EnvName.dev && f EnvName.staging && f EnvName.prod).

(** Whatever thread the repository returns for the id holds exactly the
    three kinds. *)
Definition stored_three_kinds (repo : ThreadRepository) (tid : string) : Prop :=
  forall now t,
    Database.get_thread repo tid now = Some t ->
    exactly_three_kinds (environments t) = true.

(** Two repositories, given or absent alike, with the same thread rows
    and the same environment rows. *)
Definition same_rows (a b : option ThreadRepository) : Prop :=
  match a, b with
  | Some x, Some y =>
      client_thread y = client_thread x
      /\ environment_state y = environment_state x
  | None, None => True
  | _, _ => False
  end.

(** A thread built with an explicit map that holds the dev environment
    only. *)
Definition dev_only_thread : ClientThread :=
  ClientThread_init "t-2" "Acme"
    [(EnvName.dev, Environment_default EnvName.dev 0%Z)]
    "alice" "alice" 0%Z 0%Z [] [] [] 0%Z.

(* ================================================================== *)
(** * Vocabulary of the further properties *)
(* ================================================================== *)

(** What the evidence must hold for a target state, said directly: a
    ticket, a secret, an access ticket outside prod, the four screenshot
    labels, an email. *)
Definition evidence_sufficient (target : EnvState.t) (env : EnvName.t)
    (ev : Evidence) : bool :=
  match target with
  | EnvState.forms_raised => negb (Nat.eqb (length (tickets ev)) 0)
  | EnvState.creds_issued =>
      match secret ev with Some _ => true | None => false end
  | EnvState.access_provisioned =>
      EnvName.eqb env EnvName.prod
      || existsb (fun t => String.eqb (ticket_kind t) "GLAM"
                           || String.eqb (ticket_kind t) "GWAM")
                 (tickets ev)
  | EnvState.validated =>
      forallb (fun label =>
                 existsb (fun s => String.eqb (screenshot_label s) label)
                         (screenshots ev))
              ["login"; "consent"; "landing"; "token"]%string
  | EnvState.signoff_sent | EnvState.approved =>
      negb (Nat.eqb (length (emails ev)) 0)
  | _ => true
  end.

(** The quotient of [calculate_progress] for [n] environments (one to
    three) on numerator [k], and the checks made of it. *)
Definition ratio_of (n k : Z) : float :=
  PrimFloat.div (StateMachine.float_of_int k)
                (StateMachine.float_of_int (8 * n)).

Definition ratio_of_in_range (n k : Z) : bool :=
  negb (PrimFloat.ltb 1 (ratio_of n k))
  && PrimFloat.leb 0 (ratio_of n k) && PrimFloat.leb (ratio_of n k) 1.

Definition ratio_grows (k : Z) : bool :=
  PrimFloat.ltb (ratio k) (ratio (k + 1)).

(** The pairs (number of environments, numerator) that can arise with at
    most three environments. *)
Definition progress_cases : list (Z * Z) :=
  flat_map (fun n => map (fun k => (Z.of_nat n, Z.of_nat k)) (seq 0 (8 * n + 1)))
           [1; 2; 3]%nat.

(** A request that the sweep demotes: pending and past its deadline. *)
Definition due (now : datetime) (a : HITL.ApprovalRequest) : bool :=
  ApprovalStatus.eqb (HITL.status a) ApprovalStatus.pending
  && HITL.past_expiry a now.

(** A request that a listing returns: selected, pending, not past its
    deadline. *)
Definition actionable (filter_id : option string) (now : datetime)
    (a : HITL.ApprovalRequest) : bool :=
  HITL.selected filter_id a
  && ApprovalStatus.eqb (HITL.status a) ApprovalStatus.pending
  && negb (HITL.past_expiry a now).

(** The primary key of an environment row, and the row stored under a
    key. *)
Definition row_key (r : EnvironmentStateDB) : string * EnvName.t :=
  (es_thread_id r, es_env r).

Definition row_for (rows : list EnvironmentStateDB) (tid : string)
    (k : EnvName.t) : option EnvironmentStateDB :=
  find (fun r => String.eqb (es_thread_id r) tid && EnvName.eqb (es_env r) k)
       rows.

(** The primary key of [environment_state] holds: no two rows share a
    thread id and an environment. *)
Definition unique_rows (repo : ThreadRepository) : Prop :=
  NoDup (map row_key (environment_state repo)).


(** An environment as it reads back once stored under a kind: the name is
    the kind of the row. *)
Definition stored_as (k : EnvName.t) (v : Environment) : Environment :=
  mkEnvironment k (state v) (evidence v) (redirect_uris v) (people v)
                (last_updated v).

(** Evidence that holds a ticket, a secret or a screenshot, each of which
    carries a [datetime]. *)
Definition dated (ev : Evidence) : bool :=
  negb (Nat.eqb (length (tickets ev)) 0)
  || match secret ev with Some _ => true | None => false end
  || negb (Nat.eqb (length (screenshots ev)) 0).

(** A thread whose dev environment waits for its sign-off, and a
    repository that holds it. *)
Definition signoff_thread : ClientThread :=
  mkClientThread "t-3" "Globex"
    [ (EnvName.dev,
       mkEnvironment EnvName.dev EnvState.signoff_sent
         (mkEvidence [] None [] ["<signoff-1@example.com>"%string] [])
         None PeopleSet_default 0%Z);
      (EnvName.staging, Environment_default EnvName.staging 0%Z);
      (EnvName.prod, Environment_default EnvName.prod 0%Z) ]
    "bob" "bob" 0%Z 0%Z [] [] [].

Definition repo_signoff : ThreadRepository :=
  fst (Database.create_thread empty_repo signoff_thread).

(** A state in which an environment needs no further work. *)
Definition terminal (s : EnvState.t) : bool :=
  match s with
  | EnvState.complete | EnvState.abandoned => true
  | _ => false
  end.

(* ================================================================== *)
(** * Properties of the state machine *)
(* ================================================================== *)

Module StateMachineFacts.
Import EnvState StateMachine.

Lemma EnvState_eqb_eq (a b : EnvState.t) : EnvState.eqb a b = true <-> a = b.
Proof. destruct a, b; simpl; split; congruence. Qed.

Lemma EnvName_eqb_eq (a b : EnvName.t) : EnvName.eqb a b = true <-> a = b.
Proof. destruct a, b; simpl; split; congruence. Qed.

Lemma special_cases (s : EnvState.t) :
  special s <-> s = blocked \/ s = changes_requested \/ s = abandoned.
Proof. unfold special; simpl; intuition congruence. Qed.

Lemma position_special (s : EnvState.t) : special s <-> position s = None.
Proof.
  rewrite special_cases.
  destruct s; vm_compute; split; intros H;
    try discriminate; auto; decompose [or] H; discriminate.
Qed.

(** The states of the ordered progression, by their place. *)
Lemma nth_error_position (s : EnvState.t) (i : nat) :
  nth_error [ not_started; forms_raised; creds_issued; access_provisioned;
              validated; signoff_sent; approved; complete ] i = Some s
  <-> position s = Some i.
Proof.
  split.
  - do 8 (destruct i as [| i]; [intros H; injection H as <-; reflexivity |]).
    destruct i; discriminate.
  - destruct s; vm_compute; intros H; try discriminate H;
      injection H as <-; reflexivity.
Qed.

Lemma can_transition_positions (current target : EnvState.t) :
  current <> changes_requested ->
  (exists b, can_transition current target = Return b)
  /\ (can_transition current target = Return true
      <-> (target = blocked \/ target = changes_requested \/ target = abandoned)
          \/ exists i, position current = Some i /\ position target = Some (i + 1))
  /\ (forall i, position current = Some i -> position target = Some (i + 2) ->
      can_transition current target = Return false)
  /\ (forall i, position current = Some i ->
      can_transition current current = Return false).
Proof.
  intros Hcur.
  split; [| split; [| split]].
  - destruct current; try congruence; destruct target; vm_compute; eauto.
  - destruct current; try congruence; destruct target; vm_compute;
      (split;
       [ intros H; first [ discriminate H
                         | left; solve [auto]
                         | right; eexists; split; reflexivity ]
       | intros [H | [i [H1 H2]]];
         [ first [ reflexivity | decompose [or] H; discriminate ]
         | first [ reflexivity
                 | discriminate
                 | injection H1 as <-; discriminate ] ] ]).
  - intros i H1 H2.
    destruct current; try congruence; destruct target; vm_compute in *;
      first [ reflexivity | discriminate | injection H1 as <-; discriminate ].
  - intros i H1.
    destruct current; try congruence; vm_compute in *;
      first [ reflexivity | discriminate ].
Qed.

(** C3: from every current state other than ChangesRequested,
    [can_transition] returns, and it returns true exactly when the target is
    Blocked, ChangesRequested or Abandoned, or the target comes right after
    the current state in the progression NotStarted, FormsRaised,
    CredsIssued, AccessProvisioned, Validated, SignoffSent, Approved,
    Complete; so the three special states are accepted from everywhere,
    each state of the progression accepts the next one, refuses the one
    after it, and cannot be re-entered. *)
Theorem can_transition_single_step (current target : EnvState.t) :
  current <> changes_requested ->
  let order := [ not_started; forms_raised; creds_issued; access_provisioned;
                 validated; signoff_sent; approved; complete ] in
  (exists b, can_transition current target = Return b)
  /\ (can_transition current target = Return true
      <-> (target = blocked \/ target = changes_requested \/ target = abandoned)
          \/ exists i, nth_error order i = Some current
                       /\ nth_error order (i + 1) = Some target)
  /\ (target = blocked \/ target = changes_requested \/ target = abandoned ->
      can_transition current target = Return true)
  /\ (forall i, nth_error order i = Some current ->
      nth_error order (i + 1) = Some target ->
      can_transition current target = Return true)
  /\ (forall i, nth_error order i = Some current ->
      nth_error order (i + 2) = Some target ->
      can_transition current target = Return false)
  /\ (forall i, nth_error order i = Some current ->
      can_transition current current = Return false).
Proof.
  intros Hcur order.
  destruct (can_transition_positions current target Hcur)
    as [Hret [Hiff [Hskip Hsame]]].
  assert (Hiff' : can_transition current target = Return true
                  <-> (target = blocked \/ target = changes_requested
                       \/ target = abandoned)
                      \/ exists i, nth_error order i = Some current
                                   /\ nth_error order (i + 1) = Some target).
  { rewrite Hiff. split; (intros [H | [i [H1 H2]]]; [left; exact H | right]);
      exists i; split; apply nth_error_position; assumption. }
  split; [exact Hret |]. split; [exact Hiff' |].
  split; [intros H; apply Hiff'; left; exact H |].
  split; [intros i H1 H2; apply Hiff'; right; exists i; auto |].
  split.
  - intros i H1 H2. apply (Hskip i); apply nth_error_position; assumption.
  - intros i H1. apply (Hsame i). apply nth_error_position. exact H1.
Qed.

Lemma can_transition_single_step_witness :
  not_started <> changes_requested
  /\ can_transition not_started forms_raised = Return true
  /\ can_transition not_started creds_issued = Return false
  /\ can_transition not_started not_started = Return false
  /\ can_transition not_started blocked = Return true
  /\ can_transition approved abandoned = Return true.
Proof.
  split; [discriminate |].
  split; [| split; [| split; [| split]]].
  - apply (can_transition_single_step not_started forms_raised
             ltac:(discriminate)) with (i := 0%nat); reflexivity.
  - apply (can_transition_single_step not_started creds_issued
             ltac:(discriminate)) with (i := 0%nat); reflexivity.
  - apply (can_transition_single_step not_started not_started
             ltac:(discriminate)) with (i := 0%nat); reflexivity.
  - apply (can_transition_single_step not_started blocked
             ltac:(discriminate)). left. reflexivity.
  - apply (can_transition_single_step approved abandoned
             ltac:(discriminate)). right. right. reflexivity.
Defined.

(** C2: with ChangesRequested as the current state, [can_transition]
    returns only for a special target; for every other target the lookup of
    ChangesRequested in the ordered progression raises [ValueError], so no
    boolean is produced, be the target an earlier ordered state or not. *)
Theorem can_transition_changes_requested_raises (target : EnvState.t) :
  can_transition changes_requested target
  = if Py.contains EnvState.eqb target SPECIAL_STATES
    then Return true
    else Raise (ValueError (NotInList changes_requested)).
Proof. destruct target; reflexivity. Qed.

Example can_transition_changes_requested_not_started :
  can_transition changes_requested not_started
  = Raise (ValueError (NotInList changes_requested)).
Proof. reflexivity. Qed.

(** The error of [validate_transition] propagates the same exception. *)
Example validate_transition_changes_requested_raises :
  validate_transition changes_requested not_started EnvName.dev
                      Evidence_default None
  = Raise (ValueError (NotInList changes_requested)).
Proof. reflexivity. Qed.

(** C10: entering Complete from Approved without a thread is valid with an
    empty error list for staging and for prod, whatever the evidence; with a
    thread the previous environment is looked up and must be Complete. *)
Theorem validate_transition_complete_without_thread (ev : Evidence) :
  validate_transition approved complete EnvName.staging ev None
  = Return (true, [])
  /\ validate_transition approved complete EnvName.prod ev None
     = Return (true, [])
  /\ (forall thread : ClientThread,
        validate_transition approved complete EnvName.staging ev (Some thread)
        = match Py.get EnvName.eqb EnvName.dev (environments thread) with
          | None => Raise (KeyError EnvName.dev)
          | Some prev =>
              if EnvState.eqb (state prev) complete
              then Return (true, [])
              else Return (false, [RequiresPrevComplete EnvName.staging EnvName.dev])
          end)
  /\ (forall thread : ClientThread,
        validate_transition approved complete EnvName.prod ev (Some thread)
        = match Py.get EnvName.eqb EnvName.staging (environments thread) with
          | None => Raise (KeyError EnvName.staging)
          | Some prev =>
              if EnvState.eqb (state prev) complete
              then Return (true, [])
              else Return (false, [RequiresPrevComplete EnvName.prod EnvName.staging])
          end).
Proof.
  repeat split; try reflexivity; intros thread;
    unfold validate_transition; simpl;
    destruct (Py.get EnvName.eqb _ (environments thread)) as [prev |];
    try reflexivity;
    destruct (EnvState.eqb (state prev) complete); reflexivity.
Qed.

(** ** Progress *)

Lemma score_bounds (s : EnvState.t) : (0 <= score s <= 8)%Z.
Proof. destruct s; vm_compute; split; discriminate. Qed.

Lemma completed_states_three (thread : ClientThread) (d s p : Environment) :
  exactly_three_kinds (environments thread) = true ->
  Py.get EnvName.eqb EnvName.dev (environments thread) = Some d ->
  Py.get EnvName.eqb EnvName.staging (environments thread) = Some s ->
  Py.get EnvName.eqb EnvName.prod (environments thread) = Some p ->
  length (environments thread) = 3%nat
  /\ completed_states thread
     = (score (state d) + score (state s) + score (state p))%Z.
Proof.
  unfold exactly_three_kinds, completed_states.
  destruct (environments thread)
    as [| [k1 v1] [| [k2 v2] [| [k3 v3] [| kv rest]]]];
    simpl; try discriminate.
  destruct k1, k2, k3; simpl; try discriminate;
    intros _ Hd Hs Hp; injection Hd as <-; injection Hs as <-;
    injection Hp as <-; split; try reflexivity; lia.
Qed.

Lemma ratio_in_range_upto_24 :
  forallb ratio_in_range (map Z.of_nat (seq 0 25)) = true.
Proof. vm_compute. reflexivity. Qed.

Lemma ratio_ok (n : Z) : (0 <= n <= 24)%Z -> ratio_in_range n = true.
Proof.
  intros Hn.
  apply (proj1 (forallb_forall _ _) ratio_in_range_upto_24).
  apply in_map_iff. exists (Z.to_nat n). split; [lia |].
  apply in_seq. lia.
Qed.

(** C8: on a thread that has its three environments, [calculate_progress]
    is the sum of the three scores divided by 8 x 3, where the scores of the
    ordered states are 1 to 8 (Complete, the last one, scoring the full
    length 8) and the special states score 0; the result lies between 0 and
    1; three Complete give 1.0, three NotStarted give 0.125, and dev Complete
    with the other two NotStarted gives 10 / 24. *)
Theorem calculate_progress_three_envs
    (thread : ClientThread) (d s p : Environment) :
  exactly_three_kinds (environments thread) = true ->
  Py.get EnvName.eqb EnvName.dev (environments thread) = Some d ->
  Py.get EnvName.eqb EnvName.staging (environments thread) = Some s ->
  Py.get EnvName.eqb EnvName.prod (environments thread) = Some p ->
  calculate_progress thread
  = PrimFloat.div
      (float_of_int (score (state d) + score (state s) + score (state p)))
      (float_of_int (8 * 3))
  /\ map score [ not_started; forms_raised; creds_issued; access_provisioned;
                 validated; signoff_sent; approved; complete;
                 blocked; changes_requested; abandoned ]
     = [ 1; 2; 3; 4; 5; 6; 7; 8; 0; 0; 0 ]%Z
  /\ PrimFloat.leb 0 (calculate_progress thread) = true
  /\ PrimFloat.leb (calculate_progress thread) 1 = true
  /\ (state d = complete -> state s = complete -> state p = complete ->
      calculate_progress thread = 1%float)
  /\ (state d = not_started -> state s = not_started -> state p = not_started ->
      calculate_progress thread = 0.125%float)
  /\ (state d = complete -> state s = not_started -> state p = not_started ->
      calculate_progress thread = PrimFloat.div 10 24).
Proof.
  intros H3 Hd Hs Hp.
  destruct (completed_states_three thread d s p H3 Hd Hs Hp) as [Hlen Hsum].
  pose proof (score_bounds (state d)) as Bd.
  pose proof (score_bounds (state s)) as Bs.
  pose proof (score_bounds (state p)) as Bp.
  assert (Hn : (0 <= score (state d) + score (state s) + score (state p) <= 24)%Z)
    by lia.
  pose proof (ratio_ok _ Hn) as Hr.
  unfold ratio_in_range in Hr.
  apply andb_prop in Hr as [Hr Hle1]. apply andb_prop in Hr as [Hlt Hge0].
  apply negb_true_iff in Hlt.
  assert (Hcalc : calculate_progress thread
                  = ratio (score (state d) + score (state s) + score (state p))).
  { unfold calculate_progress. rewrite Hlen, Hsum.
    change (Z.of_nat (length STATE_ORDER) * Z.of_nat 3 >? 0)%Z with true.
    change (Z.of_nat (length STATE_ORDER) * Z.of_nat 3)%Z with 24%Z.
    cbv beta iota zeta. unfold min_1. fold (ratio (score (state d) + score (state s) + score (state p))).
    rewrite Hlt. reflexivity. }
  split; [exact Hcalc |].
  split; [reflexivity |].
  rewrite Hcalc.
  split; [exact Hge0 |]. split; [exact Hle1 |].
  split; [| split]; intros -> -> ->; vm_compute; reflexivity.
Qed.

Lemma calculate_progress_three_envs_witness :
  exactly_three_kinds (environments fresh_thread) = true
  /\ calculate_progress fresh_thread = 0.125%float.
Proof.
  split; [reflexivity |].
  apply (calculate_progress_three_envs fresh_thread
           (Environment_default EnvName.dev 0%Z)
           (Environment_default EnvName.staging 0%Z)
           (Environment_default EnvName.prod 0%Z));
    reflexivity.
Defined.

End StateMachineFacts.

(* ================================================================== *)
(** * Properties of the approval manager *)
(* ================================================================== *)

Module HITLFacts.
Import HITL.

Lemma get_map_values (f : ApprovalRequest -> ApprovalRequest) (key : string)
    (d : Py.dict string ApprovalRequest) :
  Py.get String.eqb key (Py.map_values f d)
  = option_map f (Py.get String.eqb key d).
Proof.
  induction d as [| [k a] d IH]; simpl; [reflexivity |].
  destruct (String.eqb k key); [reflexivity | exact IH].
Qed.

Lemma get_check_expired_loop (now : datetime) (key : string)
    (l : list (string * ApprovalRequest)) :
  forall repo,
    Py.get String.eqb key (fst (fst (check_expired_loop now l repo)))
    = option_map (swept now) (Py.get String.eqb key l).
Proof.
  induction l as [| [k a] l IH]; intros repo; simpl; [reflexivity |].
  destruct (ApprovalStatus.eqb (status a) ApprovalStatus.pending
            && past_expiry a now) eqn:E;
    match goal with
    | |- context [check_expired_loop now l ?r] =>
        specialize (IH r);
        destruct (check_expired_loop now l r) as [[rest repo'] expired]
    end;
    simpl in *;
    (destruct (String.eqb k key);
     [ simpl; unfold swept; rewrite E; reflexivity | exact IH ]).
Qed.

(** Approve on a request that is not pending: false, nothing changes. *)
Lemma approve_request_not_pending (m : HITLManager) (key approver comments : string)
    (now : datetime) (a : ApprovalRequest) :
  Py.get String.eqb key (pending_approvals m) = Some a ->
  status a <> ApprovalStatus.pending ->
  approve_request m key approver comments now = (m, false).
Proof.
  intros Hget Hst. unfold approve_request. rewrite Hget.
  destruct (status a); try congruence; reflexivity.
Qed.

(** Reject on a request that is not pending: false, nothing changes. *)
Lemma reject_request_not_pending (m : HITLManager) (key approver reason : string)
    (now : datetime) (a : ApprovalRequest) :
  Py.get String.eqb key (pending_approvals m) = Some a ->
  status a <> ApprovalStatus.pending ->
  reject_request m key approver reason now = (m, false).
Proof.
  intros Hget Hst. unfold reject_request. rewrite Hget.
  destruct (status a); try congruence; reflexivity.
Qed.

(** The sweep leaves the status of a request that is not pending. *)
Lemma check_expired_approvals_not_pending (m : HITLManager) (key : string)
    (now : datetime) (st : ApprovalStatus.t) :
  status_of m key = Some st ->
  st <> ApprovalStatus.pending ->
  status_of (fst (check_expired_approvals m now)) key = Some st.
Proof.
  unfold status_of, check_expired_approvals. intros Hget Hst.
  pose proof (get_check_expired_loop now key (Py.items (pending_approvals m))
                (thread_repo m)) as Hloop.
  destruct (check_expired_loop now _ _) as [[rest repo'] expired]; simpl in *.
  rewrite Hloop. unfold Py.items.
  destruct (Py.get String.eqb key (pending_approvals m)) as [a |];
    simpl in *; [| discriminate].
  injection Hget as Hget. unfold swept.
  destruct (status a) eqn:E; subst st; try congruence; simpl; rewrite E;
    reflexivity.
Qed.

(** Listing assigns [expired] to every selected request past its deadline,
    without looking at its status. *)
Lemma get_pending_approvals_status (m : HITLManager) (filter_id : option string)
    (now : datetime) (key : string) (a : ApprovalRequest) :
  Py.get String.eqb key (pending_approvals m) = Some a ->
  status_of (fst (get_pending_approvals m filter_id now)) key
  = Some (if selected filter_id a && past_expiry a now
          then ApprovalStatus.expired else status a).
Proof.
  intros Hget. unfold status_of, get_pending_approvals. simpl.
  rewrite get_map_values, Hget. simpl.
  destruct (selected filter_id a && past_expiry a now); reflexivity.
Qed.

(** C1: a request approved in time is, once its deadline has passed, turned
    from approved to expired by a listing of the pending requests, whereas
    Approve, Reject and the sweep leave it approved. *)
Theorem get_pending_approvals_overwrites_approved :
  status_of manager_approved request_id = Some ApprovalStatus.approved
  /\ status_of (fst (get_pending_approvals manager_approved None late)) request_id
     = Some ApprovalStatus.expired
  /\ approve_request manager_approved request_id "lead@example.com" "again" late
     = (manager_approved, false)
  /\ reject_request manager_approved request_id "lead@example.com" "late" late
     = (manager_approved, false)
  /\ status_of (fst (check_expired_approvals manager_approved late)) request_id
     = Some ApprovalStatus.approved.
Proof. repeat split; vm_compute; reflexivity. Qed.

(** C7: on a pending request whose deadline has passed, Reject succeeds and
    records rejected, where Approve returns false and records expired. *)
Theorem reject_request_ignores_expiry :
  status_of manager_created request_id = Some ApprovalStatus.pending
  /\ option_map (fun a => past_expiry a late)
                (Py.get String.eqb request_id (pending_approvals manager_created))
     = Some true
  /\ snd (reject_request manager_created request_id "lead@example.com" "no" late)
     = true
  /\ status_of (fst (reject_request manager_created request_id
                                    "lead@example.com" "no" late)) request_id
     = Some ApprovalStatus.rejected
  /\ snd (approve_request manager_created request_id "lead@example.com" "" late)
     = false
  /\ status_of (fst (approve_request manager_created request_id
                                     "lead@example.com" "" late)) request_id
     = Some ApprovalStatus.expired.
Proof. repeat split; vm_compute; reflexivity. Qed.

(** Reject never consults the deadline: on a pending request it succeeds at
    any time. *)
Lemma reject_request_pending (m : HITLManager) (key approver reason : string)
    (now : datetime) (a : ApprovalRequest) :
  Py.get String.eqb key (pending_approvals m) = Some a ->
  status a = ApprovalStatus.pending ->
  snd (reject_request m key approver reason now) = true.
Proof.
  intros Hget Hst. unfold reject_request. rewrite Hget, Hst. reflexivity.
Qed.

End HITLFacts.

(* ================================================================== *)
(** * Properties of the orchestrator *)
(* ================================================================== *)

Module ToolsFacts.
Import Tools.

(** An invalid verdict comes with at least one error. *)
Lemma validate_transition_invalid_nonempty
    (current target : EnvState.t) (env : EnvName.t) (ev : Evidence)
    (thread : option ClientThread) (errors : list ValidationError) :
  StateMachine.validate_transition current target env ev thread
  = Return (false, errors) ->
  errors <> [].
Proof.
  unfold StateMachine.validate_transition.
  destruct (StateMachine.can_transition current target) as [ok | e]; simpl;
    [| discriminate].
  destruct ok; simpl.
  - match goal with
    | |- Py.bind ?c _ = _ -> _ => destruct c as [errs | e]; simpl
    end; [| discriminate].
    intros H; injection H as Hlen <-.
    destruct errs; [discriminate | discriminate].
  - intros H; injection H as <-. discriminate.
Qed.

(** What [update_env_state] does when the verdict is invalid. *)
Lemma update_env_state_invalid
    (ctx : CtxState) (repo : ThreadRepository) (tid : string) (env : EnvName.t)
    (new_state : EnvState.t) (ev : Evidence) (reason : string) (now : datetime)
    (thread : ClientThread) (env_obj : Environment)
    (errors : list ValidationError) :
  thread_repo ctx = Some repo ->
  Database.get_thread repo tid now = Some thread ->
  Py.get EnvName.eqb env (environments thread) = Some env_obj ->
  StateMachine.validate_transition (state env_obj) new_state env ev (Some thread)
  = Return (false, errors) ->
  update_env_state ctx tid env new_state ev reason now
  = (ctx, Raise (ValueError (InvalidStateTransition errors))).
Proof.
  intros Hrepo Hthread Henv Hval.
  unfold update_env_state. rewrite Hrepo, Hthread, Henv, Hval. reflexivity.
Qed.

(** C4 (as the code has it): when the thread and the environment exist and
    the validation of the transition reports invalid, [update_env_state]
    returns no value: it raises [ValueError], and the exception carries the
    complete, non-empty error list of [validate_transition]. *)
Theorem update_env_state_invalid_raises
    (ctx : CtxState) (repo : ThreadRepository) (tid : string) (env : EnvName.t)
    (new_state : EnvState.t) (ev : Evidence) (reason : string) (now : datetime)
    (thread : ClientThread) (env_obj : Environment)
    (errors : list ValidationError) :
  thread_repo ctx = Some repo ->
  Database.get_thread repo tid now = Some thread ->
  Py.get EnvName.eqb env (environments thread) = Some env_obj ->
  StateMachine.validate_transition (state env_obj) new_state env ev (Some thread)
  = Return (false, errors) ->
  snd (update_env_state ctx tid env new_state ev reason now)
  = Raise (ValueError (InvalidStateTransition errors))
  /\ errors <> [].
Proof.
  intros Hrepo Hthread Henv Hval. split.
  - rewrite (update_env_state_invalid ctx repo tid env new_state ev reason now
               thread env_obj errors Hrepo Hthread Henv Hval).
    reflexivity.
  - exact (validate_transition_invalid_nonempty _ _ _ _ _ _ Hval).
Qed.

Lemma update_env_state_invalid_raises_witness :
  snd (update_env_state ctx_created "t-1" EnvName.dev EnvState.validated
                        Evidence_default "" 5%Z)
  = Raise (ValueError (InvalidStateTransition
                         [InvalidTransition EnvState.not_started EnvState.validated]))
  /\ [InvalidTransition EnvState.not_started EnvState.validated] <> [].
Proof.
  apply (update_env_state_invalid_raises ctx_created
           repo_created
           "t-1" EnvName.dev EnvState.validated Evidence_default "" 5%Z
           fresh_thread_stored (Environment_default EnvName.dev 0%Z));
    reflexivity.
Defined.

(** C4 (as stated) fails: the thread "t-1" and its dev environment exist,
    the move from NotStarted to Validated is reported invalid, and the call
    returns no result. *)
Lemma update_env_state_returns_no_result :
  stored_state ctx_created "t-1" EnvName.dev = Some EnvState.not_started
  /\ StateMachine.validate_transition EnvState.not_started EnvState.validated
       EnvName.dev Evidence_default (Some fresh_thread)
     = Return (false, [InvalidTransition EnvState.not_started EnvState.validated])
  /\ ~ returns_result
         (update_env_state ctx_created "t-1" EnvName.dev EnvState.validated
                           Evidence_default "" 5%Z).
Proof.
  split; [reflexivity |]. split; [reflexivity |].
  intros [r Hr]. vm_compute in Hr. discriminate Hr.
Qed.

(** C5: when the validation of the transition reports invalid, the call
    leaves the context as it found it: the same repository, hence the same
    thread row, the same environment rows (state, evidence, time stamps),
    the same derived lists and the same audit entries. *)
Theorem update_env_state_invalid_atomic
    (ctx : CtxState) (repo : ThreadRepository) (tid : string) (env : EnvName.t)
    (new_state : EnvState.t) (ev : Evidence) (reason : string) (now : datetime)
    (thread : ClientThread) (env_obj : Environment)
    (errors : list ValidationError) :
  thread_repo ctx = Some repo ->
  Database.get_thread repo tid now = Some thread ->
  Py.get EnvName.eqb env (environments thread) = Some env_obj ->
  StateMachine.validate_transition (state env_obj) new_state env ev (Some thread)
  = Return (false, errors) ->
  fst (update_env_state ctx tid env new_state ev reason now) = ctx
  /\ thread_repo (fst (update_env_state ctx tid env new_state ev reason now))
     = Some repo
  /\ stored_audit (fst (update_env_state ctx tid env new_state ev reason now))
     = audit_log repo
  /\ (forall now',
        Database.get_thread
          (repo_of (fst (update_env_state ctx tid env new_state ev reason now)))
          tid now'
        = Database.get_thread repo tid now').
Proof.
  intros Hrepo Hthread Henv Hval.
  rewrite (update_env_state_invalid ctx repo tid env new_state ev reason now
             thread env_obj errors Hrepo Hthread Henv Hval).
  simpl. unfold stored_audit, repo_of. rewrite Hrepo. auto.
Qed.

Lemma update_env_state_invalid_atomic_witness :
  fst (update_env_state ctx_created "t-1" EnvName.dev EnvState.validated
                        Evidence_default "" 5%Z)
  = ctx_created
  /\ stored_audit
       (fst (update_env_state ctx_created "t-1" EnvName.dev EnvState.validated
                              Evidence_default "" 5%Z))
     = audit_log repo_created.
Proof.
  destruct (update_env_state_invalid_atomic ctx_created repo_created
              "t-1" EnvName.dev EnvState.validated Evidence_default "" 5%Z
              fresh_thread_stored (Environment_default EnvName.dev 0%Z)
              [InvalidTransition EnvState.not_started EnvState.validated]
              eq_refl eq_refl eq_refl eq_refl)
    as [H1 [_ [H3 _]]].
  split; [exact H1 | exact H3].
Defined.

(** Every successful call appends one audit entry, and the entry reads its
    from-state off the environment after the new state has been assigned to
    it. *)
Lemma update_env_state_audit
    (ctx ctx' : CtxState) (repo : ThreadRepository) (tid : string)
    (env : EnvName.t) (new_state : EnvState.t) (ev : Evidence)
    (reason : string) (now : datetime) (b : bool) :
  thread_repo ctx = Some repo ->
  update_env_state ctx tid env new_state ev reason now = (ctx', Return b) ->
  exists entry,
    stored_audit ctx' = audit_log repo ++ [entry]
    /\ action entry = "state_transition"%string
    /\ details entry
       = [ ("environment", DStr (EnvName.value env));
           ("from_state", DStr (EnvState.value new_state));
           ("to_state", DStr (EnvState.value new_state));
           ("reason", DStr reason);
           ("evidence_count", DInt (evidence_count ev)) ]%string.
Proof.
  intros Hrepo. unfold update_env_state. rewrite Hrepo.
  destruct (Database.get_thread repo tid now) as [thread |]; [| discriminate].
  destruct (Py.get EnvName.eqb env (environments thread)) as [env_obj |];
    [| discriminate].
  destruct (StateMachine.validate_transition _ _ _ _ _) as [[ok errors] | e];
    [| discriminate].
  destruct ok; simpl; [| discriminate].
  unfold Database.update_thread.
  destruct (negb (Database.has_thread repo _)); [discriminate |].
  destruct (Database.env_rows _ _); [| discriminate].
  simpl. intros H; injection H as <- <-.
  eexists. split; [reflexivity |]. split; reflexivity.
Qed.

(** C6: the dev environment of "t-1" is NotStarted; moving it to Blocked,
    with no evidence, succeeds and stores Blocked; the one audit entry then
    appended records Blocked, the new state, as its from-state. *)
Theorem update_env_state_audit_from_state :
  stored_state ctx_created "t-1" EnvName.dev = Some EnvState.not_started
  /\ snd (update_env_state ctx_created "t-1" EnvName.dev EnvState.blocked
                           Evidence_default "waiting for the vendor" 5%Z)
     = Return true
  /\ stored_state ctx_blocked "t-1" EnvName.dev = Some EnvState.blocked
  /\ map details (skipn (length (stored_audit ctx_created))
                        (stored_audit ctx_blocked))
     = [ [ ("environment", DStr "dev");
           ("from_state", DStr "Blocked");
           ("to_state", DStr "Blocked");
           ("reason", DStr "waiting for the vendor");
           ("evidence_count", DInt 0) ] ]%string.
Proof. repeat split; vm_compute; reflexivity. Qed.

End ToolsFacts.

(* ================================================================== *)
(** * The environments map of stored threads *)
(* ================================================================== *)

Module InvariantFacts.
Import StateMachineFacts.

Lemma contains_In (k : EnvName.t) (l : list EnvName.t) :
  Py.contains EnvName.eqb k l = true <-> In k l.
Proof.
  unfold Py.contains. rewrite existsb_exists. split.
  - intros [y [Hin Heq]]. apply EnvName_eqb_eq in Heq. subst. exact Hin.
  - intros Hin. exists k. split; [exact Hin | apply EnvName_eqb_eq; reflexivity].
Qed.

Lemma contains_keys_set (d : Environments) (k k' : EnvName.t) (v : Environment) :
  Py.contains EnvName.eqb k' (Py.keys (Py.set EnvName.eqb k v d))
  = Py.contains EnvName.eqb k' (Py.keys d) || EnvName.eqb k k'.
Proof.
  unfold Py.contains, Py.keys.
  induction d as [| [k0 v0] d IH]; simpl.
  - destruct (EnvName.eqb k k'); reflexivity.
  - destruct (EnvName.eqb k0 k) eqn:E; simpl.
    + apply EnvName_eqb_eq in E. subst k0.
      destruct (EnvName.eqb k k'); simpl; [reflexivity |].
      rewrite orb_false_r. reflexivity.
    + rewrite IH. rewrite orb_assoc. reflexivity.
Qed.

Lemma NoDup_keys_set (d : Environments) (k : EnvName.t) (v : Environment) :
  NoDup (Py.keys d) -> NoDup (Py.keys (Py.set EnvName.eqb k v d)).
Proof.
  induction d as [| [k0 v0] d IH]; simpl; intros H.
  - constructor; [intros [] | constructor].
  - destruct (EnvName.eqb k0 k) eqn:E; simpl; [exact H |].
    inversion H as [| x l Hnotin Hnodup]; subst.
    constructor; [| apply IH; exact Hnodup].
    intros Hin. apply contains_In in Hin. rewrite contains_keys_set in Hin.
    apply orb_true_iff in Hin as [Hin | Hin].
    + apply Hnotin. apply contains_In. exact Hin.
    + apply EnvName_eqb_eq in Hin. subst k0.
      assert (EnvName.eqb k k = true) by (apply EnvName_eqb_eq; reflexivity).
      congruence.
Qed.

Lemma truthy_set (d : Environments) (k : EnvName.t) (v : Environment) :
  Py.truthy_list (Py.set EnvName.eqb k v d) = true.
Proof.
  destruct d as [| [k0 v0] d]; simpl; [reflexivity |].
  destruct (EnvName.eqb k0 k); reflexivity.
Qed.

Lemma fold_env_step (rows : list EnvironmentStateDB) :
  forall d0 : Environments,
    NoDup (Py.keys d0) ->
    NoDup (Py.keys (fold_left env_step rows d0))
    /\ (forall k,
          Py.contains EnvName.eqb k (Py.keys (fold_left env_step rows d0))
          = Py.contains EnvName.eqb k (Py.keys d0)
            || existsb (fun r => EnvName.eqb (es_env r) k) rows)
    /\ Py.truthy_list (fold_left env_step rows d0)
       = Py.truthy_list d0 || Py.truthy_list rows.
Proof.
  induction rows as [| r rows IH]; intros d0 Hd0; simpl.
  - split; [exact Hd0 |]. split; intros; rewrite orb_false_r; reflexivity.
  - destruct (IH (env_step d0 r)) as [H1 [H2 H3]].
    { apply NoDup_keys_set. exact Hd0. }
    split; [exact H1 |]. split.
    + intros k. rewrite H2. unfold env_step at 1. simpl.
      rewrite contains_keys_set. rewrite orb_assoc. reflexivity.
    + rewrite H3. unfold env_step. rewrite truthy_set. simpl.
      rewrite orb_true_r. reflexivity.
Qed.

Lemma all_kinds : forall k : EnvName.t,
  In k [EnvName.dev; EnvName.staging; EnvName.prod].
Proof. intros []; simpl; auto. Qed.

Lemma exactly_three_NoDup (d : Environments) :
  NoDup (Py.keys d) ->
  exactly_three_kinds d
  = Py.contains EnvName.eqb EnvName.dev (Py.keys d)
    && Py.contains EnvName.eqb EnvName.staging (Py.keys d)
    && Py.contains EnvName.eqb EnvName.prod (Py.keys d).
Proof.
  intros Hnd. unfold exactly_three_kinds. simpl forallb.
  rewrite andb_true_r.
  destruct (Py.contains EnvName.eqb EnvName.dev (Py.keys d)) eqn:Hd;
    [| rewrite andb_false_r; reflexivity].
  destruct (Py.contains EnvName.eqb EnvName.staging (Py.keys d)) eqn:Hs;
    [| rewrite andb_false_r; reflexivity].
  destruct (Py.contains EnvName.eqb EnvName.prod (Py.keys d)) eqn:Hp;
    [| rewrite andb_false_r; reflexivity].
  simpl. rewrite andb_true_r. apply Nat.eqb_eq.
  apply contains_In in Hd, Hs, Hp.
  assert (Hlen : length d = length (Py.keys d))
    by (unfold Py.keys; rewrite length_map; reflexivity).
  rewrite Hlen. apply Nat.le_antisymm.
  - apply (NoDup_incl_length Hnd (l' := [EnvName.dev; EnvName.staging; EnvName.prod])).
    intros k _. apply all_kinds.
  - assert (Hnd3 : NoDup [EnvName.dev; EnvName.staging; EnvName.prod]).
    { repeat constructor; simpl; intuition discriminate. }
    apply (NoDup_incl_length Hnd3 (l' := Py.keys d)).
    intros k [<- | [<- | [<- | []]]]; assumption.
Qed.

Lemma has_env_row_filter (rows : list EnvironmentStateDB) (tid : string)
    (k : EnvName.t) :
  Database.has_env_row rows tid k
  = existsb (fun r => EnvName.eqb (es_env r) k)
            (filter (fun r => String.eqb (es_thread_id r) tid) rows).
Proof.
  unfold Database.has_env_row.
  induction rows as [| r rows IH]; simpl; [reflexivity |].
  destruct (String.eqb (es_thread_id r) tid); simpl; rewrite IH; reflexivity.
Qed.

Lemma existsb_filter_env (k k' : EnvName.t) (rows : list EnvironmentStateDB) :
  existsb (fun r => EnvName.eqb (es_env r) k)
          (filter (fun r => EnvName.eqb (es_env r) k') rows)
  = EnvName.eqb k' k && existsb (fun r => EnvName.eqb (es_env r) k) rows.
Proof.
  induction rows as [| r rows IH]; [simpl; rewrite andb_false_r; reflexivity |].
  simpl.
  destruct (es_env r) eqn:E, k', k; simpl; rewrite ?E; simpl; rewrite ?IH;
    simpl; reflexivity.
Qed.

(** The rows that [get_thread] reads are the rows of the thread, whatever
    the order. *)
Lemma existsb_env_states (repo : ThreadRepository) (tid : string)
    (k : EnvName.t) :
  existsb (fun r => EnvName.eqb (es_env r) k) (Database.env_states repo tid)
  = Database.has_env_row (environment_state repo) tid k.
Proof.
  unfold Database.env_states, Database.primary_key_order. cbn [flat_map].
  rewrite !existsb_app, !existsb_filter_env, has_env_row_filter.
  cbn [existsb]. destruct k; cbn [EnvName.eqb andb orb];
    rewrite ?orb_false_r; reflexivity.
Qed.

Lemma get_thread_has_thread (repo : ThreadRepository) (tid : string)
    (now : datetime) :
  Database.has_thread repo tid = true
  <-> exists t, Database.get_thread repo tid now = Some t.
Proof.
  unfold Database.has_thread, Database.get_thread.
  destruct (find _ (client_thread repo)) as [row |] eqn:Hfind.
  - split; [intros _; eexists; reflexivity | intros _].
    apply find_some in Hfind. apply existsb_exists. exists row. exact Hfind.
  - split; [| intros [t Ht]; discriminate].
    intros H. apply existsb_exists in H as [row [Hin Hrow]].
    pose proof (find_none _ _ Hfind row Hin) as Hnone. simpl in Hnone.
    congruence.
Qed.

Lemma get_thread_id (repo : ThreadRepository) (tid : string) (now : datetime)
    (t : ClientThread) :
  Database.get_thread repo tid now = Some t -> thread_id t = tid.
Proof.
  unfold Database.get_thread.
  destruct (find _ (client_thread repo)) as [row |] eqn:Hfind; [| discriminate].
  intros H; injection H as <-. simpl.
  apply find_some in Hfind. apply String.eqb_eq. apply Hfind.
Qed.

Lemma get_thread_env_step (repo : ThreadRepository) (tid : string)
    (now : datetime) :
  Database.get_thread repo tid now
  = match find (fun r => String.eqb (db_thread_id r) tid) (client_thread repo) with
    | None => None
    | Some thread_db =>
        Some (ClientThread_init
                (db_thread_id thread_db) (db_display_name thread_db)
                (fold_left env_step (Database.env_states repo tid) [])
                (db_owner thread_db) (db_created_by thread_db)
                (db_created_at thread_db) (db_last_update thread_db)
                (db_blockers thread_db) (db_next_actions thread_db)
                (db_metadata thread_db) now)
    end.
Proof. reflexivity. Qed.

(** The thread rebuilt from the rows holds exactly the three kinds when its
    rows cover none of them (the three are then created afresh) or all of
    them, and only then. *)
Lemma get_thread_three (repo : ThreadRepository) (tid : string) (now : datetime)
    (t : ClientThread) :
  Database.get_thread repo tid now = Some t ->
  exactly_three_kinds (environments t) = covered (environment_state repo) tid.
Proof.
  rewrite get_thread_env_step.
  destruct (find _ (client_thread repo)) as [row |]; [| discriminate].
  intros H; injection H as <-.
  unfold covered. rewrite <- !existsb_env_states.
  set (rows := Database.env_states repo tid).
  destruct (fold_env_step rows [] (NoDup_nil _)) as [Hnd [Hkeys Htruthy]].
  unfold ClientThread_init. cbn [environments].
  rewrite Htruthy. cbn [Py.truthy_list orb].
  destruct rows as [| r rows']; [reflexivity |].
  cbn [Py.truthy_list negb].
  rewrite (exactly_three_NoDup _ Hnd). rewrite !Hkeys. simpl.
  destruct (es_env r); simpl;
    repeat match goal with
           | |- context [existsb ?f rows'] => destruct (existsb f rows')
           end; reflexivity.
Qed.

Lemma stored_three_kinds_iff (repo : ThreadRepository) (tid : string) :
  stored_three_kinds repo tid
  <-> (Database.has_thread repo tid = true ->
       covered (environment_state repo) tid = true).
Proof.
  unfold stored_three_kinds. split.
  - intros H Hhas.
    apply (get_thread_has_thread repo tid 0%Z) in Hhas as [t Ht].
    rewrite <- (get_thread_three repo tid 0%Z t Ht). exact (H _ _ Ht).
  - intros H now t Ht.
    rewrite (get_thread_three repo tid now t Ht). apply H.
    apply (get_thread_has_thread repo tid now). exists t. exact Ht.
Qed.

(** The invariant looks at the thread rows and the environment rows only. *)
Lemma stored_three_kinds_rows (repo repo' : ThreadRepository) (tid : string) :
  client_thread repo' = client_thread repo ->
  environment_state repo' = environment_state repo ->
  stored_three_kinds repo tid -> stored_three_kinds repo' tid.
Proof.
  intros H1 H2. rewrite !stored_three_kinds_iff.
  unfold Database.has_thread. rewrite H1, H2. auto.
Qed.

Lemma get_contains (d : Environments) (k : EnvName.t) (v : Environment) :
  Py.get EnvName.eqb k d = Some v ->
  Py.contains EnvName.eqb k (Py.keys d) = true.
Proof.
  unfold Py.contains, Py.keys.
  induction d as [| [k0 v0] d IH]; simpl; [discriminate |].
  destruct (EnvName.eqb k0 k); simpl; [reflexivity | exact IH].
Qed.

Lemma exactly_three_contains (d : Environments) (k : EnvName.t) :
  exactly_three_kinds d = true ->
  Py.contains EnvName.eqb k (Py.keys d) = true.
Proof.
  unfold exactly_three_kinds. intros H.
  apply andb_prop in H as [_ H]. rewrite forallb_forall in H.
  apply H. apply all_kinds.
Qed.

Lemma covered_all (rows : list EnvironmentStateDB) (tid : string) :
  (forall k, Database.has_env_row rows tid k = true) ->
  covered rows tid = true.
Proof. intros H. unfold covered. rewrite !H. reflexivity. Qed.

Lemma covered_ext (rows rows' : list EnvironmentStateDB) (tid : string) :
  (forall k, Database.has_env_row rows' tid k = Database.has_env_row rows tid k) ->
  covered rows' tid = covered rows tid.
Proof. intros H. unfold covered. rewrite !H. reflexivity. Qed.

(** Rows after an upsert. *)
Lemma has_env_row_upsert (row : EnvironmentStateDB) (tid' : string)
    (k' : EnvName.t) (rows : list EnvironmentStateDB) :
  Database.has_env_row (Database.upsert_env_row row rows) tid' k'
  = Database.has_env_row rows tid' k'
    || (String.eqb (es_thread_id row) tid' && EnvName.eqb (es_env row) k').
Proof.
  unfold Database.has_env_row.
  induction rows as [| r rows IH]; simpl.
  - rewrite orb_false_r. reflexivity.
  - destruct (String.eqb (es_thread_id r) (es_thread_id row)) eqn:E1;
      destruct (EnvName.eqb (es_env r) (es_env row)) eqn:E2; simpl;
      try (rewrite IH; rewrite orb_assoc; reflexivity).
    apply String.eqb_eq in E1. apply EnvName_eqb_eq in E2. rewrite E1, E2.
    destruct (String.eqb (es_thread_id row) tid'),
             (EnvName.eqb (es_env row) k'); simpl;
      rewrite ?orb_false_r, ?orb_true_r; reflexivity.
Qed.

Lemma has_env_row_upserts (tid' : string) (k' : EnvName.t)
    (new_rows : list EnvironmentStateDB) :
  forall rows,
    Database.has_env_row
      (fold_left (fun stored row => Database.upsert_env_row row stored)
                 new_rows rows) tid' k'
    = Database.has_env_row rows tid' k'
      || Database.has_env_row new_rows tid' k'.
Proof.
  induction new_rows as [| row new_rows IH]; intros rows; simpl.
  - rewrite orb_false_r. reflexivity.
  - rewrite IH, has_env_row_upsert. rewrite <- orb_assoc. reflexivity.
Qed.

(** The keys of the rows built for a thread. *)
Lemma has_env_row_env_rows (thread : ClientThread) (tid' : string)
    (k' : EnvName.t) (items : Environments) :
  forall rows,
    Database.env_rows thread items = Some rows ->
    Database.has_env_row rows tid' k'
    = String.eqb (thread_id thread) tid'
      && Py.contains EnvName.eqb k' (Py.keys items).
Proof.
  unfold Database.has_env_row, Py.contains, Py.keys.
  induction items as [| [k v] items IH]; intros rows; simpl.
  - intros H; injection H as <-. simpl. rewrite andb_false_r. reflexivity.
  - destruct (Database.json_encode (Database._serialize_environment v)) as [d |]; [| discriminate].
    destruct (Database.env_rows thread items) as [rest |]; [| discriminate].
    intros H; injection H as <-. simpl. rewrite (IH rest eq_refl).
    destruct (String.eqb (thread_id thread) tid'); reflexivity.
Qed.

Lemma has_thread_update_thread_row (thread : ClientThread) (tid' : string)
    (rows : list ClientThreadDB) :
  existsb (fun r => String.eqb (db_thread_id r) tid')
          (Database.update_thread_row thread rows)
  = existsb (fun r => String.eqb (db_thread_id r) tid') rows.
Proof.
  induction rows as [| r rows IH]; simpl; [reflexivity |].
  destruct (String.eqb (db_thread_id r) (thread_id thread)); simpl;
    [reflexivity | rewrite IH; reflexivity].
Qed.

Lemma derived_loop_environments (items : list (EnvName.t * Environment)) :
  forall th : ClientThread,
    let th' :=
      fold_left
        (fun thread item =>
           Tools.with_derived thread
             (Models.blockers thread
                ++ StateMachine.get_blockers (snd item) thread)
             (Models.next_actions thread
                ++ StateMachine.get_next_actions (snd item) thread))
        items th in
    environments th' = environments th /\ thread_id th' = thread_id th.
Proof.
  induction items as [| item items IH]; intros th; simpl.
  - split; reflexivity.
  - destruct (IH (Tools.with_derived th
                    (Models.blockers th ++ StateMachine.get_blockers (snd item) th)
                    (Models.next_actions th
                       ++ StateMachine.get_next_actions (snd item) th)))
      as [H1 H2].
    simpl in H1, H2. rewrite H1, H2. split; reflexivity.
Qed.

Lemma recompute_derived_environments (thread : ClientThread) :
  environments (Tools.recompute_derived thread) = environments thread
  /\ thread_id (Tools.recompute_derived thread) = thread_id thread.
Proof.
  unfold Tools.recompute_derived.
  exact (derived_loop_environments (Py.items (environments thread))
           (Tools.with_derived thread [] [])).
Qed.

Lemma stored_three_kinds_audit (repo : ThreadRepository) (entry : AuditLog)
    (tid : string) :
  stored_three_kinds repo tid ->
  stored_three_kinds (fst (Database.add_audit_log repo entry)) tid.
Proof. intros H now t Ht. exact (H now t Ht). Qed.

Lemma update_thread_preserves (repo : ThreadRepository) (thread : ClientThread)
    (tid' : string) :
  (String.eqb (thread_id thread) tid' = true ->
   forall k, Py.contains EnvName.eqb k (Py.keys (environments thread)) = true) ->
  stored_three_kinds repo tid' ->
  stored_three_kinds (fst (Database.update_thread repo thread)) tid'.
Proof.
  intros Hkeys. rewrite !stored_three_kinds_iff.
  unfold Database.update_thread.
  destruct (negb (Database.has_thread repo (thread_id thread)));
    simpl; [auto |].
  destruct (Database.env_rows thread (Py.items (environments thread)))
    as [rows |] eqn:Hrows; simpl; [| auto].
  unfold Database.has_thread. simpl.
  rewrite has_thread_update_thread_row. intros H Hhas.
  specialize (H Hhas).
  destruct (String.eqb (thread_id thread) tid') eqn:E.
  - apply covered_all. intros k.
    rewrite has_env_row_upserts,
            (has_env_row_env_rows thread tid' k _ rows Hrows), E.
    unfold Py.items. rewrite (Hkeys eq_refl k). apply orb_true_r.
  - rewrite <- H. apply covered_ext. intros k.
    rewrite has_env_row_upserts,
            (has_env_row_env_rows thread tid' k _ rows Hrows), E.
    apply orb_false_r.
Qed.

Lemma has_env_row_app (rows rows' : list EnvironmentStateDB) (tid : string)
    (k : EnvName.t) :
  Database.has_env_row (rows ++ rows') tid k
  = Database.has_env_row rows tid k || Database.has_env_row rows' tid k.
Proof. unfold Database.has_env_row. apply existsb_app. Qed.

(** What [create_thread] stores when it succeeds. *)
Lemma create_thread_return (repo repo' : ThreadRepository)
    (thread t : ClientThread) :
  Database.create_thread repo thread = (repo', Return t) ->
  exists rows,
    Database.env_rows thread (Py.items (environments thread)) = Some rows
    /\ Database.has_thread repo (thread_id thread) = false
    /\ existsb (fun item => Database.has_env_row (environment_state repo)
                                                 (thread_id thread) (fst item))
               (Py.items (environments thread)) = false
    /\ repo' = mkThreadRepository
                 (client_thread repo ++ [Database.thread_row thread])
                 (environment_state repo ++ rows) (audit_log repo)
    /\ t = thread.
Proof.
  unfold Database.create_thread.
  destruct (Database.has_thread repo (thread_id thread)); [discriminate |].
  destruct (Database.env_rows thread (Py.items (environments thread)))
    as [rows |]; [| discriminate].
  destruct (existsb _ (Py.items (environments thread))); [discriminate |].
  intros H; injection H as <- <-. exists rows. auto.
Qed.

(** A call of [create_thread] that raises stores nothing. *)
Lemma create_thread_raise (repo repo' : ThreadRepository)
    (thread : ClientThread) (e : exn) :
  Database.create_thread repo thread = (repo', Raise e) -> repo' = repo.
Proof.
  unfold Database.create_thread.
  destruct (Database.has_thread repo (thread_id thread));
    [intros H; injection H as <- _; reflexivity |].
  destruct (Database.env_rows thread (Py.items (environments thread)));
    [| intros H; injection H as <- _; reflexivity].
  destruct (existsb _ (Py.items (environments thread)));
    intros H; [injection H as <- _; reflexivity | discriminate].
Qed.

(** A call of [update_thread] that raises stores nothing. *)
Lemma update_thread_raise (repo repo' : ThreadRepository)
    (thread : ClientThread) (e : exn) :
  Database.update_thread repo thread = (repo', Raise e) -> repo' = repo.
Proof.
  unfold Database.update_thread.
  destruct (negb (Database.has_thread repo (thread_id thread)));
    [intros H; injection H as <- _; reflexivity |].
  destruct (Database.env_rows thread (Py.items (environments thread)));
    intros H; [discriminate | injection H as <- _; reflexivity].
Qed.

Lemma create_thread_preserves (repo : ThreadRepository) (thread : ClientThread)
    (tid' : string) :
  (forall k, Py.contains EnvName.eqb k (Py.keys (environments thread)) = true) ->
  stored_three_kinds repo tid' ->
  stored_three_kinds (fst (Database.create_thread repo thread)) tid'.
Proof.
  intros Hkeys Hinv.
  destruct (Database.create_thread repo thread) as [repo' [t | e]] eqn:Hc.
  - destruct (create_thread_return _ _ _ _ Hc)
      as [rows [Hrows [_ [_ [-> _]]]]].
    simpl. revert Hinv. rewrite !stored_three_kinds_iff.
    unfold Database.has_thread. simpl. rewrite existsb_app. simpl.
    rewrite orb_false_r. intros H Hhas.
    destruct (String.eqb (thread_id thread) tid') eqn:E.
    + apply covered_all. intros k.
      rewrite has_env_row_app,
              (has_env_row_env_rows thread tid' k _ rows Hrows), E.
      unfold Py.items. rewrite Hkeys. apply orb_true_r.
    + rewrite orb_false_r in Hhas. rewrite <- (H Hhas).
      apply covered_ext. intros k.
      rewrite has_env_row_app,
              (has_env_row_env_rows thread tid' k _ rows Hrows), E.
      apply orb_false_r.
  - apply create_thread_raise in Hc. subst repo'. exact Hinv.
Qed.

Lemma create_thread_stores (repo repo' : ThreadRepository)
    (thread thread' : ClientThread) :
  (forall k, Py.contains EnvName.eqb k (Py.keys (environments thread)) = true) ->
  Database.create_thread repo thread = (repo', Return thread') ->
  Database.has_thread repo' (thread_id thread) = true
  /\ stored_three_kinds repo' (thread_id thread).
Proof.
  intros Hkeys Hc.
  destruct (create_thread_return _ _ _ _ Hc) as [rows [Hrows [_ [_ [-> _]]]]].
  assert (Hhas : Database.has_thread
                   (mkThreadRepository
                      (client_thread repo ++ [Database.thread_row thread])
                      (environment_state repo ++ rows)
                      (audit_log repo)) (thread_id thread) = true).
  { unfold Database.has_thread. simpl. rewrite existsb_app. simpl.
    rewrite String.eqb_refl. rewrite orb_true_r. reflexivity. }
  split; [exact Hhas |].
  apply stored_three_kinds_iff. intros _. apply covered_all. intros k. simpl.
  rewrite has_env_row_app,
          (has_env_row_env_rows thread (thread_id thread) k _ rows Hrows),
          String.eqb_refl.
  unfold Py.items. rewrite Hkeys. apply orb_true_r.
Qed.

(** [update_env_state] keeps the invariant of every stored thread, whether
    it succeeds or raises. *)
Lemma update_env_state_preserves
    (ctx : Tools.CtxState) (repo : ThreadRepository) (tid : string)
    (env : EnvName.t) (new_state : EnvState.t) (ev : Evidence)
    (reason : string) (now : datetime) (tid' : string) :
  Tools.thread_repo ctx = Some repo ->
  stored_three_kinds repo tid' ->
  stored_three_kinds
    (repo_of (fst (Tools.update_env_state ctx tid env new_state ev reason now)))
    tid'.
Proof.
  intros Hrepo Hinv.
  assert (Hsame : stored_three_kinds (repo_of ctx) tid')
    by (unfold repo_of; rewrite Hrepo; exact Hinv).
  unfold Tools.update_env_state. rewrite Hrepo.
  destruct (Database.get_thread repo tid now) as [thread |] eqn:Hget;
    [| exact Hsame].
  destruct (Py.get EnvName.eqb env (environments thread)) as [env_obj |] eqn:Henv;
    [| exact Hsame].
  destruct (StateMachine.validate_transition _ _ _ _ _) as [[ok errors] | e];
    [| exact Hsame].
  destruct ok; simpl negb; cbv iota; [| exact Hsame].
  match goal with
  | |- context [Database.update_thread repo ?th] =>
      pose proof (update_thread_preserves repo th tid') as Hupd;
      destruct (Database.update_thread repo th) as [repo1 [r | e]]
  end; simpl in Hupd |- *; unfold repo_of; simpl;
    try apply stored_three_kinds_audit; apply Hupd; try exact Hinv;
    intros Heq k;
    destruct (recompute_derived_environments
                (Tools.with_last_update
                   (Tools.with_environments thread
                      (Py.set EnvName.eqb env
                         (Tools.assign_env env_obj new_state ev now)
                         (environments thread))) now)) as [Henvs Hid];
    rewrite Henvs; rewrite Hid in Heq; simpl in Heq |- *;
    rewrite contains_keys_set;
    apply String.eqb_eq in Heq;
    rewrite (get_thread_id repo tid now thread Hget) in Heq; subst tid';
    rewrite (exactly_three_contains _ k (Hinv now thread Hget));
    reflexivity.
Qed.

(** The same, for a context with or without a repository. *)
Lemma update_env_state_keeps
    (ctx : Tools.CtxState) (tid : string) (env : EnvName.t)
    (new_state : EnvState.t) (ev : Evidence) (reason : string)
    (now : datetime) (tid' : string) :
  stored_three_kinds (repo_of ctx) tid' ->
  stored_three_kinds
    (repo_of (fst (Tools.update_env_state ctx tid env new_state ev reason now)))
    tid'.
Proof.
  destruct (Tools.thread_repo ctx) as [repo |] eqn:Hrepo.
  - unfold repo_of at 1. rewrite Hrepo.
    apply update_env_state_preserves. exact Hrepo.
  - unfold Tools.update_env_state. rewrite Hrepo. auto.
Qed.

(** The function behind [advance_environment_with_approval] keeps the
    invariant of every stored thread, whether it succeeds or raises. *)
Lemma advance_environment_func_keeps
    (ctx : Tools.CtxState) (tid : string) (env : EnvName.t)
    (target_state : EnvState.t) (ev : Evidence) (reason : string)
    (now : datetime) (tid' : string) :
  stored_three_kinds (repo_of ctx) tid' ->
  stored_three_kinds
    (repo_of (fst (HITLTools.advance_environment_with_approval_func
                     ctx tid env target_state ev reason now)))
    tid'.
Proof.
  intros Hsame.
  unfold HITLTools.advance_environment_with_approval_func.
  destruct (Tools.thread_repo ctx) as [repo |] eqn:Hrepo; [| exact Hsame].
  assert (Hinv : stored_three_kinds repo tid')
    by (unfold repo_of in Hsame; rewrite Hrepo in Hsame; exact Hsame).
  destruct (Database.get_thread repo tid now) as [thread |] eqn:Hget;
    [| exact Hsame].
  destruct (Py.get EnvName.eqb env (environments thread)) as [env_obj |] eqn:Henv;
    [| exact Hsame].
  destruct (StateMachine.validate_transition _ _ _ _ _) as [[ok errors] | e];
    [| exact Hsame].
  destruct ok; simpl negb; cbv iota; [| exact Hsame].
  match goal with
  | |- context [Database.update_thread repo ?th] =>
      pose proof (update_thread_preserves repo th tid') as Hupd;
      destruct (Database.update_thread repo th) as [repo1 [r | e]]
  end; simpl in Hupd |- *; unfold repo_of; simpl;
    try apply stored_three_kinds_audit; apply Hupd; try exact Hinv;
    intros Heq k;
    rewrite contains_keys_set;
    apply String.eqb_eq in Heq;
    rewrite (get_thread_id repo tid now thread Hget) in Heq; subst tid';
    rewrite (exactly_three_contains _ k (Hinv now thread Hget));
    reflexivity.
Qed.

(** The function behind [deploy_to_production_with_approval] writes an
    audit entry at most. *)
Lemma deploy_to_production_func_keeps
    (ctx : Tools.CtxState) (tid client : string) (now : datetime)
    (tid' : string) :
  stored_three_kinds (repo_of ctx) tid' ->
  stored_three_kinds
    (repo_of (fst (HITLTools.deploy_to_production_with_approval_func
                     ctx tid client now)))
    tid'.
Proof.
  intros Hsame.
  unfold HITLTools.deploy_to_production_with_approval_func.
  destruct (Tools.thread_repo ctx) as [repo |] eqn:Hrepo; [| exact Hsame].
  assert (Hinv : stored_three_kinds repo tid')
    by (unfold repo_of in Hsame; rewrite Hrepo in Hsame; exact Hsame).
  destruct (Database.get_thread repo tid now) as [thread |]; [| exact Hsame].
  destruct (HITLTools.first_incomplete _); [exact Hsame |].
  unfold repo_of. simpl. intros n t Ht. exact (Hinv n t Ht).
Qed.

Lemma same_rows_refl (a : option ThreadRepository) : same_rows a a.
Proof. destruct a; simpl; auto. Qed.

Lemma same_rows_log (a : option ThreadRepository) (entry : AuditLog) :
  same_rows a (HITL.log a entry).
Proof. destruct a; simpl; auto. Qed.

Lemma same_rows_trans (a b c : option ThreadRepository) :
  same_rows a b -> same_rows b c -> same_rows a c.
Proof.
  destruct a, b, c; simpl; try tauto.
  intros [H1 H2] [H3 H4]. split; congruence.
Qed.

Lemma same_rows_keeps (user user' : string) (a b : option ThreadRepository)
    (tid : string) :
  same_rows a b ->
  stored_three_kinds (repo_of (Tools.mkCtxState user a)) tid ->
  stored_three_kinds (repo_of (Tools.mkCtxState user' b)) tid.
Proof.
  unfold repo_of. destruct a, b; simpl; try tauto.
  intros [H1 H2]. apply stored_three_kinds_rows; assumption.
Qed.

Lemma create_approval_request_same_rows
    (m : HITL.HITLManager) (tid : string) (env : EnvName.t)
    (ty : ApprovalType.t) (ttl desc : string) (apprs : list string)
    (ev : option (list (string * Detail))) (timeout_hours : Z)
    (new_id : string) (now : datetime) :
  same_rows (HITL.thread_repo m)
    (HITL.thread_repo (fst (HITL.create_approval_request m tid env ty ttl desc
                              apprs ev timeout_hours new_id now))).
Proof.
  unfold HITL.create_approval_request.
  destruct (datetime_plus_hours now timeout_hours); simpl.
  - apply same_rows_log.
  - apply same_rows_refl.
Qed.

Lemma approve_request_same_rows
    (m : HITL.HITLManager) (key approver comments : string) (now : datetime) :
  same_rows (HITL.thread_repo m)
    (HITL.thread_repo (fst (HITL.approve_request m key approver comments now))).
Proof.
  unfold HITL.approve_request.
  destruct (Py.get String.eqb key (HITL.pending_approvals m)) as [a |];
    [| apply same_rows_refl].
  destruct (negb _); [apply same_rows_refl |].
  destruct (HITL.past_expiry a now); simpl;
    [apply same_rows_refl | apply same_rows_log].
Qed.

(** The gate keeps the invariant whenever the function it guards does. *)
Lemma requires_approval_keeps {A : Type}
    (ty : ApprovalType.t) (apprs : list string) (timeout_hours : Z)
    (func_name : string)
    (func : Tools.CtxState -> datetime -> Tools.CtxState * Py.result exn A)
    (positional : bool) (ctx : Tools.CtxState)
    (kw_thread_id : option string) (kw_env : option EnvName.t)
    (kwargs : list (string * Detail)) (new_id : string) (now later : datetime)
    (tid' : string) :
  (forall ctx1 now1,
     stored_three_kinds (repo_of ctx1) tid' ->
     stored_three_kinds (repo_of (fst (func ctx1 now1))) tid') ->
  stored_three_kinds (repo_of ctx) tid' ->
  stored_three_kinds
    (repo_of (fst (HITL.requires_approval ty apprs timeout_hours func_name func
                     positional ctx kw_thread_id kw_env kwargs new_id now
                     later)))
    tid'.
Proof.
  intros Hfunc Hinv. unfold HITL.requires_approval.
  destruct positional; simpl negb; cbv iota; [| exact Hinv].
  match goal with
  | |- context [HITL.create_approval_request ?m ?a ?b ?c ?d ?e ?f ?g ?h ?i ?j] =>
      pose proof (create_approval_request_same_rows m a b c d e f g h i j)
        as Hcreate;
      destruct (HITL.create_approval_request m a b c d e f g h i j)
        as [m1 [approval | e1]]
  end; [| exact Hinv].
  simpl in Hcreate.
  assert (H1 : stored_three_kinds
                 (repo_of (Tools.mkCtxState (Tools.user ctx)
                                            (HITL.thread_repo m1))) tid').
  { apply (same_rows_keeps (Tools.user ctx) (Tools.user ctx)
             (Tools.thread_repo ctx) (HITL.thread_repo m1) tid' Hcreate).
    destruct ctx; exact Hinv. }
  destruct apprs as [| first rest]; [exact H1 |].
  pose proof (approve_request_same_rows m1 (HITL.id approval) first
                "Auto-approved for demo" later) as Happrove.
  destruct (HITL.approve_request m1 (HITL.id approval) first
              "Auto-approved for demo" later) as [m2 ok].
  simpl in Happrove. apply Hfunc.
  exact (same_rows_keeps (Tools.user ctx) (Tools.user ctx)
           (HITL.thread_repo m1) (HITL.thread_repo m2) tid' Happrove H1).
Qed.

(** A successful [create_client_thread] stores a thread with exactly the
    three kinds under the new id; in every case the invariant of the stored
    threads is kept. *)
Lemma create_client_thread_invariant
    (ctx : Tools.CtxState) (repo : ThreadRepository)
    (display_name owner : string) (lanids : option (list string))
    (new_id : string) (now : datetime) :
  Tools.thread_repo ctx = Some repo ->
  let out := Tools.create_client_thread ctx display_name owner lanids new_id now in
  (forall tid, snd out = Return tid ->
     tid = new_id
     /\ Database.has_thread (repo_of (fst out)) new_id = true
     /\ stored_three_kinds (repo_of (fst out)) new_id)
  /\ (forall tid', stored_three_kinds repo tid' ->
        stored_three_kinds (repo_of (fst out)) tid').
Proof.
  intros Hrepo. unfold Tools.create_client_thread. rewrite Hrepo.
  set (thread0 := ClientThread_init new_id display_name [] owner (Tools.user ctx)
                                    now now [] [] [] now).
  assert (Hpop : exists thread,
             match lanids with
             | Some ((_ :: _) as l) =>
                 match Py.get EnvName.eqb EnvName.dev (environments thread0) with
                 | None => Raise (KeyError EnvName.dev)
                 | Some dev_env =>
                     Return (Tools.with_environments thread0
                               (Py.set EnvName.eqb EnvName.dev
                                       (Tools.with_lanids dev_env l)
                                       (environments thread0)))
                 end
             | _ => Return thread0
             end = Return thread
             /\ thread_id thread = new_id
             /\ forall k, Py.contains EnvName.eqb k (Py.keys (environments thread))
                          = true).
  { destruct lanids as [[| l ls] |]; simpl; eexists;
      (split; [reflexivity | split; [reflexivity | intros []; reflexivity]]). }
  destruct Hpop as [thread [-> [Hid Hkeys]]].
  pose proof (create_thread_preserves repo thread) as Hpres.
  pose proof (fun r t' => create_thread_stores repo r thread t' Hkeys) as Hstore.
  destruct (Database.create_thread repo thread) as [repo1 [thread' | e]];
    simpl in *; unfold repo_of; simpl.
  - split.
    + intros tid H; injection H as <-.
      destruct (Hstore repo1 thread' eq_refl) as [H1 H2].
      rewrite Hid in H1, H2.
      split; [exact Hid |]. split; [exact H1 |].
      intros n t Ht. exact (H2 n t Ht).
    + intros tid' Hinv n t Ht. exact (Hpres tid' Hkeys Hinv n t Ht).
  - split; [intros tid H; discriminate |].
    intros tid' Hinv. exact (Hpres tid' Hkeys Hinv).
Qed.

(** C9 (as stated) fails: a thread constructed with an explicit map that
    holds only the dev environment keeps that map, so construction does not
    always give the three kinds. *)
Lemma ClientThread_init_partial_map :
  Py.keys (environments dev_only_thread) = [EnvName.dev]
  /\ exactly_three_kinds (environments dev_only_thread) = false
  /\ ~ (forall (tid dn : string) (envs : Environments) (ow cb : string)
               (ca lu : datetime) (bl na : list string)
               (md : list (string * string)) (now : datetime),
          exactly_three_kinds
            (environments (ClientThread_init tid dn envs ow cb ca lu bl na md now))
          = true).
Proof.
  split; [reflexivity |]. split; [reflexivity |].
  intros H.
  specialize (H "t-2"%string "Acme"%string
                [(EnvName.dev, Environment_default EnvName.dev 0%Z)]
                "alice"%string "alice"%string 0%Z 0%Z [] [] [] 0%Z).
  discriminate H.
Qed.

Lemma update_env_state_repo
    (ctx : Tools.CtxState) (repo : ThreadRepository) (tid : string)
    (env : EnvName.t) (new_state : EnvState.t) (ev : Evidence)
    (reason : string) (now : datetime) :
  Tools.thread_repo ctx = Some repo ->
  Tools.thread_repo
    (fst (Tools.update_env_state ctx tid env new_state ev reason now))
  = Some (repo_of (fst (Tools.update_env_state ctx tid env new_state ev
                                               reason now))).
Proof.
  intros Hrepo. unfold Tools.update_env_state. rewrite Hrepo.
  destruct (Database.get_thread repo tid now) as [thread |];
    [| unfold repo_of; simpl; rewrite Hrepo; reflexivity].
  destruct (Py.get EnvName.eqb env (environments thread)) as [env_obj |];
    [| unfold repo_of; simpl; rewrite Hrepo; reflexivity].
  destruct (StateMachine.validate_transition _ _ _ _ _) as [[ok errors] | e];
    [| unfold repo_of; simpl; rewrite Hrepo; reflexivity].
  destruct ok; simpl negb; cbv iota;
    [| unfold repo_of; simpl; rewrite Hrepo; reflexivity].
  destruct (Database.update_thread repo _) as [repo1 [r | e]]; reflexivity.
Qed.

(** The approval email task keeps the invariant of every stored thread. *)
Lemma advance_to_approved_keeps
    (repo : ThreadRepository) (tid env_name mid : string) (now : datetime)
    (tid' : string) :
  stored_three_kinds repo tid' ->
  exists repo',
    Main.advance_to_approved (Some repo) tid env_name mid now = Some repo'
    /\ stored_three_kinds repo' tid'.
Proof.
  intros Hinv. unfold Main.advance_to_approved.
  destruct (Database.get_thread repo tid now) as [thread |];
    [| exists repo; auto].
  destruct (Main.EnvName_of_value env_name) as [env_kind |];
    [| exists repo; auto].
  destruct (Py.get EnvName.eqb env_kind (environments thread)) as [env |];
    [| exists repo; auto].
  destruct (negb _); [exists repo; auto |].
  eexists. split.
  - apply (update_env_state_repo _ repo). reflexivity.
  - apply (update_env_state_preserves _ repo); [reflexivity | exact Hinv].
Qed.

(** An emergency approval writes an audit entry at most. *)
Lemma create_emergency_approval_keeps
    (ctx : Tools.CtxState) (tid : string) (env : EnvName.t)
    (emergency_type justification : string) (approvers : list string)
    (new_id : string) (now : datetime) (tid' : string) :
  stored_three_kinds (repo_of ctx) tid' ->
  stored_three_kinds
    (repo_of (fst (HITLTools.create_emergency_approval ctx tid env
                     emergency_type justification approvers new_id now)))
    tid'.
Proof.
  intros Hinv. unfold HITLTools.create_emergency_approval.
  match goal with
  | |- context [HITL.create_approval_request ?m ?a ?b ?c ?d ?e ?f ?g ?h ?i ?j] =>
      pose proof (create_approval_request_same_rows m a b c d e f g h i j)
        as Hcreate;
      destruct (HITL.create_approval_request m a b c d e f g h i j)
        as [m1 [approval | e1]]
  end; [| exact Hinv].
  simpl in Hcreate. simpl fst.
  apply (same_rows_keeps (Tools.user ctx) (Tools.user ctx)
           (Tools.thread_repo ctx) (HITL.thread_repo m1) tid' Hcreate).
  destruct ctx; exact Hinv.
Qed.

(** C9 (as the code has it): a thread constructed without an environments
    map, or with an empty one, holds exactly one environment for each of
    dev, staging and prod, while a non-empty supplied map is kept as
    supplied; [create_client_thread] stores a thread with exactly the three
    kinds under the new id; and every operation of the orchestrator that
    writes to the repository ([create_client_thread], [update_env_state],
    the gated [advance_environment_with_approval] and
    [deploy_to_production_with_approval], [create_emergency_approval] and
    the approval email task [advance_to_approved]), whether it succeeds or
    raises, leaves every stored thread that holds exactly the three kinds
    holding exactly the three kinds, as do [create_thread] and
    [update_thread] of the repository whenever the thread handed to them
    holds exactly the three kinds. *)
Theorem environments_three_kinds :
  (forall (tid dn ow cb : string) (ca lu : datetime) (bl na : list string)
          (md : list (string * string)) (now : datetime),
     exactly_three_kinds
       (environments (ClientThread_init tid dn [] ow cb ca lu bl na md now))
     = true)
  /\ (forall (tid dn ow cb : string) (ca lu : datetime) (bl na : list string)
             (md : list (string * string)) (now : datetime)
             (e : EnvName.t * Environment) (es : Environments),
        environments (ClientThread_init tid dn (e :: es) ow cb ca lu bl na md now)
        = e :: es)
  /\ (forall (ctx : Tools.CtxState) (repo : ThreadRepository)
             (display_name owner : string) (lanids : option (list string))
             (new_id : string) (now : datetime),
        Tools.thread_repo ctx = Some repo ->
        (forall tid,
           snd (Tools.create_client_thread ctx display_name owner lanids new_id now)
           = Return tid ->
           tid = new_id
           /\ Database.has_thread
                (repo_of (fst (Tools.create_client_thread
                                 ctx display_name owner lanids new_id now)))
                new_id = true
           /\ stored_three_kinds
                (repo_of (fst (Tools.create_client_thread
                                 ctx display_name owner lanids new_id now)))
                new_id)
        /\ (forall tid',
              stored_three_kinds repo tid' ->
              stored_three_kinds
                (repo_of (fst (Tools.create_client_thread
                                 ctx display_name owner lanids new_id now)))
                tid'))
  /\ (forall (ctx : Tools.CtxState) (repo : ThreadRepository) (tid : string)
             (env : EnvName.t) (new_state : EnvState.t) (ev : Evidence)
             (reason : string) (now : datetime) (tid' : string),
        Tools.thread_repo ctx = Some repo ->
        stored_three_kinds repo tid' ->
        stored_three_kinds
          (repo_of (fst (Tools.update_env_state ctx tid env new_state ev
                                                reason now)))
          tid')
  /\ (forall (ctx : Tools.CtxState) (repo : ThreadRepository) (tid : string)
             (env : EnvName.t) (target_state : EnvState.t) (ev : Evidence)
             (reason : string) (thread_id_kw env_kw : bool)
             (kwargs : list (string * Detail)) (new_id : string)
             (now later : datetime) (tid' : string),
        Tools.thread_repo ctx = Some repo ->
        stored_three_kinds repo tid' ->
        stored_three_kinds
          (repo_of (fst (HITLTools.advance_environment_with_approval
                           ctx tid env target_state ev reason thread_id_kw
                           env_kw kwargs new_id now later)))
          tid')
  /\ (forall (ctx : Tools.CtxState) (repo : ThreadRepository)
             (tid client : string) (thread_id_kw : bool)
             (kwargs : list (string * Detail)) (new_id : string)
             (now later : datetime) (tid' : string),
        Tools.thread_repo ctx = Some repo ->
        stored_three_kinds repo tid' ->
        stored_three_kinds
          (repo_of (fst (HITLTools.deploy_to_production_with_approval
                           ctx tid client thread_id_kw kwargs new_id now
                           later)))
          tid')
  /\ (forall (ctx : Tools.CtxState) (repo : ThreadRepository) (tid : string)
             (env : EnvName.t) (emergency_type justification : string)
             (approvers : list string) (new_id : string) (now : datetime)
             (tid' : string),
        Tools.thread_repo ctx = Some repo ->
        stored_three_kinds repo tid' ->
        stored_three_kinds
          (repo_of (fst (HITLTools.create_emergency_approval
                           ctx tid env emergency_type justification approvers
                           new_id now)))
          tid')
  /\ (forall (repo : ThreadRepository) (tid env_name mid : string)
             (now : datetime) (tid' : string),
        stored_three_kinds repo tid' ->
        exists repo',
          Main.advance_to_approved (Some repo) tid env_name mid now = Some repo'
          /\ stored_three_kinds repo' tid')
  /\ (forall (repo : ThreadRepository) (thread : ClientThread) (tid' : string),
        exactly_three_kinds (environments thread) = true ->
        stored_three_kinds repo tid' ->
        stored_three_kinds (fst (Database.create_thread repo thread)) tid'
        /\ stored_three_kinds (fst (Database.update_thread repo thread)) tid').
Proof.
  assert (Hof : forall (ctx : Tools.CtxState) repo tid',
             Tools.thread_repo ctx = Some repo ->
             stored_three_kinds repo tid' ->
             stored_three_kinds (repo_of ctx) tid').
  { intros ctx repo tid' Hrepo H. unfold repo_of. rewrite Hrepo. exact H. }
  split; [intros; reflexivity |].
  split; [intros; reflexivity |].
  split; [| split; [| split; [| split; [| split; [| split]]]]].
  - intros ctx repo display_name owner lanids new_id now Hrepo.
    exact (create_client_thread_invariant ctx repo display_name owner lanids
             new_id now Hrepo).
  - intros ctx repo tid env new_state ev reason now tid' Hrepo Hinv.
    exact (update_env_state_preserves ctx repo tid env new_state ev reason now
             tid' Hrepo Hinv).
  - intros ctx repo tid env target_state ev reason thread_id_kw env_kw kwargs
           new_id now later tid' Hrepo Hinv.
    unfold HITLTools.advance_environment_with_approval.
    apply requires_approval_keeps; [| exact (Hof ctx repo tid' Hrepo Hinv)].
    intros ctx1 now1. apply advance_environment_func_keeps.
  - intros ctx repo tid client thread_id_kw kwargs new_id now later tid'
           Hrepo Hinv.
    unfold HITLTools.deploy_to_production_with_approval.
    apply requires_approval_keeps; [| exact (Hof ctx repo tid' Hrepo Hinv)].
    intros ctx1 now1. apply deploy_to_production_func_keeps.
  - intros ctx repo tid env emergency_type justification approvers new_id now
           tid' Hrepo Hinv.
    apply create_emergency_approval_keeps. exact (Hof ctx repo tid' Hrepo Hinv).
  - intros repo tid env_name mid now tid' Hinv.
    exact (advance_to_approved_keeps repo tid env_name mid now tid' Hinv).
  - intros repo thread tid' H3 Hinv. split.
    + apply create_thread_preserves; [| exact Hinv].
      intros k. exact (exactly_three_contains _ k H3).
    + apply update_thread_preserves; [| exact Hinv].
      intros _ k. exact (exactly_three_contains _ k H3).
Qed.

Lemma environments_three_kinds_witness :
  Tools.thread_repo ctx_empty = Some empty_repo
  /\ stored_three_kinds repo_created "t-1"
  /\ stored_three_kinds (repo_of ctx_blocked) "t-1"
  /\ stored_three_kinds
       (repo_of (fst (HITLTools.advance_environment_with_approval
                        ctx_created "t-1" EnvName.staging EnvState.abandoned
                        Evidence_default "dropped" true true []
                        "approval-20240101120000" 6%Z 2000006%Z)))
       "t-1".
Proof.
  destruct environments_three_kinds
    as [_ [_ [Hcreate [Hupdate [Hadvance _]]]]].
  assert (H1 : stored_three_kinds repo_created "t-1").
  { destruct (Hcreate ctx_empty empty_repo "Acme"%string "alice"%string None
                      "t-1"%string 0%Z eq_refl) as [Hnew _].
    destruct (Hnew "t-1"%string eq_refl) as [_ [_ H]]. exact H. }
  split; [reflexivity |]. split; [exact H1 |]. split.
  - exact (Hupdate ctx_created repo_created "t-1"%string EnvName.dev
                   EnvState.blocked Evidence_default
                   "waiting for the vendor"%string 5%Z
                   "t-1"%string eq_refl H1).
  - exact (Hadvance ctx_created repo_created "t-1"%string EnvName.staging
                    EnvState.abandoned Evidence_default "dropped"%string
                    true true [] "approval-20240101120000"%string 6%Z
                    2000006%Z "t-1"%string eq_refl H1).
Defined.

End InvariantFacts.

(* ================================================================== *)
(** * Further properties of the state machine *)
(* ================================================================== *)

Module StateMachineMore.
Import EnvState StateMachine StateMachineFacts.

(** The verdict of [validate_transition] agrees with its error list: valid
    exactly when the list is empty; a valid verdict is given only to a
    move that [can_transition] accepts; and a move it refuses is reported
    by the one structural error, whatever the evidence. *)
Theorem validate_transition_verdict
    (current target : EnvState.t) (env : EnvName.t) (ev : Evidence)
    (thread : option ClientThread) (ok : bool) (errors : list ValidationError) :
  validate_transition current target env ev thread = Return (ok, errors) ->
  (ok = true <-> errors = [])
  /\ (ok = true -> can_transition current target = Return true)
  /\ (can_transition current target = Return false ->
      ok = false /\ errors = [InvalidTransition current target]).
Proof.
  unfold validate_transition.
  destruct (can_transition current target) as [[|] | e]; simpl;
    [| | discriminate].
  - match goal with
    | |- Py.bind ?c _ = _ -> _ => destruct c as [errs | e]; simpl
    end; [| discriminate].
    intros H; injection H as <- <-.
    split; [| split]; [| reflexivity | discriminate].
    destruct errs; simpl; split; congruence.
  - intros H; injection H as <- <-.
    split; [| split]; [split; discriminate | discriminate | auto].
Qed.

Lemma validate_transition_verdict_witness :
  validate_transition not_started forms_raised EnvName.dev Evidence_default None
  = Return (false, [FormsRaisedRequiresTicket])
  /\ (false = true <-> [FormsRaisedRequiresTicket] = []).
Proof.
  split; [reflexivity |].
  apply (validate_transition_verdict not_started forms_raised EnvName.dev
           Evidence_default None false [FormsRaisedRequiresTicket] eq_refl).
Defined.

(** Entering Blocked, ChangesRequested or Abandoned is valid from every
    state, ChangesRequested included, for every environment, with any
    evidence and with or without a thread. *)
Theorem validate_transition_special_target
    (current target : EnvState.t) (env : EnvName.t) (ev : Evidence)
    (thread : option ClientThread) :
  special target ->
  validate_transition current target env ev thread = Return (true, []).
Proof.
  intros H. apply special_cases in H.
  destruct H as [-> | [-> | ->]]; reflexivity.
Qed.

Lemma validate_transition_special_target_witness :
  special blocked
  /\ validate_transition changes_requested blocked EnvName.prod
                         Evidence_default None
     = Return (true, []).
Proof.
  assert (H : special blocked) by (unfold special; simpl; auto).
  split; [exact H |].
  apply (validate_transition_special_target changes_requested blocked
           EnvName.prod Evidence_default None H).
Defined.

Lemma truthy_length {A} (l : list A) :
  Py.truthy_list l = negb (Nat.eqb (length l) 0).
Proof. destruct l; reflexivity. Qed.

Lemma truthy_filter_existsb {A} (f : A -> bool) (l : list A) :
  Py.truthy_list (filter f l) = existsb f l.
Proof.
  induction l as [| x l IH]; simpl; [reflexivity |].
  destruct (f x); simpl; [reflexivity | exact IH].
Qed.

Lemma existsb_pointwise {A} (f g : A -> bool) (l : list A) :
  (forall x, f x = g x) -> existsb f l = existsb g l.
Proof.
  intros H. induction l as [| x l IH]; simpl; [reflexivity |].
  rewrite H, IH. reflexivity.
Qed.

Lemma forallb_pointwise {A} (f g : A -> bool) (l : list A) :
  (forall x, f x = g x) -> forallb f l = forallb g l.
Proof.
  intros H. induction l as [| x l IH]; simpl; [reflexivity |].
  rewrite H, IH. reflexivity.
Qed.

Lemma glam_filter (l : list TicketRef) :
  Py.truthy_list
    (filter (fun t => Py.contains String.eqb (ticket_kind t)
                        ["GLAM"; "GWAM"]%string) l)
  = existsb (fun t => String.eqb (ticket_kind t) "GLAM"
                      || String.eqb (ticket_kind t) "GWAM") l.
Proof.
  rewrite truthy_filter_existsb. apply existsb_pointwise. intros t.
  unfold Py.contains. cbn [existsb]. rewrite orb_false_r.
  rewrite (String.eqb_sym "GLAM" (ticket_kind t)).
  rewrite (String.eqb_sym "GWAM" (ticket_kind t)). reflexivity.
Qed.

Lemma contains_map_label (label : string) (l : list ScreenshotRef) :
  Py.contains String.eqb label (map screenshot_label l)
  = existsb (fun s => String.eqb (screenshot_label s) label) l.
Proof.
  unfold Py.contains. induction l as [| x l IH]; simpl; [reflexivity |].
  rewrite IH. reflexivity.
Qed.

Lemma falsy_filter_negb {A} (f : A -> bool) (l : list A) :
  negb (Py.truthy_list (filter (fun x => negb (f x)) l)) = forallb f l.
Proof.
  induction l as [| x l IH]; simpl; [reflexivity |].
  destruct (f x); simpl; [exact IH | reflexivity].
Qed.

(** For a move that [can_transition] accepts into a state other than
    Complete, the verdict is exactly whether the evidence holds what the
    target asks for, and at most one error is reported. *)
Theorem validate_transition_evidence
    (current target : EnvState.t) (env : EnvName.t) (ev : Evidence)
    (thread : option ClientThread) :
  can_transition current target = Return true ->
  target <> complete ->
  exists errors,
    validate_transition current target env ev thread
    = Return (evidence_sufficient target env ev, errors)
    /\ (length errors <= 1)%nat.
Proof.
  intros Hcan Hnc. unfold validate_transition. rewrite Hcan.
  cbn [Py.bind negb].
  destruct target; try congruence; cbn [Py.bind evidence_sufficient].
  - exists []. split; [reflexivity | auto].
  - rewrite truthy_length.
    destruct (Nat.eqb (length (tickets ev)) 0); eexists;
      (split; [reflexivity | simpl; auto]).
  - destruct (secret ev); eexists; (split; [reflexivity | simpl; auto]).
  - destruct env; cbn [Py.contains existsb EnvName.eqb orb Py.bind];
      try (exists []; split; [reflexivity | auto]);
      rewrite glam_filter;
      (match goal with
       | |- context [negb (existsb ?f ?l)] =>
           destruct (existsb f l); eexists;
           (split; [reflexivity | simpl; auto])
       end).
  - set (labels := map screenshot_label (screenshots ev)).
    set (missing := filter (fun label => negb (Py.contains String.eqb label labels))
                           required_labels).
    assert (Hm : negb (Py.truthy_list missing)
                 = forallb (fun label =>
                              existsb (fun s => String.eqb (screenshot_label s) label)
                                      (screenshots ev))
                           ["login"; "consent"; "landing"; "token"]%string).
    { unfold missing. rewrite falsy_filter_negb. unfold required_labels, labels.
      apply forallb_pointwise. intros label. apply contains_map_label. }
    rewrite <- Hm.
    destruct (Py.truthy_list missing); eexists;
      (split; [reflexivity | simpl; auto]).
  - rewrite truthy_length.
    destruct (Nat.eqb (length (emails ev)) 0); eexists;
      (split; [reflexivity | simpl; auto]).
  - rewrite truthy_length.
    destruct (Nat.eqb (length (emails ev)) 0); eexists;
      (split; [reflexivity | simpl; auto]).
  - exists []. split; [reflexivity | auto].
  - exists []. split; [reflexivity | auto].
  - exists []. split; [reflexivity | auto].
Qed.

Lemma validate_transition_evidence_witness :
  can_transition creds_issued access_provisioned = Return true
  /\ exists errors,
       validate_transition creds_issued access_provisioned EnvName.prod
                           Evidence_default None
       = Return (true, errors)
       /\ (length errors <= 1)%nat.
Proof.
  split; [reflexivity |].
  apply (validate_transition_evidence creds_issued access_provisioned
           EnvName.prod Evidence_default None eq_refl).
  discriminate.
Defined.

(** When the move into Validated is refused for its evidence, the one
    error names exactly the required labels that no screenshot carries. *)
Theorem validate_transition_missing_labels
    (env : EnvName.t) (ev : Evidence) (thread : option ClientThread)
    (missing : list string) :
  validate_transition access_provisioned validated env ev thread
  = Return (false, [RequiresScreenshots missing]) ->
  missing <> []
  /\ forall label,
       In label missing
       <-> In label required_labels
           /\ ~ In label (map screenshot_label (screenshots ev)).
Proof.
  unfold validate_transition. cbn [can_transition Py.bind negb].
  change (can_transition access_provisioned validated) with
    (@Return exn bool true).
  cbn [Py.bind negb].
  set (labels := map screenshot_label (screenshots ev)).
  set (found := filter (fun label => negb (Py.contains String.eqb label labels))
                       required_labels).
  destruct found as [| l ls] eqn:Hfound; cbn [Py.truthy_list length Nat.eqb];
    [discriminate |].
  intros H; injection H as <-.
  split; [discriminate |].
  intros label. rewrite <- Hfound. unfold found. rewrite filter_In.
  split; intros [Hin Hno]; split; try exact Hin.
  - intros Hl. apply negb_true_iff in Hno.
    assert (Py.contains String.eqb label labels = true); [| congruence].
    unfold Py.contains. apply existsb_exists. exists label.
    split; [exact Hl | apply String.eqb_refl].
  - apply negb_true_iff. destruct (Py.contains String.eqb label labels) eqn:E;
      [| reflexivity].
    exfalso. apply Hno. unfold Py.contains in E.
    apply existsb_exists in E as [y [Hy Heq]].
    apply String.eqb_eq in Heq. subst y. exact Hy.
Qed.

Lemma validate_transition_missing_labels_witness :
  validate_transition access_provisioned validated EnvName.dev
    (mkEvidence [] None
       [ mkScreenshotRef "k1" "login" None 0%Z;
         mkScreenshotRef "k2" "consent" None 0%Z ] [] [])
    None
  = Return (false, [RequiresScreenshots ["landing"; "token"]%string])
  /\ ["landing"; "token"]%string <> [].
Proof.
  split; [reflexivity |].
  apply (validate_transition_missing_labels EnvName.dev
           (mkEvidence [] None
              [ mkScreenshotRef "k1" "login" None 0%Z;
                mkScreenshotRef "k2" "consent" None 0%Z ] [] [])
           None ["landing"; "token"]%string eq_refl).
Defined.

(** [get_current_environment] on a thread that has the three environments
    returns the first of dev, staging, prod whose state is neither Complete
    nor Abandoned, and none when all three are; it raises [KeyError] as soon
    as the scan reaches a kind that the map lacks. *)
Theorem get_current_environment_first_active (thread : ClientThread) :
  (forall d s p,
     Py.get EnvName.eqb EnvName.dev (environments thread) = Some d ->
     Py.get EnvName.eqb EnvName.staging (environments thread) = Some s ->
     Py.get EnvName.eqb EnvName.prod (environments thread) = Some p ->
     get_current_environment thread
     = Return (if negb (terminal (state d)) then Some EnvName.dev
               else if negb (terminal (state s)) then Some EnvName.staging
               else if negb (terminal (state p)) then Some EnvName.prod
               else None))
  /\ (Py.get EnvName.eqb EnvName.dev (environments thread) = None ->
      get_current_environment thread = Raise (KeyError EnvName.dev))
  /\ (forall d,
        Py.get EnvName.eqb EnvName.dev (environments thread) = Some d ->
        terminal (state d) = true ->
        Py.get EnvName.eqb EnvName.staging (environments thread) = None ->
        get_current_environment thread = Raise (KeyError EnvName.staging)).
Proof.
  unfold get_current_environment. split; [| split].
  - intros d s p Hd Hs Hp. rewrite Hd, Hs, Hp.
    destruct (state d), (state s), (state p); reflexivity.
  - intros Hd. rewrite Hd. reflexivity.
  - intros d Hd Ht Hs. rewrite Hd, Hs.
    destruct (state d); try discriminate; reflexivity.
Qed.

Lemma get_current_environment_first_active_witness :
  get_current_environment fresh_thread = Return (Some EnvName.dev)
  /\ get_current_environment dev_only_thread = Return (Some EnvName.dev).
Proof.
  destruct (get_current_environment_first_active fresh_thread) as [H _].
  split; [| reflexivity].
  exact (H (Environment_default EnvName.dev 0%Z)
           (Environment_default EnvName.staging 0%Z)
           (Environment_default EnvName.prod 0%Z) eq_refl eq_refl eq_refl).
Defined.

(** ** Progress beyond the three-environment case *)

Lemma completed_states_fold (envs : list Environment) :
  forall acc : Z,
    (acc <= fold_left (fun acc env => acc + score (state env)) envs acc
         <= acc + 8 * Z.of_nat (length envs))%Z.
Proof.
  induction envs as [| e envs IH]; intros acc; simpl fold_left.
  - simpl. lia.
  - specialize (IH (acc + score (state e))%Z).
    pose proof (score_bounds (state e)).
    replace (Z.of_nat (length (e :: envs))) with (1 + Z.of_nat (length envs))%Z
      by (simpl length; lia).
    lia.
Qed.

Lemma completed_states_bounds (thread : ClientThread) :
  (0 <= completed_states thread
     <= 8 * Z.of_nat (length (environments thread)))%Z.
Proof.
  unfold completed_states, Py.values.
  pose proof (completed_states_fold (map snd (environments thread)) 0%Z) as H.
  rewrite length_map in H. lia.
Qed.

Lemma progress_cases_in_range :
  forallb (fun c => ratio_of_in_range (fst c) (snd c)) progress_cases = true.
Proof. vm_compute. reflexivity. Qed.

Lemma ratio_of_ok (n k : Z) :
  (1 <= n <= 3)%Z -> (0 <= k <= 8 * n)%Z -> ratio_of_in_range n k = true.
Proof.
  intros Hn Hk.
  apply (proj1 (forallb_forall _ _) progress_cases_in_range (n, k)).
  unfold progress_cases. apply in_flat_map. exists (Z.to_nat n). split.
  - assert (Hc : n = 1%Z \/ n = 2%Z \/ n = 3%Z) by lia.
    destruct Hc as [-> | [-> | ->]]; simpl; auto.
  - apply in_map_iff. exists (Z.to_nat k). split.
    + f_equal; lia.
    + apply in_seq. lia.
Qed.

(** Whatever kinds the environments map of a thread holds (at most three
    entries), [calculate_progress] lies between 0 and 1; with no environment
    at all it is 0. *)
Theorem calculate_progress_unit_interval (thread : ClientThread) :
  (length (environments thread) <= 3)%nat ->
  PrimFloat.leb 0 (calculate_progress thread) = true
  /\ PrimFloat.leb (calculate_progress thread) 1 = true
  /\ (environments thread = [] -> calculate_progress thread = 0%float).
Proof.
  intros Hlen.
  pose proof (completed_states_bounds thread) as Hk.
  unfold calculate_progress.
  change (Z.of_nat (length STATE_ORDER)) with 8%Z.
  destruct (environments thread) as [| e envs] eqn:Henvs.
  - simpl. repeat split; reflexivity.
  - set (n := Z.of_nat (length (e :: envs))) in *.
    assert (Hn : (1 <= n <= 3)%Z) by (unfold n; simpl length in *; lia).
    assert (Hpos : (8 * n >? 0)%Z = true) by (apply Z.gtb_lt; lia).
    rewrite Hpos.
    pose proof (ratio_of_ok n (completed_states thread) Hn Hk) as Hr.
    unfold ratio_of_in_range in Hr.
    apply andb_prop in Hr as [Hr Hle1]. apply andb_prop in Hr as [Hlt Hge0].
    apply negb_true_iff in Hlt. unfold ratio_of in *.
    unfold min_1. rewrite Hlt.
    split; [exact Hge0 |]. split; [exact Hle1 | discriminate].
Qed.

Lemma calculate_progress_unit_interval_witness :
  (length (environments dev_only_thread) <= 3)%nat
  /\ PrimFloat.leb 0 (calculate_progress dev_only_thread) = true
  /\ PrimFloat.leb (calculate_progress dev_only_thread) 1 = true.
Proof.
  assert (H : (length (environments dev_only_thread) <= 3)%nat)
    by (simpl; lia).
  split; [exact H |].
  destruct (calculate_progress_unit_interval dev_only_thread H) as [H0 [H1 _]].
  split; [exact H0 | exact H1].
Defined.

Lemma score_step (s s' : EnvState.t) (i : nat) :
  position s = Some i -> position s' = Some (S i) ->
  score s' = (score s + 1)%Z.
Proof.
  intros H1 H2.
  destruct s; vm_compute in H1; try discriminate H1; injection H1 as <-;
    destruct s'; vm_compute in H2;
    first [ discriminate H2
          | injection H2 as H2; discriminate H2
          | reflexivity ].
Qed.

Lemma ratio_grows_upto_23 :
  forallb ratio_grows (map Z.of_nat (seq 0 24)) = true.
Proof. vm_compute. reflexivity. Qed.

Lemma ratio_grows_ok (k : Z) : (0 <= k < 24)%Z -> ratio_grows k = true.
Proof.
  intros Hk.
  apply (proj1 (forallb_forall _ _) ratio_grows_upto_23).
  apply in_map_iff. exists (Z.to_nat k). split; [lia |].
  apply in_seq. lia.
Qed.

Lemma calculate_progress_ratio (thread : ClientThread) (d s p : Environment) :
  exactly_three_kinds (environments thread) = true ->
  Py.get EnvName.eqb EnvName.dev (environments thread) = Some d ->
  Py.get EnvName.eqb EnvName.staging (environments thread) = Some s ->
  Py.get EnvName.eqb EnvName.prod (environments thread) = Some p ->
  calculate_progress thread
  = ratio (score (state d) + score (state s) + score (state p)).
Proof.
  intros H3 Hd Hs Hp.
  destruct (completed_states_three thread d s p H3 Hd Hs Hp) as [Hlen Hsum].
  pose proof (score_bounds (state d)) as Bd.
  pose proof (score_bounds (state s)) as Bs.
  pose proof (score_bounds (state p)) as Bp.
  assert (Hn : (0 <= score (state d) + score (state s) + score (state p) <= 24)%Z)
    by lia.
  pose proof (ratio_ok _ Hn) as Hr.
  unfold ratio_in_range in Hr.
  apply andb_prop in Hr as [Hr _]. apply andb_prop in Hr as [Hlt _].
  apply negb_true_iff in Hlt.
  unfold calculate_progress. rewrite Hlen, Hsum.
  change (Z.of_nat (length STATE_ORDER) * Z.of_nat 3 >? 0)%Z with true.
  change (Z.of_nat (length STATE_ORDER) * Z.of_nat 3)%Z with 24%Z.
  cbv beta iota zeta. unfold min_1.
  fold (ratio (score (state d) + score (state s) + score (state p))).
  rewrite Hlt. reflexivity.
Qed.

(** On a thread with its three environments, moving one environment one
    place forward in the ordered progression strictly increases
    [calculate_progress]. *)
Theorem calculate_progress_step
    (thread : ClientThread) (k : EnvName.t) (e e' : Environment) (i : nat) :
  exactly_three_kinds (environments thread) = true ->
  Py.get EnvName.eqb k (environments thread) = Some e ->
  position (state e) = Some i ->
  position (state e') = Some (S i) ->
  PrimFloat.ltb
    (calculate_progress thread)
    (calculate_progress
       (Tools.with_environments thread
          (Py.set EnvName.eqb k e' (environments thread))))
  = true.
Proof.
  intros H3 Hk Hpos Hpos'.
  pose proof (score_step _ _ _ Hpos Hpos') as Hstep.
  pose proof (score_bounds (state e')) as Be'.
  assert (Hshape : exists d s p,
             Py.get EnvName.eqb EnvName.dev (environments thread) = Some d
             /\ Py.get EnvName.eqb EnvName.staging (environments thread) = Some s
             /\ Py.get EnvName.eqb EnvName.prod (environments thread) = Some p
             /\ exists d' s' p',
                  let envs' := Py.set EnvName.eqb k e' (environments thread) in
                  exactly_three_kinds envs' = true
                  /\ Py.get EnvName.eqb EnvName.dev envs' = Some d'
                  /\ Py.get EnvName.eqb EnvName.staging envs' = Some s'
                  /\ Py.get EnvName.eqb EnvName.prod envs' = Some p'
                  /\ (score (state d') + score (state s') + score (state p')
                      = score (state d) + score (state s) + score (state p)
                        - score (state e) + score (state e'))%Z).
  { unfold exactly_three_kinds in H3.
    destruct (environments thread)
      as [| [k1 v1] [| [k2 v2] [| [k3 v3] [| kv rest]]]];
      simpl in H3; try discriminate.
    destruct k1, k2, k3; simpl in H3; try discriminate;
      destruct k; simpl in Hk; injection Hk as <-; simpl;
      do 3 eexists; (split; [reflexivity |]); (split; [reflexivity |]);
      (split; [reflexivity |]); do 3 eexists;
      (split; [reflexivity |]); (split; [reflexivity |]);
      (split; [reflexivity |]); (split; [reflexivity |]); simpl; lia. }
  destruct Hshape as [d [s [p [Hd [Hs [Hp [d' [s' [p' H']]]]]]]]].
  cbv zeta in H'. destruct H' as [H3' [Hd' [Hs' [Hp' Hsum]]]].
  rewrite (calculate_progress_ratio thread d s p H3 Hd Hs Hp).
  rewrite (calculate_progress_ratio
             (Tools.with_environments thread
                (Py.set EnvName.eqb k e' (environments thread)))
             d' s' p' H3' Hd' Hs' Hp').
  rewrite Hsum, Hstep.
  pose proof (score_bounds (state d)) as Bd.
  pose proof (score_bounds (state s)) as Bs.
  pose proof (score_bounds (state p)) as Bp.
  pose proof (score_bounds (state d')) as Bd'.
  pose proof (score_bounds (state s')) as Bs'.
  pose proof (score_bounds (state p')) as Bp'.
  replace (score (state d) + score (state s) + score (state p)
           - score (state e) + (score (state e) + 1))%Z
    with (score (state d) + score (state s) + score (state p) + 1)%Z by lia.
  apply (ratio_grows_ok (score (state d) + score (state s) + score (state p))).
  lia.
Qed.

Lemma calculate_progress_step_witness :
  exactly_three_kinds (environments fresh_thread) = true
  /\ PrimFloat.ltb
       (calculate_progress fresh_thread)
       (calculate_progress
          (Tools.with_environments fresh_thread
             (Py.set EnvName.eqb EnvName.dev
                (mkEnvironment EnvName.dev forms_raised Evidence_default None
                               PeopleSet_default 0%Z)
                (environments fresh_thread))))
     = true.
Proof.
  split; [reflexivity |].
  apply (calculate_progress_step fresh_thread EnvName.dev
           (Environment_default EnvName.dev 0%Z)
           (mkEnvironment EnvName.dev forms_raised Evidence_default None
                          PeopleSet_default 0%Z)
           0%nat); reflexivity.
Defined.

End StateMachineMore.

(* ================================================================== *)
(** * Further properties of the approval manager *)
(* ================================================================== *)

Module HITLMore.
Import HITL HITLFacts.

Lemma get_set_same (k : string) (v : ApprovalRequest)
    (d : Py.dict string ApprovalRequest) :
  Py.get String.eqb k (Py.set String.eqb k v d) = Some v.
Proof.
  induction d as [| [k0 v0] d IH]; simpl.
  - rewrite String.eqb_refl. reflexivity.
  - destruct (String.eqb k0 k) eqn:E; simpl; rewrite E; [reflexivity | exact IH].
Qed.

Lemma get_set_other (k k' : string) (v : ApprovalRequest)
    (d : Py.dict string ApprovalRequest) :
  String.eqb k k' = false ->
  Py.get String.eqb k' (Py.set String.eqb k v d) = Py.get String.eqb k' d.
Proof.
  intros Hne. induction d as [| [k0 v0] d IH]; simpl.
  - rewrite Hne. reflexivity.
  - destruct (String.eqb k0 k) eqn:E; simpl.
    + apply String.eqb_eq in E. subst k0. rewrite Hne. reflexivity.
    + destruct (String.eqb k0 k'); [reflexivity | exact IH].
Qed.

Lemma approve_request_cases
    (m : HITLManager) (key approver comments : string) (now : datetime) :
  (snd (approve_request m key approver comments now) = true
   <-> exists a,
         Py.get String.eqb key (pending_approvals m) = Some a
         /\ status a = ApprovalStatus.pending
         /\ past_expiry a now = false)
  /\ (snd (approve_request m key approver comments now) = true ->
      exists a,
        Py.get String.eqb key (pending_approvals m) = Some a
        /\ Py.get String.eqb key
             (pending_approvals (fst (approve_request m key approver comments now)))
           = Some (with_decision a ApprovalStatus.approved approver now
                                 (rejection_reason a))).
Proof.
  unfold approve_request.
  destruct (Py.get String.eqb key (pending_approvals m)) as [a |] eqn:Hget.
  - destruct (status a) eqn:Hst; simpl;
      try (split; [split; [discriminate | intros [a' [H [H1 _]]];
                                          injection H as <-; congruence]
                  | discriminate]).
    destruct (past_expiry a now) eqn:Hexp; simpl.
    + split; [split; [discriminate |] | discriminate].
      intros [a' [H [_ H2]]]. injection H as <-. congruence.
    + split.
      * split; [intros _; exists a; auto | reflexivity].
      * intros _. exists a. split; [reflexivity |]. apply get_set_same.
  - simpl. split; [split; [discriminate |] | discriminate].
    intros [a [H _]]. discriminate.
Qed.

(** Approve succeeds exactly on a known request that is pending and not
    past its deadline, whoever the approver is; the request is then stored
    as approved with that approver and the time of the call. *)
Theorem approve_request_succeeds_iff
    (m : HITLManager) (key approver comments : string) (now : datetime) :
  (snd (approve_request m key approver comments now) = true
   <-> exists a,
         Py.get String.eqb key (pending_approvals m) = Some a
         /\ status a = ApprovalStatus.pending
         /\ past_expiry a now = false)
  /\ (snd (approve_request m key approver comments now) = true ->
      exists a,
        Py.get String.eqb key (pending_approvals m) = Some a
        /\ Py.get String.eqb key
             (pending_approvals (fst (approve_request m key approver comments now)))
           = Some (with_decision a ApprovalStatus.approved approver now
                                 (rejection_reason a))).
Proof. exact (approve_request_cases m key approver comments now). Qed.

(** Once Approve or Reject has succeeded on a request, every later Approve
    or Reject on it returns false and changes nothing: neither the stored
    requests nor the audit log. *)
Theorem decision_is_final
    (m : HITLManager) (key approver text : string) (now : datetime) :
  (snd (approve_request m key approver text now) = true ->
   forall approver' text' now',
     approve_request (fst (approve_request m key approver text now))
                     key approver' text' now'
     = (fst (approve_request m key approver text now), false)
     /\ reject_request (fst (approve_request m key approver text now))
                       key approver' text' now'
        = (fst (approve_request m key approver text now), false))
  /\ (snd (reject_request m key approver text now) = true ->
      forall approver' text' now',
        approve_request (fst (reject_request m key approver text now))
                        key approver' text' now'
        = (fst (reject_request m key approver text now), false)
        /\ reject_request (fst (reject_request m key approver text now))
                          key approver' text' now'
           = (fst (reject_request m key approver text now), false)).
Proof.
  split.
  - intros Hok approver' text' now'.
    destruct (proj2 (approve_request_cases m key approver text now) Hok)
      as [a [_ Hafter]].
    split.
    + apply (approve_request_not_pending _ _ _ _ _ _ Hafter). discriminate.
    + apply (reject_request_not_pending _ _ _ _ _ _ Hafter). discriminate.
  - unfold reject_request at 1.
    destruct (Py.get String.eqb key (pending_approvals m)) as [a |] eqn:Hget;
      [| discriminate].
    destruct (negb (ApprovalStatus.eqb (status a) ApprovalStatus.pending)) eqn:Hst;
      [discriminate |].
    intros _ approver' text' now'.
    assert (Hafter :
      Py.get String.eqb key
        (pending_approvals (fst (reject_request m key approver text now)))
      = Some (with_decision a ApprovalStatus.rejected approver now (Some text))).
    { unfold reject_request. rewrite Hget, Hst. simpl. apply get_set_same. }
    split.
    + apply (approve_request_not_pending _ _ _ _ _ _ Hafter). discriminate.
    + apply (reject_request_not_pending _ _ _ _ _ _ Hafter). discriminate.
Qed.

Lemma decision_is_final_witness :
  snd (approve_request manager_created request_id "lead@example.com" "ok"
                       1000000%Z) = true
  /\ approve_request manager_approved request_id "other@example.com" "again"
                     2000000%Z
     = (manager_approved, false).
Proof.
  split; [reflexivity |].
  destruct (decision_is_final manager_created request_id "lead@example.com"
              "ok" 1000000%Z) as [H _].
  destruct (H eq_refl "other@example.com"%string "again"%string 2000000%Z)
    as [H1 _].
  exact H1.
Defined.

(** Approve and Reject touch the one request they name: every request
    stored under another id is left as it was. *)
Theorem decision_frame
    (m : HITLManager) (key key' approver text : string) (now : datetime) :
  String.eqb key key' = false ->
  Py.get String.eqb key'
    (pending_approvals (fst (approve_request m key approver text now)))
  = Py.get String.eqb key' (pending_approvals m)
  /\ Py.get String.eqb key'
       (pending_approvals (fst (reject_request m key approver text now)))
     = Py.get String.eqb key' (pending_approvals m).
Proof.
  intros Hne. unfold approve_request, reject_request.
  destruct (Py.get String.eqb key (pending_approvals m)) as [a |];
    [| split; reflexivity].
  destruct (negb (ApprovalStatus.eqb (status a) ApprovalStatus.pending));
    [split; reflexivity |].
  destruct (past_expiry a now); simpl; split;
    apply get_set_other; exact Hne.
Qed.

Lemma decision_frame_witness :
  String.eqb request_id "approval-other"%string = false
  /\ Py.get String.eqb "approval-other"%string
       (pending_approvals
          (fst (approve_request manager_created request_id "lead@example.com"%string
                                "ok"%string 1000000%Z)))
     = Py.get String.eqb "approval-other"%string (pending_approvals manager_created).
Proof.
  split; [reflexivity |].
  apply (decision_frame manager_created request_id "approval-other"%string
           "lead@example.com"%string "ok"%string 1000000%Z eq_refl).
Defined.

Lemma selected_with_status (filter_id : option string) (a : ApprovalRequest)
    (st : ApprovalStatus.t) :
  selected filter_id (with_status a st) = selected filter_id a.
Proof. destruct filter_id as [[| c t] |]; reflexivity. Qed.

Lemma listing_filter (filter_id : option string) (now : datetime)
    (l : list ApprovalRequest) :
  filter (fun a => ApprovalStatus.eqb (status a) ApprovalStatus.pending)
    (filter (selected filter_id)
       (map (fun a => if selected filter_id a && past_expiry a now
                      then with_status a ApprovalStatus.expired else a) l))
  = filter (actionable filter_id now) l.
Proof.
  unfold actionable.
  induction l as [| a l IH]; simpl; [reflexivity |].
  destruct (selected filter_id a) eqn:Hsel; simpl.
  - destruct (past_expiry a now) eqn:Hexp; simpl.
    + rewrite selected_with_status, Hsel. simpl.
      rewrite andb_false_r. exact IH.
    + rewrite Hsel. simpl. rewrite andb_true_r.
      destruct (ApprovalStatus.eqb (status a) ApprovalStatus.pending);
        simpl; rewrite IH; reflexivity.
  - rewrite Hsel. exact IH.
Qed.

Lemma values_map_values (f : ApprovalRequest -> ApprovalRequest)
    (d : Py.dict string ApprovalRequest) :
  Py.values (Py.map_values f d) = map f (Py.values d).
Proof.
  unfold Py.values, Py.map_values. rewrite !map_map. reflexivity.
Qed.

Lemma map_values_idem (f : ApprovalRequest -> ApprovalRequest)
    (d : Py.dict string ApprovalRequest) :
  (forall a, f (f a) = f a) ->
  Py.map_values f (Py.map_values f d) = Py.map_values f d.
Proof.
  intros H. unfold Py.map_values. rewrite map_map. apply map_ext.
  intros [k a]. simpl. rewrite H. reflexivity.
Qed.

(** A listing returns exactly the stored requests that are selected by the
    filter, pending, and not past their deadline, in stored order: no
    request past its deadline is ever returned as pending; and a second
    listing at the same time gives the same answer and the same manager. *)
Theorem get_pending_approvals_exact
    (m : HITLManager) (filter_id : option string) (now : datetime) :
  snd (get_pending_approvals m filter_id now)
  = filter (actionable filter_id now) (Py.values (pending_approvals m))
  /\ Forall (fun a => status a = ApprovalStatus.pending
                      /\ past_expiry a now = false)
            (snd (get_pending_approvals m filter_id now))
  /\ get_pending_approvals (fst (get_pending_approvals m filter_id now))
                           filter_id now
     = get_pending_approvals m filter_id now.
Proof.
  assert (H1 : snd (get_pending_approvals m filter_id now)
               = filter (actionable filter_id now)
                        (Py.values (pending_approvals m))).
  { unfold get_pending_approvals. simpl.
    rewrite values_map_values. apply listing_filter. }
  split; [exact H1 |]. split.
  - rewrite H1. apply Forall_forall. intros a Ha.
    apply filter_In in Ha as [_ Ha]. unfold actionable in Ha.
    apply andb_prop in Ha as [Ha Hexp]. apply andb_prop in Ha as [_ Hst].
    split.
    + destruct (status a); try discriminate; reflexivity.
    + apply negb_true_iff. exact Hexp.
  - unfold get_pending_approvals. simpl.
    rewrite map_values_idem; [reflexivity |].
    intros a.
    destruct (selected filter_id a && past_expiry a now) eqn:E; simpl.
    + rewrite selected_with_status.
      change (past_expiry (with_status a ApprovalStatus.expired) now)
        with (past_expiry a now).
      rewrite E. reflexivity.
    + rewrite E. reflexivity.
Qed.

(** ** The sweep *)

Lemma check_expired_loop_spec (now : datetime)
    (l : list (string * ApprovalRequest)) :
  forall repo,
    fst (fst (check_expired_loop now l repo))
    = map (fun kv => (fst kv, swept now (snd kv))) l
    /\ snd (check_expired_loop now l repo)
       = map (fun a => with_status a ApprovalStatus.expired)
             (filter (due now) (map snd l)).
Proof.
  induction l as [| [k a] l IH]; intros repo; simpl; [split; reflexivity |].
  unfold swept, due.
  destruct (ApprovalStatus.eqb (status a) ApprovalStatus.pending
            && past_expiry a now) eqn:E;
    match goal with
    | |- context [check_expired_loop now l ?r] =>
        destruct (IH r) as [IH1 IH2];
        destruct (check_expired_loop now l r) as [[rest repo'] expired]
    end;
    simpl in *; rewrite IH1, IH2; split; reflexivity.
Qed.

Lemma check_expired_loop_none_due (now : datetime)
    (l : list (string * ApprovalRequest)) :
  forall repo,
    (forall kv, In kv l -> due now (snd kv) = false) ->
    check_expired_loop now l repo = (l, repo, []).
Proof.
  induction l as [| [k a] l IH]; intros repo Hl; simpl; [reflexivity |].
  pose proof (Hl (k, a) (or_introl eq_refl)) as Ha. unfold due in Ha.
  simpl in Ha. rewrite Ha.
  rewrite (IH repo); [reflexivity |].
  intros kv Hin. apply Hl. right. exact Hin.
Qed.

Lemma due_swept (now : datetime) (a : ApprovalRequest) :
  due now (swept now a) = false.
Proof.
  unfold swept, due.
  destruct (ApprovalStatus.eqb (status a) ApprovalStatus.pending
            && past_expiry a now) eqn:E; [reflexivity | exact E].
Qed.

Lemma check_expired_loop_audit (now : datetime)
    (l : list (string * ApprovalRequest)) :
  forall repo : ThreadRepository,
    exists repo',
      snd (fst (check_expired_loop now l (Some repo))) = Some repo'
      /\ client_thread repo' = client_thread repo
      /\ environment_state repo' = environment_state repo
      /\ length (audit_log repo')
         = (length (audit_log repo)
            + length (snd (check_expired_loop now l (Some repo))))%nat.
Proof.
  induction l as [| [k a] l IH]; intros repo.
  - exists repo. simpl. repeat split; auto.
  - cbn [check_expired_loop].
    destruct (ApprovalStatus.eqb (status a) ApprovalStatus.pending
              && past_expiry a now).
    + cbn [log].
      match goal with
      | |- context [check_expired_loop now l (Some ?r)] =>
          destruct (IH r) as [repo' [H1 [H2 [H3 H4]]]];
          destruct (check_expired_loop now l (Some r)) as [[rest repo1] expired]
      end.
      cbn [fst snd] in *. exists repo'.
      split; [exact H1 |]. split; [exact H2 |]. split; [exact H3 |].
      rewrite H4. simpl. rewrite length_app. simpl. lia.
    + destruct (IH repo) as [repo' [H1 [H2 [H3 H4]]]].
      destruct (check_expired_loop now l (Some repo)) as [[rest repo1] expired].
      cbn [fst snd] in *. exists repo'. repeat split; auto.
Qed.

(** The sweep returns exactly the requests that were pending and past their
    deadline, each now expired; afterwards no stored request is pending and
    past its deadline, so a second sweep at the same time returns nothing
    and changes nothing; and with a repository one audit entry is appended
    for each request returned, the thread and environment rows being left
    alone. *)
Theorem check_expired_approvals_sweeps (m : HITLManager) (now : datetime) :
  snd (check_expired_approvals m now)
  = map (fun a => with_status a ApprovalStatus.expired)
        (filter (due now) (Py.values (pending_approvals m)))
  /\ (forall key a,
        Py.get String.eqb key
          (pending_approvals (fst (check_expired_approvals m now))) = Some a ->
        due now a = false)
  /\ check_expired_approvals (fst (check_expired_approvals m now)) now
     = (fst (check_expired_approvals m now), [])
  /\ (forall repo,
        thread_repo m = Some repo ->
        exists repo',
          thread_repo (fst (check_expired_approvals m now)) = Some repo'
          /\ client_thread repo' = client_thread repo
          /\ environment_state repo' = environment_state repo
          /\ length (audit_log repo')
             = (length (audit_log repo)
                + length (snd (check_expired_approvals m now)))%nat).
Proof.
  unfold check_expired_approvals.
  pose proof (check_expired_loop_spec now (Py.items (pending_approvals m))
                (thread_repo m)) as [Hitems Hexp].
  pose proof (check_expired_loop_audit now (Py.items (pending_approvals m)))
    as Haudit.
  destruct (check_expired_loop now (Py.items (pending_approvals m))
              (thread_repo m)) as [[rest repo1] expired] eqn:Hloop.
  simpl in *. split; [exact Hexp |]. split; [| split].
  - intros key a Hget.
    pose proof (get_check_expired_loop now key (Py.items (pending_approvals m))
                  (thread_repo m)) as Hg.
    rewrite Hloop in Hg. simpl in Hg. rewrite Hg in Hget.
    destruct (Py.get String.eqb key (Py.items (pending_approvals m)))
      as [a0 |]; [| discriminate].
    simpl in Hget. injection Hget as <-. apply due_swept.
  - unfold Py.items.
    rewrite (check_expired_loop_none_due now rest repo1); [reflexivity |].
    intros kv Hin. rewrite Hitems in Hin. apply in_map_iff in Hin
      as [kv0 [<- _]]. simpl. apply due_swept.
  - intros repo Hrepo. rewrite Hrepo in Hloop.
    destruct (Haudit repo) as [repo' H]. rewrite Hloop in H. simpl in H.
    exists repo'. exact H.
Qed.

(** ** Creation and summary *)

(** A request is stored only when its deadline, the creation time plus the
    timeout, is a date that [datetime] can hold: it is then stored as
    pending under its id with that deadline, Approve on it succeeds at any
    time up to the deadline, and after the deadline Approve returns false
    and records expired.  When the timeout is more than a [timedelta] can
    hold, or the deadline falls outside the range of [datetime], the call
    raises [OverflowError] and the manager is left as it was: nothing is
    stored and nothing is logged. *)
Theorem create_then_approve
    (m : HITLManager) (tid : string) (env : EnvName.t) (ty : ApprovalType.t)
    (ttl desc : string) (apprs : list string)
    (ev : option (list (string * Detail))) (timeout_hours : Z)
    (new_id : string) (now now' : datetime) (approver comments : string) :
  let deadline := (now + timeout_hours * 3600000000)%Z in
  let representable :=
    (Z.abs (timeout_hours / 24) <= 999999999
     /\ -62135596800000000 <= deadline <= 253402300799999999)%Z in
  let out := create_approval_request m tid env ty ttl desc apprs ev
                                     timeout_hours new_id now in
  (representable ->
   (exists a, snd out = Return a
              /\ id a = new_id
              /\ expires_at a = Some deadline
              /\ Py.get String.eqb new_id (pending_approvals (fst out)) = Some a)
   /\ status_of (fst out) new_id = Some ApprovalStatus.pending
   /\ ((now' <= deadline)%Z ->
       snd (approve_request (fst out) new_id approver comments now') = true
       /\ status_of (fst (approve_request (fst out) new_id approver comments
                                          now')) new_id
          = Some ApprovalStatus.approved)
   /\ ((now' > deadline)%Z ->
       snd (approve_request (fst out) new_id approver comments now') = false
       /\ status_of (fst (approve_request (fst out) new_id approver comments
                                          now')) new_id
          = Some ApprovalStatus.expired))
  /\ (~ representable -> out = (m, Raise OverflowError)).
Proof.
  intros deadline representable out.
  assert (Hplus : datetime_plus_hours now timeout_hours
                  = if (Z.abs (timeout_hours / 24) <=? 999999999)%Z
                       && (-62135596800000000 <=? deadline)%Z
                       && (deadline <=? 253402300799999999)%Z
                    then Some deadline else None) by reflexivity.
  split.
  - intros [Hd [Hlo Hhi]].
    apply Z.leb_le in Hd, Hlo, Hhi. rewrite Hd, Hlo, Hhi in Hplus.
    cbn [andb] in Hplus.
    assert (Hget : Py.get String.eqb new_id (pending_approvals (fst out))
                   = Some (mkApprovalRequest new_id tid env ty ttl desc apprs
                             (match ev with Some e => e | None => [] end)
                             ApprovalStatus.pending now (Some deadline)
                             None None None)).
    { unfold out, create_approval_request. rewrite Hplus. simpl.
      apply get_set_same. }
    split.
    { eexists. split; [| split; [| split; [| exact Hget]]].
      - unfold out, create_approval_request. rewrite Hplus. reflexivity.
      - reflexivity.
      - reflexivity. }
    split; [unfold status_of; rewrite Hget; reflexivity |].
    split; intros Hnow; unfold approve_request, status_of; rewrite Hget;
      cbn [status negb ApprovalStatus.eqb past_expiry expires_at].
    + assert (E : (now' >? deadline)%Z = false)
        by (rewrite Z.gtb_ltb; apply Z.ltb_ge; lia).
      rewrite E. simpl. split; [reflexivity |].
      rewrite get_set_same. reflexivity.
    + assert (E : (now' >? deadline)%Z = true) by (apply Z.gtb_lt; lia).
      rewrite E. simpl. split; [reflexivity |].
      rewrite get_set_same. reflexivity.
  - intros Hno. unfold out, create_approval_request. rewrite Hplus.
    destruct ((Z.abs (timeout_hours / 24) <=? 999999999)%Z
              && (-62135596800000000 <=? deadline)%Z
              && (deadline <=? 253402300799999999)%Z) eqn:E; [| reflexivity].
    exfalso. apply Hno.
    apply andb_prop in E as [E Hhi]. apply andb_prop in E as [Hd Hlo].
    apply Z.leb_le in Hd, Hlo, Hhi. unfold representable. auto.
Qed.

Lemma create_then_approve_witness :
  (Z.abs (48 / 24) <= 999999999
   /\ -62135596800000000 <= 0 + 48 * 3600000000 <= 253402300799999999)%Z
  /\ (1000000 <= 0 + 48 * 3600000000)%Z
  /\ snd (approve_request manager_created request_id "lead@example.com" "ok"
                          1000000%Z) = true
  /\ ~ (Z.abs (24000000000 / 24) <= 999999999
        /\ -62135596800000000 <= 0 + 24000000000 * 3600000000
           <= 253402300799999999)%Z
  /\ create_approval_request (HITLManager_init None) "t-1" EnvName.dev
       ApprovalType.environment_progression "Advance dev" "Please approve"
       ["lead@example.com"%string] None 24000000000 request_id 0%Z
     = (HITLManager_init None, Raise OverflowError).
Proof.
  assert (Hr : (Z.abs (48 / 24) <= 999999999
                /\ -62135596800000000 <= 0 + 48 * 3600000000
                   <= 253402300799999999)%Z)
    by (vm_compute; repeat split; discriminate).
  assert (H : (1000000 <= 0 + 48 * 3600000000)%Z) by lia.
  assert (Hn : ~ (Z.abs (24000000000 / 24) <= 999999999
                  /\ -62135596800000000 <= 0 + 24000000000 * 3600000000
                     <= 253402300799999999)%Z)
    by (intros [Hd _]; vm_compute in Hd; apply Hd; reflexivity).
  split; [exact Hr |]. split; [exact H |]. split; [| split; [exact Hn |]].
  - destruct (create_then_approve (HITLManager_init None) "t-1" EnvName.dev
                ApprovalType.environment_progression "Advance dev"
                "Please approve" ["lead@example.com"%string] None 48 request_id
                0%Z 1000000%Z "lead@example.com" "ok") as [Hin _].
    destruct (Hin Hr) as [_ [_ [Happrove _]]].
    exact (proj1 (Happrove H)).
  - destruct (create_then_approve (HITLManager_init None) "t-1" EnvName.dev
                ApprovalType.environment_progression "Advance dev"
                "Please approve" ["lead@example.com"%string] None 24000000000
                request_id 0%Z 1000000%Z "lead@example.com" "ok") as [_ Hout].
    exact (Hout Hn).
Defined.

Lemma length_by_status (l : list ApprovalRequest) :
  length l
  = (length (filter (has_status ApprovalStatus.pending) l)
     + length (filter (has_status ApprovalStatus.approved) l)
     + length (filter (has_status ApprovalStatus.rejected) l)
     + length (filter (has_status ApprovalStatus.expired) l))%nat.
Proof.
  induction l as [| a l IH]; [reflexivity |].
  cbn [filter].
  destruct (status a) eqn:E;
    repeat match goal with
           | |- context [has_status ?s a] =>
               change (has_status s a) with (ApprovalStatus.eqb (status a) s);
               rewrite E; cbn [ApprovalStatus.eqb]
           end;
    cbn [length]; lia.
Qed.

(** In the summary of a thread the four counts by status add up to the
    total, the listing has one line per counted request, and the total
    never exceeds the number of stored requests. *)
Theorem get_approval_summary_counts (m : HITLManager) (tid : string) :
  summary_total_approvals (get_approval_summary m tid)
  = (summary_pending (get_approval_summary m tid)
     + summary_approved (get_approval_summary m tid)
     + summary_rejected (get_approval_summary m tid)
     + summary_expired (get_approval_summary m tid))%nat
  /\ length (summary_approvals (get_approval_summary m tid))
     = summary_total_approvals (get_approval_summary m tid)
  /\ (summary_total_approvals (get_approval_summary m tid)
      <= length (pending_approvals m))%nat.
Proof.
  unfold get_approval_summary. simpl. split; [apply length_by_status |].
  split; [apply length_map |].
  unfold Py.values.
  rewrite <- (length_map snd (pending_approvals m)). apply filter_length_le.
Qed.

(** The status tool builds its own manager, so it reports no approval at
    all, for every context, thread and time, whatever was requested before:
    an emergency approval, which returns the id of its request unless its
    deadline of four hours cannot be computed, leaves its trace in the
    audit log only. *)
Theorem get_approval_status_sees_nothing
    (ctx : Tools.CtxState) (tid : string) (env : EnvName.t)
    (emergency_type justification : string) (approvers : list string)
    (new_id : string) (now now' : datetime) (tid' : string) :
  let out := HITLTools.create_emergency_approval ctx tid env emergency_type
               justification approvers new_id now in
  let ctx' := fst out in
  snd out = match datetime_plus_hours now 4 with
            | Some _ => Return new_id
            | None => Raise OverflowError
            end
  /\ HITLTools.report_pending_approvals
       (HITLTools.get_approval_status ctx' tid' now') = []
  /\ summary_total_approvals
       (HITLTools.report_summary (HITLTools.get_approval_status ctx' tid' now'))
     = 0%nat
  /\ length (stored_audit ctx')
     = (length (stored_audit ctx)
        + match Tools.thread_repo ctx, datetime_plus_hours now 4 with
          | Some _, Some _ => 1
          | _, _ => 0
          end)%nat
  /\ (forall ctx0 : Tools.CtxState,
        HITLTools.report_pending_approvals
          (HITLTools.get_approval_status ctx0 tid' now') = []
        /\ summary_total_approvals
             (HITLTools.report_summary
                (HITLTools.get_approval_status ctx0 tid' now'))
           = 0%nat).
Proof.
  intros out ctx'. unfold ctx', out.
  unfold HITLTools.create_emergency_approval, create_approval_request.
  split; [destruct (datetime_plus_hours now 4); reflexivity |].
  split; [reflexivity |]. split; [reflexivity |].
  split; [| intros ctx0; split; reflexivity].
  unfold stored_audit.
  destruct (datetime_plus_hours now 4); simpl;
    destruct (Tools.thread_repo ctx) as [repo |]; simpl;
    rewrite ?length_app; simpl; lia.
Qed.

End HITLMore.

(* ================================================================== *)
(** * Further properties of the orchestrator *)
(* ================================================================== *)

Module ToolsMore.
Import Tools InvariantFacts.

Lemma with_repo_same (ctx : CtxState) (repo : ThreadRepository) :
  thread_repo ctx = Some repo -> with_repo ctx repo = ctx.
Proof. destruct ctx as [u r]. simpl. intros ->. reflexivity. Qed.

(** The exceptions that [validate_transition] can raise: the failed lookup
    of ChangesRequested in the ordered progression, and the lookup of the
    previous environment in a thread that lacks it. *)
Lemma validate_transition_raises
    (current target : EnvState.t) (env : EnvName.t) (ev : Evidence)
    (thread : option ClientThread) (e : exn) :
  StateMachine.validate_transition current target env ev thread = Raise e ->
  e = ValueError (NotInList EnvState.changes_requested)
  \/ exists k, e = KeyError k.
Proof.
  unfold StateMachine.validate_transition.
  destruct (StateMachine.can_transition current target) as [ok | e0] eqn:Hcan.
  - simpl. destruct ok; simpl; [| intros H; discriminate H].
    destruct target; destruct env; destruct thread as [th |]; simpl;
      try (intros H; discriminate H);
      (destruct (Py.get EnvName.eqb _ (environments th)); simpl;
       [intros H; destruct (EnvState.eqb _ _); discriminate H |]);
      intros H; injection H as <-; right; eexists; reflexivity.
  - simpl. intros H; injection H as <-. left.
    destruct current, target; vm_compute in Hcan; try discriminate Hcan;
      injection Hcan as <-; reflexivity.
Qed.

(** What a raising [update_env_state] leaves, and what it can raise. *)
Lemma update_env_state_raises
    (ctx : CtxState) (tid : string) (env : EnvName.t) (new_state : EnvState.t)
    (ev : Evidence) (reason : string) (now : datetime) (e : exn) :
  snd (update_env_state ctx tid env new_state ev reason now) = Raise e ->
  fst (update_env_state ctx tid env new_state ev reason now) = ctx
  /\ (e = ValueError RepositoryNotAvailable
      \/ e = ValueError (ThreadNotFound tid)
      \/ e = ValueError (EnvironmentNotFound env tid)
      \/ (exists errors, errors <> []
                         /\ e = ValueError (InvalidStateTransition errors))
      \/ e = ValueError (NotInList EnvState.changes_requested)
      \/ (exists k, e = KeyError k)
      \/ e = StatementError).
Proof.
  unfold update_env_state.
  destruct (thread_repo ctx) as [repo |] eqn:Hrepo;
    [| intros H; injection H as <-; auto].
  destruct (Database.get_thread repo tid now) as [thread |] eqn:Hget;
    [| intros H; injection H as <-; auto].
  destruct (Py.get EnvName.eqb env (environments thread)) as [env_obj |];
    [| intros H; injection H as <-; auto].
  destruct (StateMachine.validate_transition _ _ _ _ _)
    as [[ok errors] | e0] eqn:Hval.
  + destruct ok; simpl negb; cbv iota.
    * match goal with
      | |- context [Database.update_thread repo ?th] =>
          destruct (Database.update_thread repo th) as [repo1 [r | e1]] eqn:Hupd
      end; simpl; [discriminate |].
      intros H; injection H as <-.
      pose proof (update_thread_raise _ _ _ _ Hupd) as ->.
      split; [apply with_repo_same; exact Hrepo |].
      unfold Database.update_thread in Hupd.
      destruct (negb (Database.has_thread repo _)) eqn:Hhas.
      -- exfalso. apply negb_true_iff in Hhas.
         destruct (recompute_derived_environments
                     (with_last_update
                        (with_environments thread
                           (Py.set EnvName.eqb env
                              (assign_env env_obj new_state ev now)
                              (environments thread))) now)) as [_ Hid].
         rewrite Hid in Hhas. simpl in Hhas.
         rewrite (get_thread_id _ _ _ _ Hget) in Hhas.
         assert (Database.has_thread repo tid = true); [| congruence].
         apply (get_thread_has_thread repo tid now). eauto.
      -- destruct (Database.env_rows _ _); [discriminate |].
         injection Hupd as <-. do 6 right. reflexivity.
    * intros H; injection H as <-. split; [reflexivity |].
      do 3 right. left. exists errors. split; [| reflexivity].
      exact (ToolsFacts.validate_transition_invalid_nonempty _ _ _ _ _ _ Hval).
  + intros H; injection H as <-. split; [reflexivity |].
    destruct (validate_transition_raises _ _ _ _ _ _ Hval) as [-> | Hk];
      [do 4 right; left; reflexivity | do 5 right; left; exact Hk].
Qed.

Lemma update_env_state_raise_unchanged
    (ctx : CtxState) (tid : string) (env : EnvName.t) (new_state : EnvState.t)
    (ev : Evidence) (reason : string) (now : datetime) (e : exn) :
  snd (update_env_state ctx tid env new_state ev reason now) = Raise e ->
  fst (update_env_state ctx tid env new_state ev reason now) = ctx.
Proof. intros H. exact (proj1 (update_env_state_raises _ _ _ _ _ _ _ _ H)). Qed.

(** Whenever [update_env_state] or [create_client_thread] raises one of the
    exceptions that the code, or a commit refusing what the code hands it,
    gives rise to, the context is left exactly as it was: no row and no
    audit entry is written.  For [update_env_state] these are [ValueError]
    (no repository, unknown thread, missing environment, refused
    transition, the lookup of ChangesRequested), [KeyError] of the state
    machine, and [StatementError] from the commit of the thread when an
    environment cannot be encoded; for [create_client_thread],
    [ValueError] (no repository) and [IntegrityError] from the commit of a
    thread whose id is taken.  Each of them is raised before the thread is
    committed, or by that commit, which then stores nothing; none of them
    comes from the later, separate commit of the audit entry. *)
Theorem orchestrator_raise_atomic (ctx : CtxState) :
  (forall tid env new_state ev reason now e,
     snd (update_env_state ctx tid env new_state ev reason now) = Raise e ->
     fst (update_env_state ctx tid env new_state ev reason now) = ctx
     /\ (e = ValueError RepositoryNotAvailable
         \/ e = ValueError (ThreadNotFound tid)
         \/ e = ValueError (EnvironmentNotFound env tid)
         \/ (exists errors, errors <> []
                            /\ e = ValueError (InvalidStateTransition errors))
         \/ e = ValueError (NotInList EnvState.changes_requested)
         \/ (exists k, e = KeyError k)
         \/ e = StatementError))
  /\ (forall display_name owner lanids new_id now e,
        snd (create_client_thread ctx display_name owner lanids new_id now)
        = Raise e ->
        fst (create_client_thread ctx display_name owner lanids new_id now)
        = ctx
        /\ (e = ValueError RepositoryNotAvailable
            \/ e = IntegrityError new_id)).
Proof.
  split.
  - intros tid env new_state ev reason now e.
    apply update_env_state_raises.
  - intros display_name owner lanids new_id now e.
    unfold create_client_thread.
    destruct (thread_repo ctx) as [repo |] eqn:Hrepo;
      [| intros H; injection H as <-; auto].
    assert (Hfresh : forall thread,
               thread_id thread = new_id ->
               Database.env_rows thread (Py.items (environments thread)) <> None ->
               forall e1 r1,
                 Database.create_thread repo thread = (r1, Raise e1) ->
                 e1 = IntegrityError new_id).
    { intros thread Hid Hrows e1 r1. unfold Database.create_thread.
      rewrite Hid.
      destruct (Database.has_thread repo new_id);
        [intros H; injection H as _ <-; reflexivity |].
      destruct (Database.env_rows thread _); [| congruence].
      destruct (existsb _ _); intros H; [| discriminate].
      injection H as _ <-. reflexivity. }
    destruct lanids as [[| l ls] |]; simpl;
      match goal with
      | |- context [Database.create_thread repo ?th] =>
          pose proof (Hfresh th eq_refl ltac:(discriminate)) as He;
          destruct (Database.create_thread repo th) as [repo1 [r | e1]] eqn:Hc
      end; simpl; try discriminate;
      intros H; injection H as <-;
      pose proof (create_thread_raise _ _ _ _ Hc) as ->;
      (split; [apply with_repo_same; exact Hrepo |]);
      right; exact (He e1 repo eq_refl).
Qed.

Lemma orchestrator_raise_atomic_witness :
  snd (update_env_state ctx_created "t-9" EnvName.dev EnvState.blocked
                        Evidence_default "" 5%Z)
  = Raise (ValueError (ThreadNotFound "t-9"))
  /\ fst (update_env_state ctx_created "t-9" EnvName.dev EnvState.blocked
                           Evidence_default "" 5%Z)
     = ctx_created
  /\ snd (update_env_state ctx_created "t-1" EnvName.dev EnvState.forms_raised
                           one_ticket "tickets raised" 5%Z)
     = Raise StatementError
  /\ fst (update_env_state ctx_created "t-1" EnvName.dev EnvState.forms_raised
                           one_ticket "tickets raised" 5%Z)
     = ctx_created.
Proof.
  destruct (orchestrator_raise_atomic ctx_created) as [H _].
  split; [reflexivity |]. split; [| split; [reflexivity |]].
  - exact (proj1 (H "t-9"%string EnvName.dev EnvState.blocked Evidence_default
                    ""%string 5%Z (ValueError (ThreadNotFound "t-9"))
                    eq_refl)).
  - exact (proj1 (H "t-1"%string EnvName.dev EnvState.forms_raised one_ticket
                    "tickets raised"%string 5%Z StatementError eq_refl)).
Defined.

Lemma validate_transition_valid_nil
    (current target : EnvState.t) (env : EnvName.t) (ev : Evidence)
    (thread : option ClientThread) (errors : list ValidationError) :
  StateMachine.validate_transition current target env ev thread
  = Return (true, errors) ->
  errors = [] /\ StateMachine.can_transition current target = Return true.
Proof.
  unfold StateMachine.validate_transition.
  destruct (StateMachine.can_transition current target) as [[|] | e]; simpl;
    [| discriminate | discriminate].
  match goal with
  | |- Py.bind ?c _ = _ -> _ => destruct c as [errs | e]; simpl
  end; [| discriminate].
  intros H; injection H as Hlen <-.
  destruct errs; [auto | discriminate].
Qed.

Lemma update_env_state_succeeds
    (ctx ctx' : CtxState) (tid : string) (env : EnvName.t)
    (new_state : EnvState.t) (ev : Evidence) (reason : string)
    (now : datetime) (b : bool) :
  update_env_state ctx tid env new_state ev reason now = (ctx', Return b) ->
  b = true
  /\ exists repo thread env_obj,
       thread_repo ctx = Some repo
       /\ Database.get_thread repo tid now = Some thread
       /\ Py.get EnvName.eqb env (environments thread) = Some env_obj
       /\ StateMachine.validate_transition (state env_obj) new_state env ev
                                           (Some thread)
          = Return (true, [])
       /\ StateMachine.can_transition (state env_obj) new_state = Return true
       /\ length (stored_audit ctx') = S (length (stored_audit ctx)).
Proof.
  unfold update_env_state, stored_audit.
  destruct (thread_repo ctx) as [repo |] eqn:Hrepo; [| discriminate].
  destruct (Database.get_thread repo tid now) as [thread |] eqn:Hget;
    [| discriminate].
  destruct (Py.get EnvName.eqb env (environments thread)) as [env_obj |] eqn:Henv;
    [| discriminate].
  destruct (StateMachine.validate_transition _ _ _ _ _)
    as [[ok errors] | e0] eqn:Hval; [| discriminate].
  destruct ok; simpl negb; cbv iota; [| discriminate].
  destruct (validate_transition_valid_nil _ _ _ _ _ _ Hval) as [-> Hcan].
  unfold Database.update_thread.
  destruct (negb (Database.has_thread repo _)); [discriminate |].
  destruct (Database.env_rows _ _); [| discriminate].
  simpl. intros H; injection H as <- <-.
  split; [reflexivity |].
  exists repo, thread, env_obj. simpl.
  repeat (split; [first [reflexivity | assumption] |]).
  rewrite length_app. simpl. lia.
Qed.


(** [update_env_state] returns only [True], and only when the thread and
    the environment exist and [validate_transition], given the stored state
    of the environment and the whole thread, reported valid with no error;
    exactly one audit entry is then appended. *)
Theorem update_env_state_success
    (ctx ctx' : CtxState) (tid : string) (env : EnvName.t)
    (new_state : EnvState.t) (ev : Evidence) (reason : string)
    (now : datetime) (b : bool) :
  update_env_state ctx tid env new_state ev reason now = (ctx', Return b) ->
  b = true
  /\ exists repo thread env_obj,
       thread_repo ctx = Some repo
       /\ Database.get_thread repo tid now = Some thread
       /\ Py.get EnvName.eqb env (environments thread) = Some env_obj
       /\ StateMachine.validate_transition (state env_obj) new_state env ev
                                           (Some thread)
          = Return (true, [])
       /\ StateMachine.can_transition (state env_obj) new_state = Return true
       /\ length (stored_audit ctx') = S (length (stored_audit ctx)).
Proof.
  exact (update_env_state_succeeds ctx ctx' tid env new_state ev reason now b).
Qed.

Lemma update_env_state_success_witness :
  update_env_state ctx_created "t-1" EnvName.dev EnvState.blocked
                   Evidence_default "waiting for the vendor" 5%Z
  = (ctx_blocked, Return true)
  /\ length (stored_audit ctx_blocked)
     = S (length (stored_audit ctx_created)).
Proof.
  assert (H : update_env_state ctx_created "t-1" EnvName.dev
                EnvState.blocked Evidence_default "waiting for the vendor" 5%Z
              = (ctx_blocked, Return true))
    by (vm_compute; reflexivity).
  split; [exact H |].
  destruct (update_env_state_success _ _ _ _ _ _ _ _ _ H)
    as [_ [repo [thread [env_obj [_ [_ [_ [_ [_ Hlen]]]]]]]]].
  exact Hlen.
Defined.

Lemma derived_loop_lists (items : list (EnvName.t * Environment)) :
  forall th : ClientThread,
    let th' :=
      fold_left
        (fun thread item =>
           with_derived thread
             (Models.blockers thread
                ++ StateMachine.get_blockers (snd item) thread)
             (Models.next_actions thread
                ++ StateMachine.get_next_actions (snd item) thread))
        items th in
    blockers th'
    = blockers th
      ++ flat_map (fun e => StateMachine.get_blockers e th) (map snd items)
    /\ next_actions th'
       = next_actions th
         ++ flat_map (fun e => StateMachine.get_next_actions e th)
                     (map snd items).
Proof.
  induction items as [| item items IH]; intros th; simpl.
  - rewrite !app_nil_r. split; reflexivity.
  - destruct (IH (with_derived th
                    (Models.blockers th ++ StateMachine.get_blockers (snd item) th)
                    (Models.next_actions th
                       ++ StateMachine.get_next_actions (snd item) th)))
      as [H1 H2].
    simpl in H1, H2. rewrite H1, H2. simpl. rewrite <- !app_assoc.
    split; reflexivity.
Qed.

(** The derived lists are rebuilt from nothing: after the recomputation the
    blockers (and the next actions) of a thread are the blockers (the next
    actions) of its environments, concatenated in the order of the map;
    what the lists held before plays no part, and the environments are not
    touched. *)
Theorem recompute_derived_lists (thread : ClientThread) :
  blockers (recompute_derived thread)
  = flat_map (fun e => StateMachine.get_blockers e thread)
             (Py.values (environments thread))
  /\ next_actions (recompute_derived thread)
     = flat_map (fun e => StateMachine.get_next_actions e thread)
                (Py.values (environments thread))
  /\ environments (recompute_derived thread) = environments thread.
Proof.
  destruct (derived_loop_lists (Py.items (environments thread))
              (with_derived thread [] [])) as [H1 H2].
  split; [exact H1 |]. split; [exact H2 |].
  apply recompute_derived_environments.
Qed.

End ToolsMore.

(* ================================================================== *)
(** * Properties of the repository *)
(* ================================================================== *)

Module DatabaseFacts.
Import StateMachineFacts InvariantFacts.

Lemma EnvName_eqb_refl (k : EnvName.t) : EnvName.eqb k k = true.
Proof. destruct k; reflexivity. Qed.

Lemma EnvName_eqb_neq (a b : EnvName.t) : EnvName.eqb a b = false <-> a <> b.
Proof. destruct a, b; simpl; split; congruence. Qed.

Lemma env_get_set_same (k : EnvName.t) (v : Environment) (d : Environments) :
  Py.get EnvName.eqb k (Py.set EnvName.eqb k v d) = Some v.
Proof.
  induction d as [| [k0 v0] d IH]; simpl.
  - rewrite EnvName_eqb_refl. reflexivity.
  - destruct (EnvName.eqb k0 k) eqn:E; simpl; rewrite E; [reflexivity | exact IH].
Qed.

Lemma env_get_set_other (k k' : EnvName.t) (v : Environment) (d : Environments) :
  EnvName.eqb k k' = false ->
  Py.get EnvName.eqb k' (Py.set EnvName.eqb k v d) = Py.get EnvName.eqb k' d.
Proof.
  intros Hne. induction d as [| [k0 v0] d IH]; simpl.
  - rewrite Hne. reflexivity.
  - destruct (EnvName.eqb k0 k) eqn:E; simpl.
    + apply EnvName_eqb_eq in E. subst k0. rewrite Hne. reflexivity.
    + destruct (EnvName.eqb k0 k'); [reflexivity | exact IH].
Qed.

(** ** Encoding and decoding an environment *)

(** The encoder accepts an environment exactly when it holds no ticket, no
    secret, no screenshot and no redirect URIs. *)
Lemma serialize_some (e : Environment) :
  (exists d, Database.json_encode (Database._serialize_environment e) = Some d)
  <-> tickets (evidence e) = [] /\ secret (evidence e) = None
      /\ screenshots (evidence e) = [] /\ redirect_uris e = None.
Proof.
  unfold Database.json_encode, Database._serialize_environment.
  destruct (tickets (evidence e)), (secret (evidence e)),
           (screenshots (evidence e)), (redirect_uris e);
    split; try (intros [d H]; discriminate H);
    try (intros [H1 [H2 [H3 H4]]]; discriminate);
    [auto | intros _; eexists; reflexivity].
Qed.

Lemma deserialize_serialize (k : EnvName.t) (e : Environment)
    (d : EnvironmentData) :
  Database.json_encode (Database._serialize_environment e) = Some d ->
  Database._deserialize_environment k d = stored_as k e.
Proof.
  destruct e as [n st [t se sc em no] r pe lu].
  unfold Database.json_encode, Database._serialize_environment. simpl.
  destruct t, se, sc, r; try discriminate.
  intros H; injection H as <-. reflexivity.
Qed.

Lemma serialize_deserialize (k : EnvName.t) (d : EnvironmentData) :
  exists d', Database.json_encode
               (Database._serialize_environment
                  (Database._deserialize_environment k d)) = Some d'.
Proof. eexists. reflexivity. Qed.

Lemma stored_as_same (k : EnvName.t) (e : Environment) :
  name e = k -> stored_as k e = e.
Proof. destruct e. simpl. intros ->. reflexivity. Qed.

(** ** Reading *)

(** With one row per kind, the environment read for a kind is the one of
    its row. *)
Lemma get_fold_env_step (k : EnvName.t) (l : list EnvironmentStateDB) :
  forall d0 : Environments,
    NoDup (map es_env l) ->
    Py.get EnvName.eqb k (fold_left env_step l d0)
    = match find (fun r => EnvName.eqb (es_env r) k) l with
      | Some r => Some (Database._deserialize_environment (es_env r) (es_data r))
      | None => Py.get EnvName.eqb k d0
      end.
Proof.
  induction l as [| r l IH]; intros d0 Hnd; simpl; [reflexivity |].
  inversion Hnd as [| x xs Hnotin Hnd']; subst.
  rewrite (IH _ Hnd'). unfold env_step at 1. simpl.
  destruct (EnvName.eqb (es_env r) k) eqn:E.
  - apply EnvName_eqb_eq in E.
    destruct (find (fun r0 => EnvName.eqb (es_env r0) k) l) as [r' |] eqn:F.
    + exfalso. apply find_some in F as [Hin Hk]. apply EnvName_eqb_eq in Hk.
      apply Hnotin. rewrite E, <- Hk. apply in_map. exact Hin.
    + rewrite <- E. apply env_get_set_same.
  - rewrite (env_get_set_other _ _ _ _ E). reflexivity.
Qed.

(** With one row per kind, the keys of the map come in the order of the
    rows. *)
Lemma keys_fold_env_step (l : list EnvironmentStateDB) :
  forall d0 : Environments,
    NoDup (Py.keys d0 ++ map es_env l) ->
    Py.keys (fold_left env_step l d0) = Py.keys d0 ++ map es_env l.
Proof.
  induction l as [| r l IH]; intros d0 Hnd; simpl.
  - rewrite app_nil_r. reflexivity.
  - assert (Hset : Py.keys (env_step d0 r) = Py.keys d0 ++ [es_env r]).
    { unfold env_step. simpl.
      assert (Hnotin : ~ In (es_env r) (Py.keys d0)).
      { intros Hin. apply NoDup_remove_2 in Hnd. apply Hnd.
        apply in_or_app. left. exact Hin. }
      clear - Hnotin. induction d0 as [| [k0 v0] d0 IH]; simpl; [reflexivity |].
      destruct (EnvName.eqb k0 (es_env r)) eqn:E.
      - exfalso. apply Hnotin. left. apply EnvName_eqb_eq. exact E.
      - simpl. rewrite IH; [reflexivity |].
        intros Hin. apply Hnotin. right. exact Hin. }
    rewrite IH; rewrite Hset; rewrite <- app_assoc; simpl; [reflexivity |].
    exact Hnd.
Qed.

Lemma find_filter_rows (rows : list EnvironmentStateDB) (tid : string)
    (k : EnvName.t) :
  find (fun r => EnvName.eqb (es_env r) k)
       (filter (fun r => String.eqb (es_thread_id r) tid) rows)
  = row_for rows tid k.
Proof.
  unfold row_for. induction rows as [| r rows IH]; simpl; [reflexivity |].
  destruct (String.eqb (es_thread_id r) tid); simpl; [| exact IH].
  destruct (EnvName.eqb (es_env r) k); [reflexivity | exact IH].
Qed.

Lemma find_app_none {A} (p : A -> bool) (l l' : list A) :
  existsb p l = false -> find p (l ++ l') = find p l'.
Proof.
  induction l as [| x l IH]; simpl; [reflexivity |].
  destruct (p x); simpl; [discriminate | exact IH].
Qed.

Lemma find_filter_same {A} (p : A -> bool) (l l' : list A) :
  find p (filter p l ++ l')
  = match find p l with Some x => Some x | None => find p l' end.
Proof.
  induction l as [| x l IH]; simpl; [reflexivity |].
  destruct (p x) eqn:E; simpl; [rewrite E; reflexivity | exact IH].
Qed.

Lemma find_filter_other (k k' : EnvName.t) (rows l' : list EnvironmentStateDB) :
  EnvName.eqb k' k = false ->
  find (fun r => EnvName.eqb (es_env r) k)
       (filter (fun r => EnvName.eqb (es_env r) k') rows ++ l')
  = find (fun r => EnvName.eqb (es_env r) k) l'.
Proof.
  intros H. apply find_app_none. rewrite existsb_filter_env, H. reflexivity.
Qed.

(** The row read for a kind is the row stored for it, whatever the order of
    reading. *)
Lemma find_env_states (repo : ThreadRepository) (tid : string) (k : EnvName.t) :
  find (fun r => EnvName.eqb (es_env r) k) (Database.env_states repo tid)
  = row_for (environment_state repo) tid k.
Proof.
  rewrite <- find_filter_rows.
  unfold Database.env_states, Database.primary_key_order. cbn [flat_map].
  destruct k.
  - rewrite find_filter_same.
    destruct (find _ (filter _ (environment_state repo))); [reflexivity |].
    rewrite !find_filter_other by reflexivity. reflexivity.
  - rewrite !find_filter_other by reflexivity.
    rewrite find_filter_same.
    destruct (find _ (filter _ (environment_state repo))); reflexivity.
  - rewrite find_filter_other by reflexivity.
    rewrite find_filter_same.
    destruct (find _ (filter _ (environment_state repo))); [reflexivity |].
    rewrite find_filter_other by reflexivity. reflexivity.
Qed.

Lemma by_env_permutation (l : list EnvironmentStateDB) :
  Permutation l
    (flat_map (fun k => filter (fun r => EnvName.eqb (es_env r) k) l)
              Database.primary_key_order).
Proof.
  unfold Database.primary_key_order. cbn [flat_map].
  induction l as [| r l IH]; [constructor |].
  simpl. destruct (es_env r); simpl.
  - apply perm_skip. exact IH.
  - rewrite app_assoc. apply Permutation_cons_app. rewrite <- app_assoc.
    exact IH.
  - apply Permutation_cons_app. exact IH.
Qed.

Lemma env_states_permutation (repo : ThreadRepository) (tid : string) :
  Permutation
    (filter (fun r => String.eqb (es_thread_id r) tid) (environment_state repo))
    (Database.env_states repo tid).
Proof. apply by_env_permutation. Qed.

Lemma NoDup_env_of_rows (rows : list EnvironmentStateDB) (tid : string) :
  NoDup (map row_key rows) ->
  NoDup (map es_env (filter (fun r => String.eqb (es_thread_id r) tid) rows)).
Proof.
  induction rows as [| r rows IH]; simpl; intros Hnd; [constructor |].
  inversion Hnd as [| x xs Hnotin Hnd']; subst.
  destruct (String.eqb (es_thread_id r) tid) eqn:E; simpl; [| auto].
  constructor; [| auto].
  intros Hin. apply in_map_iff in Hin as [r' [Hk Hin]].
  apply filter_In in Hin as [Hin Ht].
  apply Hnotin. apply in_map_iff. exists r'. split; [| exact Hin].
  unfold row_key. apply String.eqb_eq in E, Ht. congruence.
Qed.

Lemma NoDup_env_states (repo : ThreadRepository) (tid : string) :
  unique_rows repo ->
  NoDup (map es_env (Database.env_states repo tid)).
Proof.
  intros Hu.
  apply (Permutation_NoDup
           (Permutation_map es_env (env_states_permutation repo tid))).
  apply NoDup_env_of_rows. exact Hu.
Qed.

Lemma env_states_nil (repo : ThreadRepository) (tid : string) :
  Database.env_states repo tid = []
  <-> filter (fun r => String.eqb (es_thread_id r) tid) (environment_state repo)
      = [].
Proof.
  pose proof (env_states_permutation repo tid) as Hp. split; intros H.
  - rewrite H in Hp. apply Permutation_sym, Permutation_nil in Hp. exact Hp.
  - rewrite H in Hp. apply Permutation_nil in Hp. exact Hp.
Qed.

Lemma row_for_some (rows : list EnvironmentStateDB) (tid : string)
    (k : EnvName.t) (r : EnvironmentStateDB) :
  row_for rows tid k = Some r -> es_thread_id r = tid /\ es_env r = k.
Proof.
  unfold row_for. intros H. apply find_some in H as [_ H].
  apply andb_prop in H as [H1 H2].
  apply String.eqb_eq in H1. apply EnvName_eqb_eq in H2. auto.
Qed.

(** The names of the environments that [get_thread] returns are the kinds
    they are stored under, and each of them is one that the encoder
    accepts. *)
Lemma shape_fold_env_step (l : list EnvironmentStateDB) :
  forall d0 : Environments,
    (forall k e, Py.get EnvName.eqb k d0 = Some e ->
                 name e = k /\ evidence e = mkEvidence [] None [] (emails (evidence e))
                                                       (notes (evidence e))
                 /\ redirect_uris e = None) ->
    forall k e,
      Py.get EnvName.eqb k (fold_left env_step l d0) = Some e ->
      name e = k /\ evidence e = mkEvidence [] None [] (emails (evidence e))
                                            (notes (evidence e))
      /\ redirect_uris e = None.
Proof.
  induction l as [| r l IH]; intros d0 Hd0; simpl; [exact Hd0 |].
  apply IH. intros k e. unfold env_step. simpl.
  destruct (EnvName.eqb (es_env r) k) eqn:E.
  - apply EnvName_eqb_eq in E. subst k. rewrite env_get_set_same.
    intros H; injection H as <-. simpl. auto.
  - rewrite (env_get_set_other _ _ _ _ E). apply Hd0.
Qed.

Lemma get_thread_shape (repo : ThreadRepository) (tid : string)
    (now : datetime) (t : ClientThread) (k : EnvName.t) (e : Environment) :
  Database.get_thread repo tid now = Some t ->
  Py.get EnvName.eqb k (environments t) = Some e ->
  name e = k
  /\ evidence e = mkEvidence [] None [] (emails (evidence e)) (notes (evidence e))
  /\ redirect_uris e = None.
Proof.
  rewrite get_thread_env_step.
  destruct (find _ (client_thread repo)) as [row |]; [| discriminate].
  intros H; injection H as <-. unfold ClientThread_init. cbn [environments].
  destruct (negb (Py.truthy_list _)).
  - destruct k; simpl; intros H; injection H as <-; simpl; auto.
  - apply shape_fold_env_step. intros k0 e0 H. discriminate H.
Qed.

Lemma get_thread_names (repo : ThreadRepository) (tid : string)
    (now : datetime) (t : ClientThread) (k : EnvName.t) (e : Environment) :
  Database.get_thread repo tid now = Some t ->
  Py.get EnvName.eqb k (environments t) = Some e ->
  name e = k.
Proof. intros H1 H2. exact (proj1 (get_thread_shape _ _ _ _ _ _ H1 H2)). Qed.

Lemma get_in_items (items : Environments) (item : EnvName.t * Environment) :
  NoDup (Py.keys items) -> In item items ->
  Py.get EnvName.eqb (fst item) items = Some (snd item).
Proof.
  induction items as [| [k v] items IH]; simpl; intros Hnd Hin; [contradiction |].
  inversion Hnd as [| x xs Hnotin Hnd']; subst.
  destruct Hin as [<- | Hin]; simpl.
  - rewrite EnvName_eqb_refl. reflexivity.
  - destruct (EnvName.eqb k (fst item)) eqn:E; [| apply IH; assumption].
    exfalso. apply EnvName_eqb_eq in E. subst k. apply Hnotin.
    unfold Py.keys. apply in_map. exact Hin.
Qed.

(** What [get_thread] reads for a kind, when the primary key holds: with no
    row for the thread, a fresh environment; otherwise the environment of
    the row of that kind, if there is one. *)
Lemma get_thread_lookup (repo : ThreadRepository) (tid : string)
    (now : datetime) (t : ClientThread) (k : EnvName.t) :
  unique_rows repo ->
  Database.get_thread repo tid now = Some t ->
  Py.get EnvName.eqb k (environments t)
  = match filter (fun r => String.eqb (es_thread_id r) tid)
                 (environment_state repo) with
    | [] => Some (Environment_default k now)
    | _ :: _ =>
        option_map (fun r => Database._deserialize_environment (es_env r)
                                                               (es_data r))
                   (row_for (environment_state repo) tid k)
    end.
Proof.
  intros Huniq. rewrite get_thread_env_step.
  destruct (find _ (client_thread repo)) as [row |]; [| discriminate].
  intros H; injection H as <-. unfold ClientThread_init. cbn [environments].
  pose proof (NoDup_env_states _ tid Huniq) as Hnd.
  pose proof (env_states_nil repo tid) as Hnil.
  rewrite <- find_env_states.
  destruct (fold_env_step (Database.env_states repo tid) [] (NoDup_nil _))
    as [_ [_ Htruthy]].
  rewrite Htruthy. cbn [Py.truthy_list orb].
  destruct (Database.env_states repo tid) as [| r rows'] eqn:Hrows.
  - rewrite (proj1 Hnil eq_refl). simpl. destruct k; reflexivity.
  - cbn [Py.truthy_list negb].
    destruct (filter _ (environment_state repo)) as [| r0 l0] eqn:Hf.
    + destruct Hnil as [_ Hnil]. discriminate (Hnil eq_refl).
    + rewrite (get_fold_env_step k _ [] Hnd).
      destruct (find _ (r :: rows')); reflexivity.
Qed.

Lemma map_env_filter (k : EnvName.t) (l : list EnvironmentStateDB) :
  NoDup (map es_env l) ->
  map es_env (filter (fun r => EnvName.eqb (es_env r) k) l)
  = if existsb (fun r => EnvName.eqb (es_env r) k) l then [k] else [].
Proof.
  induction l as [| r l IH]; simpl; intros Hnd; [reflexivity |].
  inversion Hnd as [| x xs Hnotin Hnd']; subst.
  destruct (EnvName.eqb (es_env r) k) eqn:E; simpl.
  - apply EnvName_eqb_eq in E. rewrite (IH Hnd').
    destruct (existsb _ l) eqn:Ex; [| rewrite E; reflexivity].
    exfalso. apply existsb_exists in Ex as [r' [Hin Hk]].
    apply EnvName_eqb_eq in Hk. apply Hnotin. rewrite E, <- Hk.
    apply in_map. exact Hin.
  - exact (IH Hnd').
Qed.

(** The order of the environments that [get_thread] returns: fresh ones as
    the constructor lists them, stored ones by their kind as the primary
    key orders them. *)
Lemma get_thread_keys (repo : ThreadRepository) (tid : string)
    (now : datetime) (t : ClientThread) :
  unique_rows repo ->
  Database.get_thread repo tid now = Some t ->
  Py.keys (environments t)
  = match filter (fun r => String.eqb (es_thread_id r) tid)
                 (environment_state repo) with
    | [] => [EnvName.dev; EnvName.staging; EnvName.prod]
    | _ :: _ =>
        filter (Database.has_env_row (environment_state repo) tid)
               [EnvName.dev; EnvName.prod; EnvName.staging]
    end.
Proof.
  intros Huniq. rewrite get_thread_env_step.
  destruct (find _ (client_thread repo)) as [row |]; [| discriminate].
  intros H; injection H as <-. unfold ClientThread_init. cbn [environments].
  pose proof (NoDup_env_states _ tid Huniq) as Hnd.
  pose proof (env_states_nil repo tid) as Hnil.
  destruct (fold_env_step (Database.env_states repo tid) [] (NoDup_nil _))
    as [_ [_ Htruthy]].
  rewrite Htruthy. cbn [Py.truthy_list orb].
  destruct (Database.env_states repo tid) as [| r rows'] eqn:Hrows.
  - rewrite (proj1 Hnil eq_refl). reflexivity.
  - cbn [Py.truthy_list negb].
    destruct (filter _ (environment_state repo)) as [| r0 l0] eqn:Hf.
    + destruct Hnil as [_ Hnil]. discriminate (Hnil eq_refl).
    + rewrite (keys_fold_env_step _ [] Hnd).
      replace (Py.keys [] ++ map es_env (r :: rows'))
        with (map es_env (r :: rows')) by reflexivity.
      rewrite <- Hrows.
      unfold Database.env_states, Database.primary_key_order.
      cbn [flat_map]. rewrite !map_app, app_nil_r, Hf.
      pose proof (NoDup_env_of_rows _ tid Huniq) as Hnd0. rewrite Hf in Hnd0.
      rewrite !(map_env_filter _ _ Hnd0).
      cbn [filter]. rewrite !has_env_row_filter, Hf.
      repeat match goal with
             | |- context [existsb ?f (r0 :: l0)] =>
                 destruct (existsb f (r0 :: l0))
             end; reflexivity.
Qed.

Lemma get_thread_NoDup (repo : ThreadRepository) (tid : string)
    (now : datetime) (t : ClientThread) :
  Database.get_thread repo tid now = Some t ->
  NoDup (Py.keys (environments t)).
Proof.
  rewrite get_thread_env_step.
  destruct (find _ (client_thread repo)) as [row |]; [| discriminate].
  intros H; injection H as <-. unfold ClientThread_init. cbn [environments].
  destruct (negb (Py.truthy_list _)).
  - simpl. repeat constructor; simpl; intuition discriminate.
  - apply (fold_env_step _ [] (NoDup_nil _)).
Qed.

Lemma get_thread_row_fields (repo : ThreadRepository) (tid : string)
    (now : datetime) (t : ClientThread) :
  Database.get_thread repo tid now = Some t ->
  exists row,
    find (fun r => String.eqb (db_thread_id r) tid) (client_thread repo)
    = Some row
    /\ last_update t = db_last_update row
    /\ blockers t = db_blockers row
    /\ next_actions t = db_next_actions row.
Proof.
  rewrite get_thread_env_step.
  destruct (find _ (client_thread repo)) as [row |]; [| discriminate].
  intros H; injection H as <-. exists row. repeat split; reflexivity.
Qed.

(** ** The rows built for a thread *)

Lemma env_rows_keys (thread : ClientThread) (items : Environments) :
  forall rows,
    Database.env_rows thread items = Some rows ->
    map row_key rows = map (fun k => (thread_id thread, k)) (Py.keys items).
Proof.
  induction items as [| [k v] items IH]; intros rows; simpl.
  - intros H; injection H as <-. reflexivity.
  - destruct (Database.json_encode (Database._serialize_environment v)) as [d |]; [| discriminate].
    destruct (Database.env_rows thread items) as [rest |]; [| discriminate].
    intros H; injection H as <-. simpl. rewrite (IH rest eq_refl). reflexivity.
Qed.

Lemma NoDup_env_rows (thread : ClientThread) (items : Environments)
    (rows : list EnvironmentStateDB) :
  NoDup (Py.keys items) ->
  Database.env_rows thread items = Some rows ->
  NoDup (map row_key rows).
Proof.
  intros Hnd Hrows. rewrite (env_rows_keys _ _ _ Hrows).
  clear Hrows. induction (Py.keys items) as [| k ks IH]; simpl; [constructor |].
  inversion Hnd as [| x xs Hnotin Hnd']; subst.
  constructor; [| exact (IH Hnd')].
  intros Hin. apply in_map_iff in Hin as [k' [Heq Hin]].
  injection Heq as <-. exact (Hnotin Hin).
Qed.

(** Reading the rows built for a thread gives back its environments, each
    under the name of its key. *)
Lemma row_for_env_rows (thread : ClientThread) (k : EnvName.t)
    (items : Environments) :
  forall rows,
    Database.env_rows thread items = Some rows ->
    option_map (fun r => Database._deserialize_environment (es_env r) (es_data r))
               (row_for rows (thread_id thread) k)
    = option_map (stored_as k) (Py.get EnvName.eqb k items).
Proof.
  unfold row_for.
  induction items as [| [k0 v] items IH]; intros rows; simpl.
  - intros H; injection H as <-. reflexivity.
  - destruct (Database.json_encode (Database._serialize_environment v)) as [d |] eqn:Hd; [| discriminate].
    destruct (Database.env_rows thread items) as [rest |]; [| discriminate].
    intros H; injection H as <-. simpl. rewrite String.eqb_refl. simpl.
    destruct (EnvName.eqb k0 k) eqn:E.
    + simpl. apply EnvName_eqb_eq in E. subst k0.
      rewrite (deserialize_serialize k v d Hd). reflexivity.
    + exact (IH rest eq_refl).
Qed.

(** The rows that the repository builds for a thread it has read. *)
Lemma env_rows_set (thread : ClientThread) (k : EnvName.t) (v : Environment)
    (items : Environments) :
  (exists d, Database.json_encode (Database._serialize_environment v) = Some d) ->
  (exists rows, Database.env_rows thread items = Some rows) ->
  exists rows,
    Database.env_rows thread (Py.set EnvName.eqb k v items) = Some rows.
Proof.
  intros [d Hd]. induction items as [| [k0 v0] items IH]; simpl.
  - intros _. rewrite Hd. eexists. reflexivity.
  - destruct (Database.json_encode (Database._serialize_environment v0)) as [d0 |] eqn:Hd0;
      [| intros [rows H]; discriminate H].
    destruct (Database.env_rows thread items) as [rest |] eqn:Hrest;
      [| intros [rows H]; discriminate H].
    intros _. destruct (EnvName.eqb k0 k); simpl.
    + rewrite Hd, Hrest. eexists. reflexivity.
    + rewrite Hd0. destruct (IH (ex_intro _ rest eq_refl)) as [rows ->].
      eexists. reflexivity.
Qed.

Lemma env_rows_set_inv (thread : ClientThread) (k : EnvName.t)
    (v : Environment) (items : Environments) :
  forall rows,
    Database.env_rows thread (Py.set EnvName.eqb k v items) = Some rows ->
    exists d, Database.json_encode (Database._serialize_environment v) = Some d.
Proof.
  induction items as [| [k0 v0] items IH]; simpl; intros rows.
  - destruct (Database.json_encode (Database._serialize_environment v)) as [d |];
      [intros _; eexists; reflexivity | discriminate].
  - destruct (EnvName.eqb k0 k); simpl.
    + destruct (Database.json_encode (Database._serialize_environment v)) as [d |];
        [intros _; eexists; reflexivity | discriminate].
    + destruct (Database.json_encode (Database._serialize_environment v0)); [| discriminate].
      destruct (Database.env_rows thread (Py.set EnvName.eqb k v items))
        as [rest |] eqn:Hrest; [| discriminate].
      intros _. exact (IH rest eq_refl).
Qed.

Lemma env_rows_all (thread : ClientThread) (items : Environments) :
  (forall item, In item items ->
     exists d, Database.json_encode (Database._serialize_environment (snd item)) = Some d) ->
  exists rows, Database.env_rows thread items = Some rows.
Proof.
  induction items as [| [k v] items IH]; simpl; intros H.
  - eexists. reflexivity.
  - destruct (H (k, v) (or_introl eq_refl)) as [d Hd]. simpl in Hd.
    rewrite Hd.
    destruct IH as [rows ->]; [intros item Hin; apply H; right; exact Hin |].
    eexists. reflexivity.
Qed.

Lemma env_rows_thread (thread thread' : ClientThread) (items : Environments) :
  (exists rows, Database.env_rows thread items = Some rows) ->
  exists rows, Database.env_rows thread' items = Some rows.
Proof.
  induction items as [| [k v] items IH]; simpl.
  - intros _. eexists. reflexivity.
  - destruct (Database.json_encode (Database._serialize_environment v)) as [d |];
      [| intros [rows H]; discriminate H].
    destruct (Database.env_rows thread items) as [rest |];
      [| intros [rows H]; discriminate H].
    intros _. destruct (IH (ex_intro _ rest eq_refl)) as [rows ->].
    eexists. reflexivity.
Qed.

Lemma in_get (items : Environments) (item : EnvName.t * Environment) :
  In item items -> NoDup (Py.keys items) ->
  Py.get EnvName.eqb (fst item) items = Some (snd item).
Proof. intros Hin Hnd. apply get_in_items; assumption. Qed.

(** Every environment that [get_thread] returns is one that the encoder
    accepts. *)
Lemma get_thread_env_rows (repo : ThreadRepository) (tid : string)
    (now : datetime) (t thread' : ClientThread) :
  Database.get_thread repo tid now = Some t ->
  exists rows,
    Database.env_rows thread' (Py.items (environments t)) = Some rows.
Proof.
  intros Hget. apply env_rows_all. intros [k e] Hin. simpl.
  pose proof (get_thread_NoDup _ _ _ _ Hget) as Hnd.
  pose proof (in_get _ (k, e) Hin Hnd) as Hk. simpl in Hk.
  destruct (get_thread_shape _ _ _ _ _ _ Hget Hk) as [_ [Hev Hr]].
  apply serialize_some. rewrite Hev. simpl. auto.
Qed.

(** ** Upserts *)

Lemma upsert_same_key (r row : EnvironmentStateDB) :
  String.eqb (es_thread_id r) (es_thread_id row)
  && EnvName.eqb (es_env r) (es_env row) = true ->
  mkEnvironmentStateDB (es_thread_id r) (es_env r) (es_state row) (es_data row)
  = row.
Proof.
  intros H. apply andb_prop in H as [H1 H2].
  apply String.eqb_eq in H1. apply EnvName_eqb_eq in H2.
  destruct row. simpl in *. subst. reflexivity.
Qed.

Lemma row_for_upsert (row : EnvironmentStateDB) (tid' : string)
    (k' : EnvName.t) (rows : list EnvironmentStateDB) :
  row_for (Database.upsert_env_row row rows) tid' k'
  = if String.eqb (es_thread_id row) tid' && EnvName.eqb (es_env row) k'
    then Some row
    else row_for rows tid' k'.
Proof.
  unfold row_for.
  induction rows as [| r rows IH]; simpl.
  - destruct (String.eqb (es_thread_id row) tid' && EnvName.eqb (es_env row) k');
      reflexivity.
  - destruct (String.eqb (es_thread_id r) (es_thread_id row)
              && EnvName.eqb (es_env r) (es_env row)) eqn:E; simpl.
    + rewrite (upsert_same_key r row E).
      apply andb_prop in E as [E1 E2].
      apply String.eqb_eq in E1. apply EnvName_eqb_eq in E2.
      rewrite E1, E2.
      destruct (String.eqb (es_thread_id row) tid' && EnvName.eqb (es_env row) k');
        reflexivity.
    + rewrite IH.
      destruct (String.eqb (es_thread_id r) tid' && EnvName.eqb (es_env r) k')
        eqn:T;
        destruct (String.eqb (es_thread_id row) tid' && EnvName.eqb (es_env row) k')
          eqn:M; try reflexivity.
      exfalso.
      apply andb_prop in T as [T1 T2]. apply andb_prop in M as [M1 M2].
      apply String.eqb_eq in T1, M1. apply EnvName_eqb_eq in T2, M2.
      rewrite T1, T2, M1, M2, String.eqb_refl, EnvName_eqb_refl in E.
      discriminate E.
Qed.

Lemma keys_upsert (row : EnvironmentStateDB) (rows : list EnvironmentStateDB) :
  map row_key (Database.upsert_env_row row rows)
  = if Database.has_env_row rows (es_thread_id row) (es_env row)
    then map row_key rows
    else map row_key rows ++ [row_key row].
Proof.
  unfold Database.has_env_row.
  induction rows as [| r rows IH]; simpl; [reflexivity |].
  destruct (String.eqb (es_thread_id r) (es_thread_id row)
            && EnvName.eqb (es_env r) (es_env row)); simpl; [reflexivity |].
  rewrite IH. destruct (existsb _ rows); reflexivity.
Qed.

Lemma NoDup_upsert (row : EnvironmentStateDB) (rows : list EnvironmentStateDB) :
  NoDup (map row_key rows) ->
  NoDup (map row_key (Database.upsert_env_row row rows)).
Proof.
  intros Hnd. rewrite keys_upsert.
  destruct (Database.has_env_row rows (es_thread_id row) (es_env row)) eqn:E;
    [exact Hnd |].
  apply NoDup_app; [exact Hnd | repeat constructor; intros [] |].
  intros key Hin [<- | []].
  apply in_map_iff in Hin as [r [Hkey Hin]].
  unfold Database.has_env_row in E.
  assert (existsb (fun r0 => String.eqb (es_thread_id r0) (es_thread_id row)
                             && EnvName.eqb (es_env r0) (es_env row)) rows = true);
    [| congruence].
  apply existsb_exists. exists r. split; [exact Hin |].
  unfold row_key in Hkey. injection Hkey as -> ->.
  rewrite String.eqb_refl, EnvName_eqb_refl. reflexivity.
Qed.

Lemma NoDup_upserts (new_rows : list EnvironmentStateDB) :
  forall rows,
    NoDup (map row_key rows) ->
    NoDup (map row_key
             (fold_left (fun stored row => Database.upsert_env_row row stored)
                        new_rows rows)).
Proof.
  induction new_rows as [| row new_rows IH]; intros rows Hnd; simpl;
    [exact Hnd |].
  apply IH. apply NoDup_upsert. exact Hnd.
Qed.

Lemma row_for_none (rows : list EnvironmentStateDB) (tid : string)
    (k : EnvName.t) :
  ~ In (tid, k) (map row_key rows) -> row_for rows tid k = None.
Proof.
  unfold row_for. induction rows as [| r rows IH]; simpl; intros H;
    [reflexivity |].
  destruct (String.eqb (es_thread_id r) tid && EnvName.eqb (es_env r) k) eqn:E.
  - exfalso. apply H. left. apply andb_prop in E as [E1 E2].
    apply String.eqb_eq in E1. apply EnvName_eqb_eq in E2.
    unfold row_key. congruence.
  - apply IH. intros Hin. apply H. right. exact Hin.
Qed.

Lemma row_for_upserts (tid' : string) (k' : EnvName.t)
    (new_rows : list EnvironmentStateDB) :
  forall rows,
    NoDup (map row_key new_rows) ->
    row_for (fold_left (fun stored row => Database.upsert_env_row row stored)
                       new_rows rows) tid' k'
    = match row_for new_rows tid' k' with
      | Some row => Some row
      | None => row_for rows tid' k'
      end.
Proof.
  induction new_rows as [| row new_rows IH]; intros rows Hnd; simpl;
    [reflexivity |].
  inversion Hnd as [| x xs Hnotin Hnd']; subst.
  rewrite (IH _ Hnd'). rewrite row_for_upsert.
  unfold row_for at 3. cbn [find]. fold (row_for new_rows tid' k').
  destruct (String.eqb (es_thread_id row) tid' && EnvName.eqb (es_env row) k')
    eqn:E; [| reflexivity].
  rewrite (row_for_none new_rows tid' k'); [reflexivity |].
  apply andb_prop in E as [E1 E2].
  apply String.eqb_eq in E1. apply EnvName_eqb_eq in E2.
  unfold row_key in Hnotin. rewrite E1, E2 in Hnotin. exact Hnotin.
Qed.

Lemma get_none_keys (k : EnvName.t) (d : Environments) :
  ~ In k (Py.keys d) -> Py.get EnvName.eqb k d = None.
Proof.
  induction d as [| [k0 v0] d IH]; simpl; intros H; [reflexivity |].
  destruct (EnvName.eqb k0 k) eqn:E.
  - apply EnvName_eqb_eq in E. exfalso. apply H. left. exact E.
  - apply IH. intros Hin. apply H. right. exact Hin.
Qed.

Lemma get_some_keys (k : EnvName.t) (d : Environments) :
  In k (Py.keys d) -> exists v, Py.get EnvName.eqb k d = Some v.
Proof.
  induction d as [| [k0 v0] d IH]; simpl; intros H; [contradiction |].
  destruct (EnvName.eqb k0 k) eqn:E; [eexists; reflexivity |].
  destruct H as [H | H]; [| exact (IH H)].
  apply EnvName_eqb_eq in H. congruence.
Qed.

Lemma find_update_thread_row (thread : ClientThread)
    (rows : list ClientThreadDB) :
  find (fun r => String.eqb (db_thread_id r) (thread_id thread))
       (Database.update_thread_row thread rows)
  = option_map
      (fun r => mkClientThreadDB (db_thread_id r) (display_name thread)
                  (owner thread) (db_created_by r) (db_created_at r)
                  (last_update thread) (blockers thread) (next_actions thread)
                  (metadata thread))
      (find (fun r => String.eqb (db_thread_id r) (thread_id thread)) rows).
Proof.
  induction rows as [| r rows IH]; simpl; [reflexivity |].
  destruct (String.eqb (db_thread_id r) (thread_id thread)) eqn:E; simpl;
    rewrite E; [reflexivity | exact IH].
Qed.

(** ** What a successful update stores *)

Lemma update_env_state_unfold
    (ctx ctx' : Tools.CtxState) (repo : ThreadRepository) (tid : string)
    (env : EnvName.t) (new_state : EnvState.t) (ev : Evidence)
    (reason : string) (now : datetime) (b : bool) :
  Tools.thread_repo ctx = Some repo ->
  Tools.update_env_state ctx tid env new_state ev reason now = (ctx', Return b) ->
  exists thread env_obj thread' new_rows repo',
    Database.get_thread repo tid now = Some thread
    /\ Py.get EnvName.eqb env (environments thread) = Some env_obj
    /\ thread'
       = Tools.recompute_derived
           (Tools.with_last_update
              (Tools.with_environments thread
                 (Py.set EnvName.eqb env
                    (Tools.assign_env env_obj new_state ev now)
                    (environments thread))) now)
    /\ Database.has_thread repo (thread_id thread') = true
    /\ Database.env_rows thread' (Py.items (environments thread'))
       = Some new_rows
    /\ Tools.thread_repo ctx' = Some repo'
    /\ client_thread repo'
       = Database.update_thread_row thread' (client_thread repo)
    /\ environment_state repo'
       = fold_left (fun stored row => Database.upsert_env_row row stored)
                   new_rows (environment_state repo)
    /\ length (audit_log repo') = S (length (audit_log repo)).
Proof.
  intros Hrepo. unfold Tools.update_env_state. rewrite Hrepo.
  destruct (Database.get_thread repo tid now) as [thread |] eqn:Hget;
    [| discriminate].
  destruct (Py.get EnvName.eqb env (environments thread)) as [env_obj |] eqn:Henv;
    [| discriminate].
  destruct (StateMachine.validate_transition _ _ _ _ _)
    as [[ok errors] | e0]; [| discriminate].
  destruct ok; simpl negb; cbv iota; [| discriminate].
  unfold Database.update_thread.
  destruct (negb (Database.has_thread repo _)) eqn:Hhas; [discriminate |].
  apply negb_false_iff in Hhas.
  destruct (Database.env_rows _ _) as [new_rows |] eqn:Hrows; [| discriminate].
  cbn [fst snd Database.add_audit_log]. intros H; injection H as <- _.
  exists thread, env_obj. do 2 eexists. eexists.
  split; [reflexivity |]. split; [exact Henv |].
  split; [reflexivity |]. split; [exact Hhas |]. split; [exact Hrows |].
  split; [reflexivity |]. split; [reflexivity |]. split; [reflexivity |].
  cbn [audit_log]. rewrite length_app. simpl. lia.
Qed.

Lemma derived_loop_last_update (items : list (EnvName.t * Environment)) :
  forall th : ClientThread,
    last_update
      (fold_left
         (fun thread item =>
            Tools.with_derived thread
              (Models.blockers thread
                 ++ StateMachine.get_blockers (snd item) thread)
              (Models.next_actions thread
                 ++ StateMachine.get_next_actions (snd item) thread))
         items th)
    = last_update th.
Proof.
  induction items as [| item items IH]; intros th; simpl; [reflexivity |].
  rewrite IH. reflexivity.
Qed.

Lemma keys_set_filter (d : Environments) (k : EnvName.t) (v v0 : Environment)
    (l : list EnvName.t) :
  Py.get EnvName.eqb k d = Some v0 ->
  filter (fun k' => Py.contains EnvName.eqb k'
                      (Py.keys (Py.set EnvName.eqb k v d))) l
  = filter (fun k' => Py.contains EnvName.eqb k' (Py.keys d)) l.
Proof.
  intros Hget. apply filter_ext. intros k'. rewrite contains_keys_set.
  destruct (EnvName.eqb k k') eqn:E; [| apply orb_false_r].
  apply EnvName_eqb_eq in E. subst k'.
  rewrite (get_contains _ _ _ Hget). reflexivity.
Qed.

Lemma update_env_state_stored
    (ctx ctx' : Tools.CtxState) (repo : ThreadRepository) (tid : string)
    (env : EnvName.t) (new_state : EnvState.t) (ev : Evidence)
    (reason : string) (now : datetime) (b : bool) :
  Tools.thread_repo ctx = Some repo ->
  unique_rows repo ->
  Tools.update_env_state ctx tid env new_state ev reason now = (ctx', Return b) ->
  exists repo' thread env_obj,
    Tools.thread_repo ctx' = Some repo'
    /\ unique_rows repo'
    /\ Database.get_thread repo tid now = Some thread
    /\ Py.get EnvName.eqb env (environments thread) = Some env_obj
    /\ dated ev = false
    /\ forall now',
         exists t',
           Database.get_thread repo' tid now' = Some t'
           /\ Py.get EnvName.eqb env (environments t')
              = Some (mkEnvironment env new_state ev None (people env_obj) now)
           /\ (forall k, EnvName.eqb env k = false ->
                 Py.get EnvName.eqb k (environments t')
                 = Py.get EnvName.eqb k (environments thread))
           /\ Py.keys (environments t')
              = filter (fun k => Py.contains EnvName.eqb k
                                   (Py.keys (environments thread)))
                       [EnvName.dev; EnvName.prod; EnvName.staging]
           /\ last_update t' = now
           /\ blockers t'
              = flat_map (fun e => StateMachine.get_blockers e thread)
                  (Py.values
                     (Py.set EnvName.eqb env
                        (Tools.assign_env env_obj new_state ev now)
                        (environments thread)))
           /\ next_actions t'
              = flat_map (fun e => StateMachine.get_next_actions e thread)
                  (Py.values
                     (Py.set EnvName.eqb env
                        (Tools.assign_env env_obj new_state ev now)
                        (environments thread))).
Proof.
  intros Hrepo Huniq Hrun.
  destruct (update_env_state_unfold _ _ _ _ _ _ _ _ _ _ Hrepo Hrun)
    as [thread [env_obj [thread' [new_rows [repo'
         [Hget [Henv [Hth' [Hhas [Hrows [Hrepo' [Hct [Hes _]]]]]]]]]]]]].
  pose proof (get_thread_id _ _ _ _ Hget) as Hid.
  set (env_obj' := Tools.assign_env env_obj new_state ev now) in *.
  set (base := Tools.with_last_update
                 (Tools.with_environments thread
                    (Py.set EnvName.eqb env env_obj' (environments thread)))
                 now) in *.
  destruct (recompute_derived_environments base) as [Henvs' Hid'].
  rewrite <- Hth' in Henvs', Hid'. simpl in Henvs', Hid'.
  rewrite Hid in Hid'.
  assert (Hlists : last_update thread' = now
                   /\ blockers thread'
                      = flat_map (fun e => StateMachine.get_blockers e thread)
                          (Py.values (Py.set EnvName.eqb env env_obj'
                                             (environments thread)))
                   /\ next_actions thread'
                      = flat_map (fun e => StateMachine.get_next_actions e thread)
                          (Py.values (Py.set EnvName.eqb env env_obj'
                                             (environments thread)))).
  { rewrite Hth'. unfold Tools.recompute_derived.
    destruct (ToolsMore.derived_loop_lists (Py.items (environments base))
                (Tools.with_derived base [] [])) as [Hbl Hna].
    rewrite derived_loop_last_update. cbv zeta in Hbl, Hna.
    rewrite Hbl, Hna. repeat split; reflexivity. }
  destruct Hlists as [Hlu [Hbl Hna]].
  assert (Huniq' : unique_rows repo').
  { unfold unique_rows. rewrite Hes. apply NoDup_upserts. exact Huniq. }
  assert (Hnd' : NoDup (Py.keys (Py.items (environments thread')))).
  { unfold Py.items. rewrite Henvs'. apply NoDup_keys_set.
    exact (get_thread_NoDup _ _ _ _ Hget). }
  pose proof (NoDup_env_rows _ _ _ Hnd' Hrows) as Hndrows.
  assert (Hkeys_rows : forall k,
             row_for new_rows tid k = None
             <-> Py.get EnvName.eqb k
                        (Py.set EnvName.eqb env env_obj' (environments thread))
                 = None).
  { intros k.
    pose proof (row_for_env_rows thread' k _ _ Hrows) as Hr.
    rewrite Hid' in Hr. unfold Py.items in Hr. rewrite Henvs' in Hr.
    destruct (row_for new_rows tid k), (Py.get EnvName.eqb k _);
      simpl in Hr; split; intros H; congruence. }
  assert (Hread : forall k,
             option_map (fun r => Database._deserialize_environment
                                    (es_env r) (es_data r))
                        (row_for (environment_state repo') tid k)
             = match Py.get EnvName.eqb k
                       (Py.set EnvName.eqb env env_obj' (environments thread)) with
               | Some v => Some (stored_as k v)
               | None =>
                   option_map (fun r => Database._deserialize_environment
                                          (es_env r) (es_data r))
                              (row_for (environment_state repo) tid k)
               end).
  { intros k. rewrite Hes. rewrite (row_for_upserts _ _ _ _ Hndrows).
    pose proof (row_for_env_rows thread' k _ _ Hrows) as Hr.
    rewrite Hid' in Hr. unfold Py.items in Hr. rewrite Henvs' in Hr.
    destruct (row_for new_rows tid k) as [row |] eqn:Hrow.
    - rewrite Hr.
      destruct (Py.get EnvName.eqb k _) as [v |] eqn:Hv; [reflexivity |].
      apply Hkeys_rows in Hv. congruence.
    - apply Hkeys_rows in Hrow. rewrite Hrow. reflexivity. }
  assert (Hser : exists d, Database.json_encode (Database._serialize_environment env_obj') = Some d).
  { unfold Py.items in Hrows. rewrite Henvs' in Hrows.
    exact (env_rows_set_inv _ _ _ _ _ Hrows). }
  apply serialize_some in Hser. unfold env_obj' in Hser. simpl in Hser.
  destruct Hser as [Ht [Hs [Hsc Hr]]].
  destruct (get_thread_shape _ _ _ _ _ _ Hget Henv) as [Hname [_ Hred]].
  exists repo', thread, env_obj.
  split; [exact Hrepo' |]. split; [exact Huniq' |].
  split; [exact Hget |]. split; [exact Henv |].
  split; [unfold dated; rewrite Ht, Hs, Hsc; reflexivity |].
  intros now'.
  assert (Hhas' : Database.has_thread repo' tid = true).
  { unfold Database.has_thread. rewrite Hct, has_thread_update_thread_row.
    rewrite <- Hid'. exact Hhas. }
  apply (get_thread_has_thread repo' tid now') in Hhas' as [t' Hget'].
  exists t'. split; [exact Hget' |].
  assert (Hsome : filter (fun r => String.eqb (es_thread_id r) tid)
                         (environment_state repo') <> []).
  { intros Hnil.
    pose proof (find_filter_rows (environment_state repo') tid env) as Hf.
    rewrite Hnil in Hf. simpl in Hf.
    pose proof (Hread env) as He. rewrite <- Hf, env_get_set_same in He.
    discriminate He. }
  assert (Hlook : forall k,
             Py.get EnvName.eqb k (environments t')
             = option_map (fun r => Database._deserialize_environment
                                      (es_env r) (es_data r))
                          (row_for (environment_state repo') tid k)).
  { intros k. rewrite (get_thread_lookup _ _ _ _ k Huniq' Hget').
    destruct (filter _ (environment_state repo')); [congruence | reflexivity]. }
  assert (Hother : forall k, EnvName.eqb env k = false ->
             Py.get EnvName.eqb k (environments t')
             = Py.get EnvName.eqb k (environments thread)).
  { intros k Hk. rewrite Hlook, Hread, (env_get_set_other _ _ _ _ Hk).
    destruct (Py.get EnvName.eqb k (environments thread)) as [v |] eqn:Hv.
    + rewrite (stored_as_same k v); [reflexivity |].
      exact (get_thread_names _ _ _ _ _ _ Hget Hv).
    + pose proof (get_thread_lookup _ _ now _ k Huniq Hget) as Ho.
      rewrite Hv in Ho.
      destruct (filter _ (environment_state repo)); [discriminate Ho |].
      symmetry. exact Ho. }
  split; [| split; [exact Hother | split; [| split; [| split]]]].
  - rewrite Hlook, Hread, env_get_set_same. unfold env_obj', stored_as.
    simpl. rewrite Hred. reflexivity.
  - rewrite (get_thread_keys _ _ _ _ Huniq' Hget').
    destruct (filter _ (environment_state repo')) as [| r0 l0] eqn:Hf;
      [congruence |].
    apply filter_ext. intros k.
    pose proof (Hlook k) as Hk.
    assert (Hrow : Database.has_env_row (environment_state repo') tid k
                   = match row_for (environment_state repo') tid k with
                     | Some _ => true
                     | None => false
                     end).
    { unfold Database.has_env_row, row_for.
      clear. induction (environment_state repo') as [| r l IH]; simpl;
        [reflexivity |].
      destruct (String.eqb (es_thread_id r) tid && EnvName.eqb (es_env r) k);
        [reflexivity | exact IH]. }
    rewrite Hrow.
    destruct (EnvName.eqb env k) eqn:E.
    + apply EnvName_eqb_eq in E. subst k.
      rewrite (get_contains _ _ _ Henv).
      pose proof (Hread env) as He. rewrite env_get_set_same in He.
      destruct (row_for (environment_state repo') tid env);
        [reflexivity | discriminate He].
    + rewrite (Hother k E) in Hk.
      destruct (Py.get EnvName.eqb k (environments thread)) as [v |] eqn:Hv.
      * rewrite (get_contains _ _ _ Hv).
        destruct (row_for (environment_state repo') tid k);
          [reflexivity | discriminate Hk].
      * destruct (row_for (environment_state repo') tid k);
          [discriminate Hk |].
        destruct (Py.contains EnvName.eqb k (Py.keys (environments thread)))
          eqn:Hc; [| reflexivity].
        exfalso. apply contains_In in Hc.
        destruct (get_some_keys _ _ Hc) as [v Hv']. congruence.
  - destruct (get_thread_row_fields _ _ _ _ Hget') as [row [Hfind [H1 _]]].
    rewrite Hct, <- Hid', find_update_thread_row in Hfind.
    destruct (find _ (client_thread repo)) as [row0 |]; [| discriminate].
    simpl in Hfind. injection Hfind as <-. rewrite H1. exact Hlu.
  - destruct (get_thread_row_fields _ _ _ _ Hget') as [row [Hfind [_ [H2 _]]]].
    rewrite Hct, <- Hid', find_update_thread_row in Hfind.
    destruct (find _ (client_thread repo)) as [row0 |]; [| discriminate].
    simpl in Hfind. injection Hfind as <-. rewrite H2. exact Hbl.
  - destruct (get_thread_row_fields _ _ _ _ Hget') as [row [Hfind [_ [_ H3]]]].
    rewrite Hct, <- Hid', find_update_thread_row in Hfind.
    destruct (find _ (client_thread repo)) as [row0 |]; [| discriminate].
    simpl in Hfind. injection Hfind as <-. rewrite H3. exact Hna.
Qed.



(** ** Creation and reading back *)









(** ** The approval email task *)

Lemma dated_false (ev : Evidence) :
  dated ev = false
  <-> tickets ev = [] /\ secret ev = None /\ screenshots ev = [].
Proof.
  unfold dated.
  destruct (tickets ev), (secret ev), (screenshots ev); simpl;
    split; try discriminate; try (intros [H1 [H2 H3]]; discriminate); auto.
Qed.

Lemma update_env_state_runs
    (ctx : Tools.CtxState) (repo : ThreadRepository) (tid : string)
    (env : EnvName.t) (new_state : EnvState.t) (ev : Evidence)
    (reason : string) (now : datetime) (thread : ClientThread)
    (env_obj : Environment) :
  Tools.thread_repo ctx = Some repo ->
  Database.get_thread repo tid now = Some thread ->
  Py.get EnvName.eqb env (environments thread) = Some env_obj ->
  StateMachine.validate_transition (state env_obj) new_state env ev (Some thread)
  = Return (true, []) ->
  dated ev = false ->
  snd (Tools.update_env_state ctx tid env new_state ev reason now) = Return true.
Proof.
  intros Hrepo Hget Henv Hval Hdated.
  unfold Tools.update_env_state. rewrite Hrepo, Hget, Henv, Hval.
  simpl negb. cbv iota. unfold Database.update_thread.
  set (thread' := Tools.recompute_derived _).
  destruct (recompute_derived_environments
              (Tools.with_last_update
                 (Tools.with_environments thread
                    (Py.set EnvName.eqb env
                       (Tools.assign_env env_obj new_state ev now)
                       (environments thread))) now)) as [Henvs Hid].
  fold thread' in Henvs, Hid. simpl in Henvs, Hid.
  rewrite Hid, (get_thread_id _ _ _ _ Hget).
  assert (Hhas : Database.has_thread repo tid = true)
    by (apply (get_thread_has_thread repo tid now); exists thread; exact Hget).
  rewrite Hhas. simpl negb. cbv iota.
  assert (Hrows : exists rows,
             Database.env_rows thread' (Py.items (environments thread'))
             = Some rows).
  { unfold Py.items. rewrite Henvs. apply env_rows_set.
    - apply serialize_some. simpl.
      apply dated_false in Hdated as [H1 [H2 H3]].
      destruct (get_thread_shape _ _ _ _ _ _ Hget Henv) as [_ [_ Hr]].
      auto.
    - exact (get_thread_env_rows _ _ _ _ thread' Hget). }
  destruct Hrows as [rows ->]. reflexivity.
Qed.

(** The task that handles an approval email: when the named environment of
    the thread is in SignoffSent, it is stored as Approved with the message
    id appended to its emails and one audit entry is written; when it is in
    any other state nothing is written. *)
Theorem advance_to_approved_advances
    (repo : ThreadRepository) (tid env_name mid : string) (now : datetime)
    (thread : ClientThread) (env : EnvName.t) (e : Environment) :
  unique_rows repo ->
  Database.get_thread repo tid now = Some thread ->
  Main.EnvName_of_value env_name = Some env ->
  Py.get EnvName.eqb env (environments thread) = Some e ->
  (state e = EnvState.signoff_sent ->
   exists repo',
     Main.advance_to_approved (Some repo) tid env_name mid now = Some repo'
     /\ unique_rows repo'
     /\ length (audit_log repo') = S (length (audit_log repo))
     /\ forall now',
          exists t',
            Database.get_thread repo' tid now' = Some t'
            /\ Py.get EnvName.eqb env (environments t')
               = Some (mkEnvironment env EnvState.approved
                         (Main.append_email (evidence e) mid)
                         (redirect_uris e) (people e) now))
  /\ (state e <> EnvState.signoff_sent ->
      Main.advance_to_approved (Some repo) tid env_name mid now = Some repo).
Proof.
  intros Hu Hget Hname Henv. unfold Main.advance_to_approved.
  rewrite Hget, Hname, Henv. split.
  - intros Hst. rewrite Hst. cbn [EnvState.value].
    change (negb (String.eqb "SignoffSent" "SignoffSent")) with false.
    cbv iota.
    set (ctx := Tools.mkCtxState "system" (Some repo)).
    set (ev := Main.append_email (evidence e) mid).
    set (reason := ("Approval received via email " ++ mid)%string).
    destruct (get_thread_shape _ _ _ _ _ _ Hget Henv) as [_ [Hshape Hred]].
    assert (Hval : StateMachine.validate_transition (state e) EnvState.approved
                     env ev (Some thread) = Return (true, [])).
    { rewrite Hst. unfold StateMachine.validate_transition, ev. simpl.
      destruct (emails (evidence e)); reflexivity. }
    assert (Hdated : dated ev = false).
    { apply dated_false. unfold ev, Main.append_email. rewrite Hshape.
      simpl. auto. }
    pose proof (update_env_state_runs ctx repo tid env EnvState.approved ev
                  reason now thread e eq_refl Hget Henv Hval Hdated) as Hrun.
    destruct (Tools.update_env_state ctx tid env EnvState.approved ev reason now)
      as [ctx' out] eqn:Hupd.
    simpl in Hrun. subst out.
    destruct (update_env_state_unfold ctx ctx' repo tid env EnvState.approved
                ev reason now true eq_refl Hupd)
      as [th [eo [th' [nr [repo1 [Hg [He [_ [_ [_ [Hrepo1 [_ [_ Hlen]]]]]]]]]]]]].
    destruct (update_env_state_stored ctx ctx' repo tid env EnvState.approved ev
                reason now true eq_refl Hu Hupd)
      as [repo' [thread0 [env_obj [Hrepo' [Hu' [Hget0 [Henv0 [_ Hread]]]]]]]].
    rewrite Hget in Hget0. injection Hget0 as <-.
    rewrite Henv in Henv0. injection Henv0 as <-.
    simpl fst. rewrite Hrepo' in Hrepo1. injection Hrepo1 as <-.
    exists repo'. split; [exact Hrepo' |]. split; [exact Hu' |].
    split; [exact Hlen |].
    intros now'. destruct (Hread now') as [t' [Hg' [He' _]]].
    exists t'. split; [exact Hg' |]. rewrite Hred. exact He'.
  - intros Hst.
    assert (Hneq : negb (String.eqb (EnvState.value (state e)) "SignoffSent")
                   = true).
    { destruct (state e); try reflexivity. congruence. }
    rewrite Hneq. reflexivity.
Qed.

Lemma advance_to_approved_advances_witness :
  unique_rows repo_signoff
  /\ exists repo',
       Main.advance_to_approved (Some repo_signoff) "t-3" "dev"
                                "<approval-1@example.com>" 9%Z
       = Some repo'
       /\ length (audit_log repo') = 1%nat.
Proof.
  assert (Hu : unique_rows repo_signoff).
  { unfold unique_rows. simpl.
    repeat constructor; simpl; intuition discriminate. }
  split; [exact Hu |].
  assert (Hget : Database.get_thread repo_signoff "t-3" 9%Z
                 = Some (Tools.with_environments signoff_thread
                           [ (EnvName.dev,
                              mkEnvironment EnvName.dev EnvState.signoff_sent
                                (mkEvidence [] None []
                                   ["<signoff-1@example.com>"%string] [])
                                None PeopleSet_default 0%Z);
                             (EnvName.prod, Environment_default EnvName.prod 0%Z);
                             (EnvName.staging,
                              Environment_default EnvName.staging 0%Z) ]))
    by (vm_compute; reflexivity).
  destruct (advance_to_approved_advances repo_signoff "t-3" "dev"
              "<approval-1@example.com>" 9%Z _ EnvName.dev
              (mkEnvironment EnvName.dev EnvState.signoff_sent
                 (mkEvidence [] None [] ["<signoff-1@example.com>"%string] [])
                 None PeopleSet_default 0%Z)
              Hu Hget eq_refl eq_refl) as [H _].
  destruct (H eq_refl) as [repo' [H1 [_ [H3 _]]]].
  exists repo'. split; [exact H1 | exact H3].
Defined.

(** ** Evidence that cannot be stored *)

Lemma update_env_state_return_undated
    (ctx ctx' : Tools.CtxState) (tid : string) (env : EnvName.t)
    (new_state : EnvState.t) (ev : Evidence) (reason : string)
    (now : datetime) (b : bool) :
  Tools.update_env_state ctx tid env new_state ev reason now = (ctx', Return b) ->
  dated ev = false.
Proof.
  intros Hrun.
  destruct (Tools.thread_repo ctx) as [repo |] eqn:Hrepo;
    [| unfold Tools.update_env_state in Hrun; rewrite Hrepo in Hrun;
       discriminate Hrun].
  destruct (update_env_state_unfold _ _ _ _ _ _ _ _ _ _ Hrepo Hrun)
    as [thread [env_obj [thread' [new_rows [repo'
         [_ [_ [Hth' [_ [Hrows _]]]]]]]]]].
  destruct (recompute_derived_environments
              (Tools.with_last_update
                 (Tools.with_environments thread
                    (Py.set EnvName.eqb env
                       (Tools.assign_env env_obj new_state ev now)
                       (environments thread))) now)) as [Henvs _].
  rewrite <- Hth' in Henvs. simpl in Henvs.
  unfold Py.items in Hrows. rewrite Henvs in Hrows.
  apply env_rows_set_inv in Hrows. apply serialize_some in Hrows.
  simpl in Hrows. apply dated_false. tauto.
Qed.

Lemma update_env_state_outcome
    (ctx : Tools.CtxState) (tid : string) (env : EnvName.t)
    (new_state : EnvState.t) (ev : Evidence) (reason : string)
    (now : datetime) :
  (exists e, snd (Tools.update_env_state ctx tid env new_state ev reason now)
             = Raise e
             /\ fst (Tools.update_env_state ctx tid env new_state ev reason now)
                = ctx)
  \/ (snd (Tools.update_env_state ctx tid env new_state ev reason now)
      = Return true
      /\ dated ev = false
      /\ exists repo thread env_obj,
           Tools.thread_repo ctx = Some repo
           /\ Database.get_thread repo tid now = Some thread
           /\ Py.get EnvName.eqb env (environments thread) = Some env_obj
           /\ StateMachine.validate_transition (state env_obj) new_state env ev
                                               (Some thread)
              = Return (true, [])).
Proof.
  destruct (Tools.update_env_state ctx tid env new_state ev reason now)
    as [ctx' [b | e]] eqn:Hrun.
  - right.
    pose proof (update_env_state_return_undated _ _ _ _ _ _ _ _ _ Hrun) as Hd.
    destruct (ToolsMore.update_env_state_succeeds _ _ _ _ _ _ _ _ _ Hrun)
      as [-> [repo [thread [env_obj [H1 [H2 [H3 [H4 _]]]]]]]].
    split; [reflexivity |]. split; [exact Hd |].
    exists repo, thread, env_obj. auto.
  - left. exists e. split; [reflexivity |].
    pose proof (ToolsMore.update_env_state_raise_unchanged
                  ctx tid env new_state ev reason now e) as H.
    rewrite Hrun in H. exact (H eq_refl).
Qed.

(** Evidence that holds a ticket, a secret or a screenshot cannot be
    stored: with such evidence [update_env_state] never returns, and leaves
    the context as it was; when the thread and the environment exist and the
    transition is valid, the exception is the [StatementError] of the
    commit.  Hence no call of [update_env_state] moves an environment to
    FormsRaised, to CredsIssued or to Validated, or a dev or staging
    environment to AccessProvisioned: the evidence that the validation asks
    for is evidence that the commit refuses. *)
Theorem update_env_state_dated_evidence
    (ctx : Tools.CtxState) (tid : string) (env : EnvName.t)
    (new_state : EnvState.t) (ev : Evidence) (reason : string)
    (now : datetime) :
  (dated ev = true ->
   fst (Tools.update_env_state ctx tid env new_state ev reason now) = ctx
   /\ (exists e,
         snd (Tools.update_env_state ctx tid env new_state ev reason now)
         = Raise e)
   /\ (forall repo thread env_obj,
         Tools.thread_repo ctx = Some repo ->
         Database.get_thread repo tid now = Some thread ->
         Py.get EnvName.eqb env (environments thread) = Some env_obj ->
         StateMachine.validate_transition (state env_obj) new_state env ev
                                          (Some thread)
         = Return (true, []) ->
         snd (Tools.update_env_state ctx tid env new_state ev reason now)
         = Raise StatementError))
  /\ (new_state = EnvState.forms_raised \/ new_state = EnvState.creds_issued
      \/ new_state = EnvState.validated
      \/ (new_state = EnvState.access_provisioned /\ env <> EnvName.prod) ->
      fst (Tools.update_env_state ctx tid env new_state ev reason now) = ctx
      /\ exists e,
           snd (Tools.update_env_state ctx tid env new_state ev reason now)
           = Raise e).
Proof.
  split.
  - intros Hdated.
    destruct (update_env_state_outcome ctx tid env new_state ev reason now)
      as [[e [He Hctx]] | [_ [Hd _]]]; [| congruence].
    split; [exact Hctx |]. split; [exists e; exact He |].
    intros repo thread env_obj Hrepo Hget Henv Hval.
    unfold Tools.update_env_state. rewrite Hrepo, Hget, Henv, Hval.
    simpl negb. cbv iota. unfold Database.update_thread.
    set (thread' := Tools.recompute_derived _).
    destruct (recompute_derived_environments
                (Tools.with_last_update
                   (Tools.with_environments thread
                      (Py.set EnvName.eqb env
                         (Tools.assign_env env_obj new_state ev now)
                         (environments thread))) now)) as [Henvs Hid].
    fold thread' in Henvs, Hid. simpl in Henvs, Hid.
    rewrite Hid, (get_thread_id _ _ _ _ Hget).
    assert (Hhas : Database.has_thread repo tid = true)
      by (apply (get_thread_has_thread repo tid now); exists thread; exact Hget).
    rewrite Hhas. simpl negb. cbv iota.
    destruct (Database.env_rows thread' (Py.items (environments thread')))
      as [rows |] eqn:Hrows; [| reflexivity].
    exfalso. unfold Py.items in Hrows. rewrite Henvs in Hrows.
    apply env_rows_set_inv in Hrows. apply serialize_some in Hrows.
    simpl in Hrows.
    assert (dated ev = false) by (apply dated_false; tauto). congruence.
  - intros Htarget.
    destruct (update_env_state_outcome ctx tid env new_state ev reason now)
      as [[e [He Hctx]] | [_ [Hd [repo [thread [env_obj [_ [_ [_ Hval]]]]]]]]];
      [split; [exact Hctx | exists e; exact He] |].
    exfalso. apply dated_false in Hd as [Ht [Hs Hsc]].
    unfold StateMachine.validate_transition in Hval.
    destruct (StateMachine.can_transition (state env_obj) new_state)
      as [[|] | e0]; simpl in Hval; try discriminate Hval.
    destruct Htarget as [-> | [-> | [-> | [-> Hprod]]]]; simpl in Hval.
    + rewrite Ht in Hval. discriminate Hval.
    + rewrite Hs in Hval. discriminate Hval.
    + rewrite Hsc in Hval. discriminate Hval.
    + rewrite Ht in Hval. destruct env; simpl in Hval;
        [discriminate Hval | discriminate Hval | congruence].
Qed.

Lemma update_env_state_dated_evidence_witness :
  dated one_ticket = true
  /\ StateMachine.validate_transition EnvState.not_started EnvState.forms_raised
       EnvName.dev one_ticket (Some fresh_thread_stored)
     = Return (true, [])
  /\ Tools.update_env_state ctx_created "t-1" EnvName.dev EnvState.forms_raised
                            one_ticket "tickets raised" 5%Z
     = (ctx_created, Raise StatementError).
Proof.
  assert (Hd : dated one_ticket = true) by reflexivity.
  split; [exact Hd |]. split; [reflexivity |].
  destruct (update_env_state_dated_evidence ctx_created "t-1" EnvName.dev
              EnvState.forms_raised one_ticket "tickets raised" 5%Z)
    as [H _].
  destruct (H Hd) as [Hctx [_ Hraise]].
  pose proof (Hraise repo_created fresh_thread_stored
                (Environment_default EnvName.dev 0%Z)
                eq_refl eq_refl eq_refl eq_refl) as Hsnd.
  destruct (Tools.update_env_state ctx_created "t-1" EnvName.dev
              EnvState.forms_raised one_ticket "tickets raised" 5%Z)
    as [c r].
  simpl in Hctx, Hsnd. subst c r. reflexivity.
Defined.

End DatabaseFacts.

(* ================================================================== *)
(** * The mask of a stored secret *)
(* ================================================================== *)

Module SecretFacts.

Lemma substring_all (s : string) : substring 0 (String.length s) s = s.
Proof. induction s as [| c s IH]; simpl; [reflexivity | rewrite IH; reflexivity]. Qed.

Lemma substring_split (s : string) :
  forall n, (n <= String.length s)%nat ->
    (substring 0 n s ++ substring n (String.length s - n) s)%string = s.
Proof.
  induction s as [| c s IH]; intros n Hn; simpl in Hn.
  - assert (n = 0%nat) by lia. subst n. reflexivity.
  - destruct n as [| n].
    + simpl. rewrite substring_all. reflexivity.
    + simpl. rewrite IH; [reflexivity | lia].
Qed.

Lemma substring_length (s : string) :
  forall n m, (n + m <= String.length s)%nat ->
    String.length (substring n m s) = m.
Proof.
  induction s as [| c s IH]; intros n m H; simpl in H.
  - assert (n = 0%nat) by lia. assert (m = 0%nat) by lia. subst. reflexivity.
  - destruct n as [| n]; destruct m as [| m]; simpl; try reflexivity.
    + rewrite IH; [reflexivity | lia].
    + apply IH. lia.
    + apply IH. lia.
Qed.

(** The mask of a secret shows its last four characters and nothing else:
    a secret of at least four characters splits into a hidden part and
    four last characters, and the mask is four stars followed by those
    four; a shorter secret is masked by four stars alone. *)
Theorem secret_mask_reveals_last_four (secret : string) :
  ((4 <= String.length secret)%nat ->
   exists hidden last4,
     secret = (hidden ++ last4)%string
     /\ String.length last4 = 4%nat
     /\ Tools.secret_mask_of secret = ("****" ++ last4)%string
     /\ String.length (Tools.secret_mask_of secret) = 8%nat)
  /\ ((String.length secret < 4)%nat ->
      Tools.secret_mask_of secret = "****"%string).
Proof.
  unfold Tools.secret_mask_of. split; intros H.
  - assert (E : (4 <=? String.length secret)%nat = true)
      by (apply Nat.leb_le; exact H).
    rewrite E.
    exists (substring 0 (String.length secret - 4) secret),
           (substring (String.length secret - 4) 4 secret).
    assert (Hlen : String.length (substring (String.length secret - 4) 4 secret)
                   = 4%nat) by (apply substring_length; lia).
    split.
    + pose proof (substring_split secret (String.length secret - 4)) as Hs.
      replace (String.length secret - (String.length secret - 4))%nat
        with 4%nat in Hs by lia.
      symmetry. apply Hs. lia.
    + split; [exact Hlen |]. split; [reflexivity |].
      simpl. rewrite Hlen. reflexivity.
  - assert (E : (4 <=? String.length secret)%nat = false)
      by (apply Nat.leb_gt; exact H).
    rewrite E. reflexivity.
Qed.

End SecretFacts.

(* ================================================================== *)
(** * Blockers and next actions *)
(* ================================================================== *)

Module DerivedFacts.
Import EnvState StateMachine.

(** An environment has no next action exactly when it is Complete or
    Abandoned; it has blockers only when Blocked or ChangesRequested (one
    blocker), in FormsRaised (one blocker for each ticket whose status is
    open) or in SignoffSent (one blocker while no email is recorded). *)
Theorem derived_lists_by_state (env : Environment) (thread : ClientThread) :
  (get_next_actions env thread = [] <-> terminal (state env) = true)
  /\ length (get_blockers env thread)
     = match state env with
       | blocked | changes_requested => 1%nat
       | forms_raised =>
           length (filter (fun t => String.eqb (ticket_status t) "open")
                          (tickets (evidence env)))
       | signoff_sent =>
           match emails (evidence env) with [] => 1%nat | _ :: _ => 0%nat end
       | _ => 0%nat
       end.
Proof.
  unfold get_next_actions, get_blockers, terminal. split.
  - destruct (state env); simpl; split; intros H;
      try discriminate; try reflexivity.
    + destruct (name env); discriminate.
    + destruct (name env); discriminate.
  - destruct (state env); simpl; try reflexivity.
    + apply length_map.
    + destruct (emails (evidence env)); reflexivity.
Qed.

End DerivedFacts.
